(** * cripto_front: favorites, watchlist and paper trades over a SQLite store

    A shallow embedding of [src/api/favorites.py], [src/api/watchlist.py] and
    [src/api/paper_trades.py].  Every endpoint is a computation in a small
    monad [io] that threads the connection (committed database, uncommitted
    working copy) and may raise; the SQL statements are functions on the
    tables, which are lists of rows in rowid order.

    Conventions of the model:
    - a Python float and a REAL value are IEEE 754 doubles ([spec_float] of
      the standard library: zeros, infinities, NaN and finite values) and are
      compared as such; the code does no arithmetic on them, and the sums and
      averages that SQLite computes are kept as the list of their inputs in
      scan order, their rounding being the engine's;
    - a Python int is a [Z]; sqlite3 refuses to bind one outside the signed
      64 bits of an SQLite INTEGER, and binds a NaN as NULL;
    - TEXT is [string] (bytes); [str.upper] is modelled on ASCII letters;
    - a nullable column is an [option]; columns that the code always writes
      are not optional;
    - every call of [datetime.utcnow().isoformat()] is a reading of its own
      of the [clock] argument, which also holds SQLite's CURRENT_TIMESTAMP;
      such a reading is never a numeric literal and is stored as text;
    - a storage failure is injected by a fault plan: the n-th statement of a
      request raises [OperationalError] when the plan says so;
    - an endpoint is modelled up to the value it returns or the exception it
      raises; opening the connection, which the code does before its [try],
      and the rendering of a returned value as JSON by the framework are not
      modelled;
    - [logger] calls have no effect on the database or on the response and
      are left out. *)

From Stdlib Require Import ZArith List String Ascii Bool Lia DecimalString.
From Stdlib Require Import Floats.SpecFloat.
From Stdlib Require Import Sorting.Sorted Sorting.Permutation.
Import ListNotations.

Local Open Scope Z_scope.

(** ** Python values *)

Definition upper_char (c : ascii) : ascii :=
  let n := nat_of_ascii c in
  if (Nat.leb 97 n && Nat.leb n 122)%bool then ascii_of_nat (n - 32) else c.

(** [str.upper()] *)
Fixpoint upper (s : string) : string :=
  match s with
  | EmptyString => EmptyString
  | String c s' => String (upper_char c) (upper s')
  end.

(** [str(n)] for an int, as used by the f-strings *)
Definition str_int (n : Z) : string := NilZero.string_of_int (Z.to_int n).

(** [s or d] on strings: the empty string is falsy *)
Definition str_or (s d : string) : string :=
  match s with EmptyString => d | _ => s end.

(** [x or d] on an optional string: [None] and the empty string are falsy *)
Definition opt_str_or (x : option string) (d : string) : string :=
  match x with Some s => str_or s d | None => d end.

(** [x or d] on an optional int: [None] and [0] are falsy *)
Definition opt_int_or (x : option Z) (d : Z) : Z :=
  match x with Some 0 => d | Some n => n | None => d end.

(** truthiness of an optional string, [if status:] *)
Definition truthy (x : option string) : bool :=
  match x with Some (String _ _) => true | _ => false end.

Definition is_some {A} (x : option A) : bool :=
  match x with Some _ => true | None => false end.

(** A Python float, an SQLite REAL: an IEEE 754 double. *)
Definition float := spec_float.

Module Float.

(** the double of an integer literal *)
Definition of_Z (n : Z) : float := binary_normalize 53 1024 n 0 false.

(** [x <= y] and [x < y]: false as soon as one side is NaN *)
Definition leb (x y : float) : bool := SFleb x y.

Definition ltb (x y : float) : bool := SFltb x y.

(** [math.isnan(x)] *)
Definition is_nan (x : float) : bool :=
  match x with S754_nan => true | _ => false end.

End Float.

(** ** SQL expressions and aggregates *)

Module Sql.

(** An SQLite INTEGER is a signed 64-bit integer. *)
Definition int64 (n : Z) : bool := ((- 2 ^ 63 <=? n) && (n <? 2 ^ 63))%bool.

(** A double bound to a parameter: SQLite takes a NaN as NULL. *)
Definition bind_real (x : float) : option float :=
  if Float.is_nan x then None else Some x.

Definition is_space (c : ascii) : bool :=
  let n := nat_of_ascii c in
  (Nat.eqb n 32 || (Nat.leb 9 n && Nat.leb n 13))%bool.

Definition is_digit (c : ascii) : bool :=
  let n := nat_of_ascii c in (Nat.leb 48 n && Nat.leb n 57)%bool.

Definition is_sign (c : ascii) : bool :=
  let n := nat_of_ascii c in (Nat.eqb n 43 || Nat.eqb n 45)%bool.

Definition is_e (c : ascii) : bool :=
  let n := nat_of_ascii c in (Nat.eqb n 101 || Nat.eqb n 69)%bool.

Fixpoint skip (p : ascii -> bool) (s : string) : string :=
  match s with
  | String c s' => if p c then skip p s' else s
  | EmptyString => s
  end.

Definition skip_one (p : ascii -> bool) (s : string) : string :=
  match s with
  | String c s' => if p c then s' else s
  | EmptyString => s
  end.

Definition starts_with (p : ascii -> bool) (s : string) : bool :=
  match s with String c _ => p c | EmptyString => false end.

Definition is_empty (s : string) : bool :=
  match s with EmptyString => true | _ => false end.

(** The text reads as a number: blanks, a sign, digits, a point and more
    digits, an exponent with its sign and digits, blanks; at least one
    digit in the significand, at least one in the exponent when there is
    one, and nothing else. *)
Definition well_formed_number (s : string) : bool :=
  let s1 := skip_one is_sign (skip is_space s) in
  let s2 := skip is_digit s1 in
  let s3 := if starts_with (Ascii.eqb ".") s2
            then skip is_digit (skip_one (Ascii.eqb ".") s2) else s2 in
  let digits := starts_with is_digit s1
                || (starts_with (Ascii.eqb ".") s2
                    && starts_with is_digit (skip_one (Ascii.eqb ".") s2)) in
  let s4 := if starts_with is_e s3
            then skip_one is_sign (skip_one is_e s3) else s3 in
  let exponent := negb (starts_with is_e s3) || starts_with is_digit s4 in
  (digits && exponent && is_empty (skip is_space (skip is_digit s4)))%bool.

(** What a column of NUMERIC affinity (a TIMESTAMP column) holds for a text
    that is written to it: the number, INTEGER or REAL, that the text reads
    as, or else the text itself.  The number is given by its literal. *)
Inductive numeric :=
| Text (s : string)
| Number (literal : string).

Definition numeric_affinity (s : string) : numeric :=
  if well_formed_number s then Number s else Text s.

(** Three-valued logic: [None] is NULL. *)
Definition gt (x : option float) (y : float) : option bool :=
  match x with Some v => Some (Float.ltb y v) | None => None end.

Definition lt (x : option float) (y : float) : option bool :=
  match x with Some v => Some (Float.ltb v y) | None => None end.

Definition AND (a b : option bool) : option bool :=
  match a, b with
  | Some false, _ | _, Some false => Some false
  | Some true, Some true => Some true
  | _, _ => None
  end.

(** [CASE WHEN c THEN a ELSE b END]: only a true condition takes [a]. *)
Definition case_when {A} (c : option bool) (a b : A) : A :=
  match c with Some true => a | _ => b end.

(** [COUNT(expr)] counts the non-NULL values. *)
Fixpoint COUNT {A} (col : list (option A)) : Z :=
  match col with
  | [] => 0
  | Some _ :: col' => 1 + COUNT col'
  | None :: col' => COUNT col'
  end.

(** [COUNT( * )] *)
Definition COUNT_star {A} (rows : list A) : Z := Z.of_nat (List.length rows).

Fixpoint non_null {A} (col : list (option A)) : list A :=
  match col with
  | [] => []
  | Some v :: col' => v :: non_null col'
  | None :: col' => non_null col'
  end.

(** [SUM(expr)]: NULL when there is no non-NULL input. *)
Definition SUM_int (col : list (option Z)) : option Z :=
  match non_null col with
  | [] => None
  | vs => Some (fold_left Z.add vs 0)
  end.

(** A numeric value: an INTEGER or a REAL. *)
Inductive number :=
| Int (n : Z)
| Real (x : float).

Definition is_int (v : number) : bool :=
  match v with Int _ => true | Real _ => false end.

Definition int_of (v : number) : Z :=
  match v with Int n => n | Real _ => 0 end.

(** The value of an aggregate.  Over INTEGER inputs only, SUM is their exact
    sum.  As soon as one input is a REAL the sum is a double that the engine
    computes by floating-point additions over the inputs in the order of the
    scan, and AVG is always such a double: these are given by their inputs,
    in that order. *)
Inductive aggregate :=
| Integer (n : Z)
| Sum_of (inputs : list number)
| Avg_of (inputs : list number).

(** [SUM(expr)] over a column of numeric values *)
Definition SUM (col : list (option number)) : option aggregate :=
  match non_null col with
  | [] => None
  | vs => Some (if forallb is_int vs
                then Integer (fold_left Z.add (map int_of vs) 0)
                else Sum_of vs)
  end.

(** [AVG(expr)]: over the non-NULL inputs. *)
Definition AVG (col : list (option number)) : option aggregate :=
  match non_null col with
  | [] => None
  | vs => Some (Avg_of vs)
  end.

(** [MAX(expr)] *)
Definition MAX (col : list (option Z)) : option Z :=
  match non_null col with
  | [] => None
  | v :: vs => Some (fold_left Z.max vs v)
  end.

(** ORDER BY: a sort of the rows by a total preorder [le].  SQL leaves the
    order among rows that tie to the engine, which settles it by the access
    path it chooses; the model keeps such rows in rowid order, and no
    statement below says anything about their order. *)
Section OrderBy.
Context {A : Type} (le : A -> A -> bool).

Fixpoint insert (x : A) (l : list A) : list A :=
  match l with
  | [] => [x]
  | y :: l' => if le x y then x :: l else y :: insert x l'
  end.

Definition order_by (l : list A) : list A := fold_right insert [] l.
End OrderBy.

(** [LIMIT n] *)
Definition limit {A} (n : nat) (l : list A) : list A := firstn n l.

(** GROUP BY a TEXT key: the distinct keys in ascending order. *)
Definition group_keys {A} (key : A -> string) (rows : list A) : list string :=
  nodup string_dec (order_by String.leb (map key rows)).

Definition group {A} (key : A -> string) (k : string) (rows : list A) : list A :=
  filter (fun r => String.eqb (key r) k) rows.

End Sql.

(** ** Tables *)

Record clock := {
  utcnow : nat -> string;      (* the n-th datetime.utcnow().isoformat() of the request *)
  CURRENT_TIMESTAMP : string   (* SQLite's column default *)
}.

Module Favorite.
Record row := {
  id : Z;
  symbol : string;
  is_active : bool;
  price_drop_percentage : option float;
  current_price : option float;
  historical_price : option float;
  notes : option string;
  color : string;
  sort_order : Z;
  favorite_added_at : string;
  created_at : string;
  updated_at : string
}.
End Favorite.

Module Watch.
Record row := {
  id : Z;
  symbol : string;
  is_active : bool;
  is_favorite : bool;
  price_drop_percentage : option float;
  current_price : option float;
  historical_price : option float;
  created_at : string;
  updated_at : string
}.
End Watch.

Module Trade.
Record row := {
  id : Z;
  symbol : string;
  alert_id : option Z;
  direction : string;
  entry_price : float;
  stop_loss : float;
  take_profit : float;
  quantity : float;
  risk_amount : float;
  risk_percentage : float;
  position_value : float;
  potential_loss : float;
  potential_profit : float;
  risk_reward_ratio : float;
  status : string;
  exit_price : option float;
  exit_time : option Sql.numeric;
  actual_profit_loss : option float;
  notes : option string;
  created_at : string;
  updated_at : string
}.
End Trade.

(** The database file: three tables and their AUTOINCREMENT counters
    (the largest rowid ever handed out by each table). *)
Record database := {
  favorites : list Favorite.row;
  favorites_seq : Z;
  watchlist : list Watch.row;
  watchlist_seq : Z;
  paper_trades : list Trade.row;
  paper_trades_seq : Z
}.

Definition empty_database : database :=
  {| favorites := []; favorites_seq := 0;
     watchlist := []; watchlist_seq := 0;
     paper_trades := []; paper_trades_seq := 0 |}.

(** ** Exceptions, connections and the [io] monad *)

Inductive exn :=
| HTTPException (status_code : Z) (detail : string)
| IntegrityError (msg : string)
| OperationalError (msg : string)
| OverflowError (msg : string).

(** [str(e)] *)
Definition str (e : exn) : string :=
  match e with
  | HTTPException c d => (str_int c ++ ": " ++ d)%string
  | IntegrityError m => m
  | OperationalError m => m
  | OverflowError m => m
  end.

Inductive outcome (A : Type) :=
| Return (a : A)
| Raise (e : exn).
Arguments Return {A} a.
Arguments Raise {A} e.

(** [disk] is the committed database, [work] what the open connection sees
    (its uncommitted writes included), [tick] the number of statements the
    request has issued so far. *)
Record conn := {
  disk : database;
  work : database;
  tick : nat
}.

(** A fault plan: statement number [n] of the request fails with the given
    message. *)
Definition faults := nat -> option string.

Definition no_faults : faults := fun _ => None.

Definition io (A : Type) : Type := faults -> conn -> outcome A * conn.

Definition ret {A} (a : A) : io A := fun _ c => (Return a, c).

Definition raise {A} (e : exn) : io A := fun _ c => (Raise e, c).

Definition bind {A B} (m : io A) (k : A -> io B) : io B :=
  fun f c =>
    match m f c with
    | (Return a, c') => k a f c'
    | (Raise e, c') => (Raise e, c')
    end.

Notation "x <- m ;; k" := (bind m (fun x => k))
  (at level 61, m at next level, right associativity).
Notation "m ;;; k" := (bind m (fun _ => k))
  (at level 61, right associativity).

(** [try: body  except Exception as e: handler e] *)
Definition try_except {A} (body : io A) (handler : exn -> io A) : io A :=
  fun f c =>
    match body f c with
    | (Raise e, c') => handler e f c'
    | r => r
    end.

Definition next_tick (c : conn) (w : database) : conn :=
  {| disk := disk c; work := w; tick := S (tick c) |}.

(** [conn.execute(stmt)]: the statement reads and writes the working copy;
    it fails when the fault plan says so or when a constraint refuses it. *)
Definition execute {A} (stmt : database -> outcome (A * database)) : io A :=
  fun f c =>
    match f (tick c) with
    | Some msg => (Raise (OperationalError msg), next_tick c (work c))
    | None =>
        match stmt (work c) with
        | Return (a, w) => (Return a, next_tick c w)
        | Raise e => (Raise e, next_tick c (work c))
        end
    end.

(** A SELECT *)
Definition query {A} (q : database -> A) : io A :=
  execute (fun d => Return (q d, d)).

(** Binding a Python int to a parameter of a statement: sqlite3 raises
    before the statement runs when the int is no SQLite INTEGER. *)
Definition bind_int (n : Z) : io unit :=
  if Sql.int64 n then ret tt
  else raise (OverflowError "Python int too large to convert to SQLite INTEGER").

Definition bind_optional_int (n : option Z) : io unit :=
  match n with Some v => bind_int v | None => ret tt end.

(** [conn.commit()] *)
Definition commit : io unit :=
  fun f c =>
    match f (tick c) with
    | Some msg => (Raise (OperationalError msg), next_tick c (work c))
    | None => (Return tt, {| disk := work c; work := work c; tick := S (tick c) |})
    end.

(** [conn.rollback()] *)
Definition rollback : io unit :=
  fun _ c => (Return tt, {| disk := disk c; work := disk c; tick := tick c |}).

(** [conn = get_db_connection(); try: body finally: conn.close()].  The new
    connection starts from the committed database and what it has not
    committed is lost when it closes.  Where a connection is opened while
    another one is open (the flag recomputation inside GET /watchlist), the
    outer one holds no transaction and sees the committed database again. *)
Definition with_connection {A} (body : io A) : io A :=
  fun f c =>
    let '(r, c') := body f {| disk := disk c; work := disk c; tick := tick c |} in
    (r, {| disk := disk c'; work := disk c'; tick := tick c' |}).

(** The answer of an endpoint: the value it returns, which the framework
    renders, or the status and detail of the error. *)
Inductive response (A : Type) :=
| OK (body : A)
| HTTPError (status_code : Z) (detail : string).
Arguments OK {A} body.
Arguments HTTPError {A} status_code detail.

(** One request against the database [d]: the framework turns an
    [HTTPException] into its status and detail, anything else that escapes
    into a bare 500. *)
Definition serve {A} (handler : io A) (f : faults) (d : database)
  : response A * database :=
  match handler f {| disk := d; work := d; tick := 0 |} with
  | (Return a, c) => (OK a, disk c)
  | (Raise (HTTPException s m), c) => (HTTPError s m, disk c)
  | (Raise _, c) => (HTTPError 500 "Internal Server Error", disk c)
  end.

(** The number of statements the request issued. *)
Definition issued {A} (handler : io A) (f : faults) (d : database) : nat :=
  tick (snd (handler f {| disk := d; work := d; tick := 0 |})).


Local Open Scope string_scope.

(** [cursor.fetchone()] *)
Definition fetchone {A} (rows : list A) : option A := hd_error rows.

Definition set_favorites (d : database) (rows : list Favorite.row) (seq : Z) : database :=
  {| favorites := rows; favorites_seq := seq;
     watchlist := watchlist d; watchlist_seq := watchlist_seq d;
     paper_trades := paper_trades d; paper_trades_seq := paper_trades_seq d |}.

Definition set_watchlist (d : database) (rows : list Watch.row) (seq : Z) : database :=
  {| favorites := favorites d; favorites_seq := favorites_seq d;
     watchlist := rows; watchlist_seq := seq;
     paper_trades := paper_trades d; paper_trades_seq := paper_trades_seq d |}.

Definition set_paper_trades (d : database) (rows : list Trade.row) (seq : Z) : database :=
  {| favorites := favorites d; favorites_seq := favorites_seq d;
     watchlist := watchlist d; watchlist_seq := watchlist_seq d;
     paper_trades := rows; paper_trades_seq := seq |}.

(** ** [api/favorites.py] *)

Module FavoriteCreate.
Record t := {
  symbol : string;
  notes : option string;
  color : option string     (* defaults to "#FFD700" *)
}.
End FavoriteCreate.

Module FavoriteUpdate.
Record t := {
  notes : option string;
  color : option string
}.
End FavoriteUpdate.

Module FavoriteReorder.
Record t := { symbol_order : list string }.
End FavoriteReorder.

(** The dictionaries the write endpoints answer with. *)
Record created := {
  created_id : Z;
  created_symbol : string;
  created_message : string
}.

Module Favorites.

(** [SELECT id FROM favorites WHERE symbol = ?] *)
Definition select_id (sym : string) (d : database) : list Z :=
  map Favorite.id
      (filter (fun r => String.eqb (Favorite.symbol r) sym) (favorites d)).

(** [SELECT MAX(sort_order) as max_order FROM favorites] *)
Definition select_max_order (d : database) : option Z :=
  Sql.MAX (map (fun r => Some (Favorite.sort_order r)) (favorites d)).

(** [INSERT INTO favorites (symbol, notes, color, sort_order, favorite_added_at)]:
    [symbol] is UNIQUE; the other columns take their defaults. *)
Definition insert (now : clock) (sym : string) (notes : option string)
    (color : string) (sort_order : Z) (added_at : string) (d : database)
  : outcome (Z * database) :=
  if existsb (fun r => String.eqb (Favorite.symbol r) sym) (favorites d)
  then Raise (IntegrityError "UNIQUE constraint failed: favorites.symbol")
  else
    let rowid := favorites_seq d + 1 in
    let r := {| Favorite.id := rowid;
                Favorite.symbol := sym;
                Favorite.is_active := true;
                Favorite.price_drop_percentage := None;
                Favorite.current_price := None;
                Favorite.historical_price := None;
                Favorite.notes := notes;
                Favorite.color := color;
                Favorite.sort_order := sort_order;
                Favorite.favorite_added_at := added_at;
                Favorite.created_at := CURRENT_TIMESTAMP now;
                Favorite.updated_at := CURRENT_TIMESTAMP now |} in
    Return (rowid, set_favorites d (favorites d ++ [r])%list rowid).

Definition set_fields (notes : option string) (color : option string)
    (updated_at : string) (r : Favorite.row) : Favorite.row :=
  {| Favorite.id := Favorite.id r;
     Favorite.symbol := Favorite.symbol r;
     Favorite.is_active := Favorite.is_active r;
     Favorite.price_drop_percentage := Favorite.price_drop_percentage r;
     Favorite.current_price := Favorite.current_price r;
     Favorite.historical_price := Favorite.historical_price r;
     Favorite.notes := match notes with Some n => Some n | None => Favorite.notes r end;
     Favorite.color := match color with Some c => c | None => Favorite.color r end;
     Favorite.sort_order := Favorite.sort_order r;
     Favorite.favorite_added_at := Favorite.favorite_added_at r;
     Favorite.created_at := Favorite.created_at r;
     Favorite.updated_at := updated_at |}.

(** [UPDATE favorites SET <the supplied fields>, updated_at = ? WHERE symbol = ?] *)
Definition update_fields (notes : option string) (color : option string)
    (updated_at : string) (sym : string) (d : database) : database :=
  set_favorites d
    (map (fun r => if String.eqb (Favorite.symbol r) sym
                   then set_fields notes color updated_at r else r)
         (favorites d))
    (favorites_seq d).

(** [DELETE FROM favorites WHERE symbol = ?] *)
Definition delete (sym : string) (d : database) : database :=
  set_favorites d
    (filter (fun r => negb (String.eqb (Favorite.symbol r) sym)) (favorites d))
    (favorites_seq d).

Definition set_sort_order (sort_order : Z) (updated_at : string)
    (r : Favorite.row) : Favorite.row :=
  {| Favorite.id := Favorite.id r;
     Favorite.symbol := Favorite.symbol r;
     Favorite.is_active := Favorite.is_active r;
     Favorite.price_drop_percentage := Favorite.price_drop_percentage r;
     Favorite.current_price := Favorite.current_price r;
     Favorite.historical_price := Favorite.historical_price r;
     Favorite.notes := Favorite.notes r;
     Favorite.color := Favorite.color r;
     Favorite.sort_order := sort_order;
     Favorite.favorite_added_at := Favorite.favorite_added_at r;
     Favorite.created_at := Favorite.created_at r;
     Favorite.updated_at := updated_at |}.

(** [UPDATE favorites SET sort_order = ?, updated_at = ? WHERE symbol = ?] *)
Definition update_sort_order (sort_order : Z) (updated_at : string)
    (sym : string) (d : database) : database :=
  set_favorites d
    (map (fun r => if String.eqb (Favorite.symbol r) sym
                   then set_sort_order sort_order updated_at r else r)
         (favorites d))
    (favorites_seq d).

(** [ORDER BY sort_order ASC, favorite_added_at DESC] *)
Definition listing_le (a b : Favorite.row) : bool :=
  ((Favorite.sort_order a <? Favorite.sort_order b)%Z
   || ((Favorite.sort_order a =? Favorite.sort_order b)%Z
       && String.leb (Favorite.favorite_added_at b) (Favorite.favorite_added_at a)))%bool.

(** The dictionary built from a row: [color or '#FFD700'], [sort_order or 0]. *)
Definition to_dict (r : Favorite.row) : Favorite.row :=
  {| Favorite.id := Favorite.id r;
     Favorite.symbol := Favorite.symbol r;
     Favorite.is_active := Favorite.is_active r;
     Favorite.price_drop_percentage := Favorite.price_drop_percentage r;
     Favorite.current_price := Favorite.current_price r;
     Favorite.historical_price := Favorite.historical_price r;
     Favorite.notes := Favorite.notes r;
     Favorite.color := str_or (Favorite.color r) "#FFD700";
     Favorite.sort_order := opt_int_or (Some (Favorite.sort_order r)) 0;
     Favorite.favorite_added_at := Favorite.favorite_added_at r;
     Favorite.created_at := Favorite.created_at r;
     Favorite.updated_at := Favorite.updated_at r |}.

(** GET /favorites *)
Definition get_favorites : io (list Favorite.row) :=
  with_connection
    (try_except
       (rows <- query (fun d => Sql.order_by listing_le (favorites d)) ;;
        ret (map to_dict rows))
       (fun e =>
          raise (HTTPException 500 ("Ошибка получения избранного: " ++ str e)))).

(** POST /favorites *)
Definition add_favorite (now : clock) (favorite : FavoriteCreate.t) : io created :=
  with_connection
    (try_except
       ((* Проверяем, не существует ли уже такая пара *)
        cursor <- query (select_id (FavoriteCreate.symbol favorite)) ;;
        (if is_some (fetchone cursor)
         then raise (HTTPException 400
                ("Пара " ++ FavoriteCreate.symbol favorite ++ " уже в избранном"))
         else ret tt) ;;;
        (* Получаем максимальный sort_order *)
        max_row <- query select_max_order ;;
        let max_order := opt_int_or max_row 0 in
        (* Добавляем новую пару *)
        favorite_id <- execute
          (insert now
             (upper (FavoriteCreate.symbol favorite))
             (FavoriteCreate.notes favorite)
             (opt_str_or (FavoriteCreate.color favorite) "#FFD700")
             (max_order + 1)
             (utcnow now 0)) ;;
        commit ;;;
        ret {| created_id := favorite_id;
               created_symbol := upper (FavoriteCreate.symbol favorite);
               created_message :=
                 "Пара " ++ FavoriteCreate.symbol favorite ++ " добавлена в избранное" |})
       (fun e =>
          match e with
          | HTTPException _ _ => raise e
          | _ =>
              rollback ;;;
              raise (HTTPException 500 ("Ошибка добавления в избранное: " ++ str e))
          end)).

(** PUT /favorites/{symbol} *)
Definition update_favorite (now : clock) (symbol : string)
    (favorite : FavoriteUpdate.t) : io string :=
  with_connection
    (try_except
       (cursor <- query (select_id (upper symbol)) ;;
        (if is_some (fetchone cursor) then ret tt
         else raise (HTTPException 404
                ("Пара " ++ symbol ++ " не найдена в избранном"))) ;;;
        (if is_some (FavoriteUpdate.notes favorite)
            || is_some (FavoriteUpdate.color favorite)
         then
           execute (fun d =>
             Return (tt, update_fields (FavoriteUpdate.notes favorite)
                           (FavoriteUpdate.color favorite)
                           (utcnow now 0) (upper symbol) d)) ;;;
           commit
         else ret tt) ;;;
        ret ("Пара " ++ symbol ++ " обновлена"))
       (fun e =>
          match e with
          | HTTPException _ _ => raise e
          | _ =>
              rollback ;;;
              raise (HTTPException 500 ("Ошибка обновления избранного: " ++ str e))
          end)).

(** DELETE /favorites/{symbol} *)
Definition remove_favorite (symbol : string) : io string :=
  with_connection
    (try_except
       (cursor <- query (select_id (upper symbol)) ;;
        (if is_some (fetchone cursor) then ret tt
         else raise (HTTPException 404
                ("Пара " ++ symbol ++ " не найдена в избранном"))) ;;;
        execute (fun d => Return (tt, delete (upper symbol) d)) ;;;
        commit ;;;
        ret ("Пара " ++ symbol ++ " удалена из избранного"))
       (fun e =>
          match e with
          | HTTPException _ _ => raise e
          | _ =>
              rollback ;;;
              raise (HTTPException 500 ("Ошибка удаления из избранного: " ++ str e))
          end)).

(** [for index, symbol in enumerate(symbol_order): conn.execute(UPDATE ...)],
    from position [index] on; the clock is read once in every round. *)
Fixpoint reorder_loop (now : clock) (index : Z) (symbol_order : list string)
  : io unit :=
  match symbol_order with
  | [] => ret tt
  | symbol :: rest =>
      execute (fun d =>
        Return (tt, update_sort_order index (utcnow now (Z.to_nat index))
                      (upper symbol) d)) ;;;
      reorder_loop now (index + 1) rest
  end.

(** POST /favorites/reorder *)
Definition reorder_favorites (now : clock) (reorder : FavoriteReorder.t) : io string :=
  with_connection
    (try_except
       (reorder_loop now 0 (FavoriteReorder.symbol_order reorder) ;;;
        commit ;;;
        ret "Порядок избранного обновлен")
       (fun e =>
          rollback ;;;
          raise (HTTPException 500 ("Ошибка изменения порядка: " ++ str e)))).

End Favorites.

(** ** [api/watchlist.py] *)

Module WatchlistCreate.
Record t := { symbol : string }.
End WatchlistCreate.

Module WatchlistUpdate.
Record t := {
  id : Z;
  symbol : string;
  is_active : bool
}.
End WatchlistUpdate.

Module Watchlist.

Definition set_is_favorite (flag : bool) (r : Watch.row) : Watch.row :=
  {| Watch.id := Watch.id r;
     Watch.symbol := Watch.symbol r;
     Watch.is_active := Watch.is_active r;
     Watch.is_favorite := flag;
     Watch.price_drop_percentage := Watch.price_drop_percentage r;
     Watch.current_price := Watch.current_price r;
     Watch.historical_price := Watch.historical_price r;
     Watch.created_at := Watch.created_at r;
     Watch.updated_at := Watch.updated_at r |}.

(** [UPDATE watchlist SET is_favorite = FALSE] *)
Definition clear_flags (d : database) : database :=
  set_watchlist d (map (set_is_favorite false) (watchlist d)) (watchlist_seq d).

(** [symbol IN (SELECT symbol FROM favorites)] *)
Definition in_favorites (d : database) (sym : string) : bool :=
  existsb (fun f => String.eqb sym (Favorite.symbol f)) (favorites d).

(** [UPDATE watchlist SET is_favorite = TRUE
     WHERE symbol IN (SELECT symbol FROM favorites)] *)
Definition raise_flags (d : database) : database :=
  set_watchlist d
    (map (fun r => if in_favorites d (Watch.symbol r)
                   then set_is_favorite true r else r)
         (watchlist d))
    (watchlist_seq d).

(** Обновляем статус is_favorite в watchlist на основе таблицы favorites:
    a failure is logged and rolled back, and is not raised again. *)
Definition update_watchlist_favorites : io unit :=
  with_connection
    (try_except
       ((* Сначала сбрасываем все флаги *)
        execute (fun d => Return (tt, clear_flags d)) ;;;
        (* Затем устанавливаем флаги для пар, которые есть в favorites *)
        execute (fun d => Return (tt, raise_flags d)) ;;;
        commit)
       (fun e => rollback)).

(** [ORDER BY is_favorite DESC, symbol ASC] *)
Definition listing_le (a b : Watch.row) : bool :=
  ((Watch.is_favorite a && negb (Watch.is_favorite b))
   || (Bool.eqb (Watch.is_favorite a) (Watch.is_favorite b)
       && String.leb (Watch.symbol a) (Watch.symbol b)))%bool.

(** GET /watchlist *)
Definition get_watchlist : io (list Watch.row) :=
  with_connection
    (try_except
       ((* Обновляем флаги избранного перед возвратом данных *)
        update_watchlist_favorites ;;;
        rows <- query (fun d => Sql.order_by listing_le (watchlist d)) ;;
        ret rows)
       (fun e =>
          raise (HTTPException 500 ("Ошибка получения списка: " ++ str e)))).

(** [SELECT id FROM watchlist WHERE symbol = ?] *)
Definition select_id (sym : string) (d : database) : list Z :=
  map Watch.id
      (filter (fun r => String.eqb (Watch.symbol r) sym) (watchlist d)).

(** [SELECT ... FROM watchlist WHERE id = ?] *)
Definition select_by_id (item_id : Z) (d : database) : list Watch.row :=
  filter (fun r => (Watch.id r =? item_id)%Z) (watchlist d).

(** [INSERT INTO watchlist (symbol, created_at, updated_at)]: [symbol] is
    UNIQUE, [is_active] defaults to TRUE and [is_favorite] to FALSE. *)
Definition insert (sym : string) (created_at updated_at : string) (d : database)
  : outcome (Z * database) :=
  if existsb (fun r => String.eqb (Watch.symbol r) sym) (watchlist d)
  then Raise (IntegrityError "UNIQUE constraint failed: watchlist.symbol")
  else
    let rowid := watchlist_seq d + 1 in
    let r := {| Watch.id := rowid;
                Watch.symbol := sym;
                Watch.is_active := true;
                Watch.is_favorite := false;
                Watch.price_drop_percentage := None;
                Watch.current_price := None;
                Watch.historical_price := None;
                Watch.created_at := created_at;
                Watch.updated_at := updated_at |} in
    Return (rowid, set_watchlist d (watchlist d ++ [r])%list rowid).

Definition set_item (sym : string) (active : bool) (updated_at : string)
    (r : Watch.row) : Watch.row :=
  {| Watch.id := Watch.id r;
     Watch.symbol := sym;
     Watch.is_active := active;
     Watch.is_favorite := Watch.is_favorite r;
     Watch.price_drop_percentage := Watch.price_drop_percentage r;
     Watch.current_price := Watch.current_price r;
     Watch.historical_price := Watch.historical_price r;
     Watch.created_at := Watch.created_at r;
     Watch.updated_at := updated_at |}.

(** [UPDATE watchlist SET symbol = ?, is_active = ?, updated_at = ? WHERE id = ?]:
    refused when another row already has the symbol. *)
Definition update_item (sym : string) (active : bool) (updated_at : string)
    (item_id : Z) (d : database) : outcome (unit * database) :=
  if existsb (fun r => (Watch.id r =? item_id)%Z) (watchlist d)
     && existsb (fun r => negb (Watch.id r =? item_id)%Z
                          && String.eqb (Watch.symbol r) sym) (watchlist d)
  then Raise (IntegrityError "UNIQUE constraint failed: watchlist.symbol")
  else
    Return (tt, set_watchlist d
                  (map (fun r => if (Watch.id r =? item_id)%Z
                                 then set_item sym active updated_at r else r)
                       (watchlist d))
                  (watchlist_seq d)).

(** [DELETE FROM watchlist WHERE id = ?] *)
Definition delete (item_id : Z) (d : database) : database :=
  set_watchlist d
    (filter (fun r => negb (Watch.id r =? item_id)%Z) (watchlist d))
    (watchlist_seq d).

(** POST /watchlist *)
Definition add_to_watchlist (now : clock) (item : WatchlistCreate.t) : io created :=
  with_connection
    (try_except
       ((* Проверяем, не существует ли уже такая пара *)
        cursor <- query (select_id (upper (WatchlistCreate.symbol item))) ;;
        (if is_some (fetchone cursor)
         then raise (HTTPException 400
                ("Пара " ++ WatchlistCreate.symbol item ++ " уже в списке наблюдения"))
         else ret tt) ;;;
        watchlist_id <- execute
          (insert (upper (WatchlistCreate.symbol item)) (utcnow now 0) (utcnow now 1)) ;;
        commit ;;;
        ret {| created_id := watchlist_id;
               created_symbol := upper (WatchlistCreate.symbol item);
               created_message :=
                 "Пара " ++ WatchlistCreate.symbol item
                 ++ " добавлена в список наблюдения" |})
       (fun e =>
          match e with
          | HTTPException _ _ => raise e
          | _ =>
              rollback ;;;
              raise (HTTPException 500 ("Ошибка добавления в список: " ++ str e))
          end)).

(** PUT /watchlist/{item_id} *)
Definition update_watchlist_item (now : clock) (item_id : Z)
    (item : WatchlistUpdate.t) : io string :=
  with_connection
    (try_except
       (cursor <- (bind_int item_id ;;; query (select_by_id item_id)) ;;
        (if is_some (fetchone cursor) then ret tt
         else raise (HTTPException 404
                ("Элемент с ID " ++ str_int item_id ++ " не найден"))) ;;;
        execute (update_item (upper (WatchlistUpdate.symbol item))
                   (WatchlistUpdate.is_active item) (utcnow now 0) item_id) ;;;
        commit ;;;
        ret ("Элемент " ++ WatchlistUpdate.symbol item ++ " обновлен"))
       (fun e =>
          match e with
          | HTTPException _ _ => raise e
          | _ =>
              rollback ;;;
              raise (HTTPException 500 ("Ошибка обновления элемента: " ++ str e))
          end)).

(** DELETE /watchlist/{item_id} *)
Definition remove_from_watchlist (item_id : Z) : io string :=
  with_connection
    (try_except
       (cursor <- (bind_int item_id ;;; query (select_by_id item_id)) ;;
        match fetchone cursor with
        | None => raise (HTTPException 404
                    ("Элемент с ID " ++ str_int item_id ++ " не найден"))
        | Some row =>
            let symbol := Watch.symbol row in
            execute (fun d => Return (tt, delete item_id d)) ;;;
            commit ;;;
            ret ("Пара " ++ symbol ++ " удалена из списка наблюдения")
        end)
       (fun e =>
          match e with
          | HTTPException _ _ => raise e
          | _ =>
              rollback ;;;
              raise (HTTPException 500 ("Ошибка удаления элемента: " ++ str e))
          end)).

End Watchlist.

(** ** [api/paper_trades.py] *)

Module PaperTradeCreate.
Record t := {
  symbol : string;
  alert_id : option Z;
  direction : string;          (* 'LONG' или 'SHORT' *)
  entry_price : float;
  stop_loss : float;
  take_profit : float;
  quantity : float;
  risk_amount : float;
  risk_percentage : float;
  position_value : float;
  potential_loss : float;
  potential_profit : float;
  risk_reward_ratio : float;
  status : string;             (* 'planned' unless the client sends one *)
  notes : option string
}.
End PaperTradeCreate.

Module PaperTradeUpdate.
Record t := {
  status : option string;
  exit_price : option float;
  exit_time : option string;
  actual_profit_loss : option float;
  notes : option string
}.
End PaperTradeUpdate.

Record created_trade := {
  trade_id : Z;
  trade_symbol : string;
  trade_direction : string;
  trade_message : string
}.

Module Stats.
Record general := {
  total_trades : Z;
  planned_trades : Z;
  active_trades : Z;
  closed_trades : Z;
  winning_trades : option Z;
  losing_trades : option Z;
  total_pnl : option Sql.aggregate;
  avg_pnl : option Sql.aggregate;
  total_risk_amount : option Sql.aggregate
}.

Record by_symbol_row := {
  symbol : string;
  symbol_trades_count : Z;
  symbol_pnl : option Sql.aggregate
}.

Record by_direction_row := {
  direction : string;
  direction_trades_count : Z;
  direction_pnl : option Sql.aggregate;
  direction_avg_pnl : option Sql.aggregate
}.

Record t := {
  general_stats : general;
  by_symbol : list by_symbol_row;
  by_direction : list by_direction_row
}.
End Stats.

Module PaperTrades.

Definition in_list (s : string) (l : list string) : bool :=
  existsb (String.eqb s) l.

(** [SELECT ... FROM paper_trades WHERE 1=1 [AND status = ?] [AND symbol = ?]
     ORDER BY created_at DESC] *)
Definition select_trades (status : option string) (symbol : option string)
    (d : database) : list Trade.row :=
  Sql.order_by
    (fun a b => String.leb (Trade.created_at b) (Trade.created_at a))
    (filter
       (fun r =>
          (match status with
           | Some s => String.eqb (Trade.status r) s
           | None => true
           end)
          && (match symbol with
              | Some s => String.eqb (Trade.symbol r) s
              | None => true
              end))%bool
       (paper_trades d)).

(** GET /paper-trades *)
Definition get_paper_trades (status : option string) (symbol : option string)
  : io (list Trade.row) :=
  with_connection
    (try_except
       (let status_param := if truthy status then status else None in
        let symbol_param := if truthy symbol then option_map upper symbol else None in
        trades <- query (select_trades status_param symbol_param) ;;
        ret trades)
       (fun e =>
          raise (HTTPException 500 ("Ошибка получения сделок: " ++ str e)))).

(** The REAL NOT NULL columns of the table, in its order, with the values
    the INSERT binds to them. *)
Definition real_columns (trade : PaperTradeCreate.t) : list (string * float) :=
  [ ("entry_price", PaperTradeCreate.entry_price trade);
    ("stop_loss", PaperTradeCreate.stop_loss trade);
    ("take_profit", PaperTradeCreate.take_profit trade);
    ("quantity", PaperTradeCreate.quantity trade);
    ("risk_amount", PaperTradeCreate.risk_amount trade);
    ("risk_percentage", PaperTradeCreate.risk_percentage trade);
    ("position_value", PaperTradeCreate.position_value trade);
    ("potential_loss", PaperTradeCreate.potential_loss trade);
    ("potential_profit", PaperTradeCreate.potential_profit trade);
    ("risk_reward_ratio", PaperTradeCreate.risk_reward_ratio trade) ].

(** the first of them that is bound to a NaN, that is to NULL *)
Definition null_column (trade : PaperTradeCreate.t) : option string :=
  option_map fst (find (fun c => Float.is_nan (snd c)) (real_columns trade)).

(** [INSERT INTO paper_trades (...)]: the row is refused by NOT NULL when a
    REAL column is bound to a NaN, and by the table's CHECK constraints on
    [direction] and [status]. *)
Definition insert (trade : PaperTradeCreate.t) (sym : string)
    (created_at updated_at : string) (d : database) : outcome (Z * database) :=
  match null_column trade with
  | Some column =>
      Raise (IntegrityError ("NOT NULL constraint failed: paper_trades." ++ column))
  | None =>
  if negb (in_list (PaperTradeCreate.direction trade) ["LONG"; "SHORT"])
  then Raise (IntegrityError "CHECK constraint failed: direction IN ('LONG', 'SHORT')")
  else if negb (in_list (PaperTradeCreate.status trade) ["planned"; "active"; "closed"])
  then Raise (IntegrityError
                "CHECK constraint failed: status IN ('planned', 'active', 'closed')")
  else
    let rowid := paper_trades_seq d + 1 in
    let r := {| Trade.id := rowid;
                Trade.symbol := sym;
                Trade.alert_id := PaperTradeCreate.alert_id trade;
                Trade.direction := PaperTradeCreate.direction trade;
                Trade.entry_price := PaperTradeCreate.entry_price trade;
                Trade.stop_loss := PaperTradeCreate.stop_loss trade;
                Trade.take_profit := PaperTradeCreate.take_profit trade;
                Trade.quantity := PaperTradeCreate.quantity trade;
                Trade.risk_amount := PaperTradeCreate.risk_amount trade;
                Trade.risk_percentage := PaperTradeCreate.risk_percentage trade;
                Trade.position_value := PaperTradeCreate.position_value trade;
                Trade.potential_loss := PaperTradeCreate.potential_loss trade;
                Trade.potential_profit := PaperTradeCreate.potential_profit trade;
                Trade.risk_reward_ratio := PaperTradeCreate.risk_reward_ratio trade;
                Trade.status := PaperTradeCreate.status trade;
                Trade.exit_price := None;
                Trade.exit_time := None;
                Trade.actual_profit_loss := None;
                Trade.notes := PaperTradeCreate.notes trade;
                Trade.created_at := created_at;
                Trade.updated_at := updated_at |} in
    Return (rowid, set_paper_trades d (paper_trades d ++ [r])%list rowid)
  end.

(** POST /paper-trades *)
Definition create_paper_trade (now : clock) (trade : PaperTradeCreate.t)
  : io created_trade :=
  with_connection
    (try_except
       ((* Валидация данных *)
        (if negb (in_list (PaperTradeCreate.direction trade) ["LONG"; "SHORT"])
         then raise (HTTPException 400 "Направление должно быть LONG или SHORT")
         else ret tt) ;;;
        (if Float.leb (PaperTradeCreate.entry_price trade) (Float.of_Z 0)
         then raise (HTTPException 400 "Цена входа должна быть больше 0")
         else ret tt) ;;;
        (if Float.leb (PaperTradeCreate.quantity trade) (Float.of_Z 0)
         then raise (HTTPException 400 "Количество должно быть больше 0")
         else ret tt) ;;;
        (* Валидация логики стоп-лосса и тейк-профита *)
        (if String.eqb (PaperTradeCreate.direction trade) "LONG"
         then
           (if Float.leb (PaperTradeCreate.entry_price trade)
                        (PaperTradeCreate.stop_loss trade)
            then raise (HTTPException 400
                   "Для LONG стоп-лосс должен быть меньше цены входа")
            else ret tt) ;;;
           (if Float.leb (PaperTradeCreate.take_profit trade)
                        (PaperTradeCreate.entry_price trade)
            then raise (HTTPException 400
                   "Для LONG тейк-профит должен быть больше цены входа")
            else ret tt)
         else (* SHORT *)
           (if Float.leb (PaperTradeCreate.stop_loss trade)
                        (PaperTradeCreate.entry_price trade)
            then raise (HTTPException 400
                   "Для SHORT стоп-лосс должен быть больше цены входа")
            else ret tt) ;;;
           (if Float.leb (PaperTradeCreate.entry_price trade)
                        (PaperTradeCreate.take_profit trade)
            then raise (HTTPException 400
                   "Для SHORT тейк-профит должен быть меньше цены входа")
            else ret tt)) ;;;
        (* Создаем сделку *)
        new_id <-
          (bind_optional_int (PaperTradeCreate.alert_id trade) ;;;
           execute
             (insert trade (upper (PaperTradeCreate.symbol trade))
                (utcnow now 0) (utcnow now 1))) ;;
        commit ;;;
        ret {| trade_id := new_id;
               trade_symbol := upper (PaperTradeCreate.symbol trade);
               trade_direction := PaperTradeCreate.direction trade;
               trade_message :=
                 PaperTradeCreate.direction trade ++ " бумажная сделка для "
                 ++ PaperTradeCreate.symbol trade ++ " создана" |})
       (fun e =>
          match e with
          | HTTPException _ _ => raise e
          | _ =>
              rollback ;;;
              raise (HTTPException 500 ("Ошибка создания сделки: " ++ str e))
          end)).

(** [SELECT id FROM paper_trades WHERE id = ?] *)
Definition select_id (id : Z) (d : database) : list Z :=
  map Trade.id (filter (fun r => (Trade.id r =? id)%Z) (paper_trades d)).

Definition or_else {A} (x : option A) (old : option A) : option A :=
  match x with Some v => Some v | None => old end.

(** a REAL column that is set when a value is supplied: a NaN sets it to
    NULL *)
Definition real_or_else (x : option float) (old : option float) : option float :=
  match x with Some v => Sql.bind_real v | None => old end.

(** a TIMESTAMP column that is set when a text is supplied *)
Definition timestamp_or_else (x : option string) (old : option Sql.numeric)
  : option Sql.numeric :=
  match x with Some s => Some (Sql.numeric_affinity s) | None => old end.

Definition set_fields (u : PaperTradeUpdate.t) (updated_at : string)
    (r : Trade.row) : Trade.row :=
  {| Trade.id := Trade.id r;
     Trade.symbol := Trade.symbol r;
     Trade.alert_id := Trade.alert_id r;
     Trade.direction := Trade.direction r;
     Trade.entry_price := Trade.entry_price r;
     Trade.stop_loss := Trade.stop_loss r;
     Trade.take_profit := Trade.take_profit r;
     Trade.quantity := Trade.quantity r;
     Trade.risk_amount := Trade.risk_amount r;
     Trade.risk_percentage := Trade.risk_percentage r;
     Trade.position_value := Trade.position_value r;
     Trade.potential_loss := Trade.potential_loss r;
     Trade.potential_profit := Trade.potential_profit r;
     Trade.risk_reward_ratio := Trade.risk_reward_ratio r;
     Trade.status :=
       match PaperTradeUpdate.status u with Some s => s | None => Trade.status r end;
     Trade.exit_price :=
       real_or_else (PaperTradeUpdate.exit_price u) (Trade.exit_price r);
     Trade.exit_time :=
       timestamp_or_else (PaperTradeUpdate.exit_time u) (Trade.exit_time r);
     Trade.actual_profit_loss :=
       real_or_else (PaperTradeUpdate.actual_profit_loss u)
         (Trade.actual_profit_loss r);
     Trade.notes := or_else (PaperTradeUpdate.notes u) (Trade.notes r);
     Trade.created_at := Trade.created_at r;
     Trade.updated_at := updated_at |}.

(** [UPDATE paper_trades SET <the supplied fields>, updated_at = ? WHERE id = ?];
    the CHECK on [status] applies to the updated row. *)
Definition update_fields (u : PaperTradeUpdate.t) (updated_at : string) (id : Z)
    (d : database) : outcome (unit * database) :=
  if existsb (fun r => (Trade.id r =? id)%Z) (paper_trades d)
     && match PaperTradeUpdate.status u with
        | Some s => negb (in_list s ["planned"; "active"; "closed"])
        | None => false
        end
  then Raise (IntegrityError
                "CHECK constraint failed: status IN ('planned', 'active', 'closed')")
  else
    Return (tt, set_paper_trades d
                  (map (fun r => if (Trade.id r =? id)%Z
                                 then set_fields u updated_at r else r)
                       (paper_trades d))
                  (paper_trades_seq d)).

(** [update_fields] is non-empty *)
Definition has_fields (u : PaperTradeUpdate.t) : bool :=
  is_some (PaperTradeUpdate.status u)
  || is_some (PaperTradeUpdate.exit_price u)
  || is_some (PaperTradeUpdate.exit_time u)
  || is_some (PaperTradeUpdate.actual_profit_loss u)
  || is_some (PaperTradeUpdate.notes u).

(** PUT /paper-trades/{trade_id} *)
Definition update_paper_trade (now : clock) (trade_id : Z)
    (trade_update : PaperTradeUpdate.t) : io string :=
  with_connection
    (try_except
       ((* Проверяем существование сделки *)
        cursor <- (bind_int trade_id ;;; query (select_id trade_id)) ;;
        (if is_some (fetchone cursor) then ret tt
         else raise (HTTPException 404
                ("Сделка с ID " ++ str_int trade_id ++ " не найдена"))) ;;;
        (match PaperTradeUpdate.status trade_update with
         | Some s =>
             if negb (in_list s ["planned"; "active"; "closed"])
             then raise (HTTPException 400 "Неверный статус сделки")
             else ret tt
         | None => ret tt
         end) ;;;
        (if has_fields trade_update
         then
           execute (update_fields trade_update (utcnow now 0) trade_id) ;;;
           commit
         else ret tt) ;;;
        ret ("Сделка " ++ str_int trade_id ++ " обновлена"))
       (fun e =>
          match e with
          | HTTPException _ _ => raise e
          | _ =>
              rollback ;;;
              raise (HTTPException 500 ("Ошибка обновления сделки: " ++ str e))
          end)).

(** [DELETE FROM paper_trades WHERE id = ?] *)
Definition delete (id : Z) (d : database) : database :=
  set_paper_trades d
    (filter (fun r => negb (Trade.id r =? id)%Z) (paper_trades d))
    (paper_trades_seq d).

(** DELETE /paper-trades/{trade_id} *)
Definition delete_paper_trade (trade_id : Z) : io string :=
  with_connection
    (try_except
       (cursor <- (bind_int trade_id ;;; query (select_id trade_id)) ;;
        (if is_some (fetchone cursor) then ret tt
         else raise (HTTPException 404
                ("Сделка с ID " ++ str_int trade_id ++ " не найдена"))) ;;;
        execute (fun d => Return (tt, delete trade_id d)) ;;;
        commit ;;;
        ret ("Сделка " ++ str_int trade_id ++ " удалена"))
       (fun e =>
          match e with
          | HTTPException _ _ => raise e
          | _ =>
              rollback ;;;
              raise (HTTPException 500 ("Ошибка удаления сделки: " ++ str e))
          end)).

(** [status = 'closed'] *)
Definition is_closed (r : Trade.row) : option bool :=
  Some (String.eqb (Trade.status r) "closed").

(** [CASE WHEN status = 'closed' THEN actual_profit_loss ELSE 0 END]: a
    REAL or NULL for a closed trade, the INTEGER 0 for another. *)
Definition pnl_or_zero (r : Trade.row) : option Sql.number :=
  Sql.case_when (is_closed r)
    (option_map Sql.Real (Trade.actual_profit_loss r)) (Some (Sql.Int 0)).

(** [CASE WHEN status = 'closed' THEN actual_profit_loss ELSE NULL END] *)
Definition pnl_or_null (r : Trade.row) : option Sql.number :=
  Sql.case_when (is_closed r)
    (option_map Sql.Real (Trade.actual_profit_loss r)) None.

(** [COUNT(CASE WHEN status = s THEN 1 END)] *)
Definition count_status (s : string) (rows : list Trade.row) : Z :=
  Sql.COUNT
    (map (fun r => Sql.case_when (Some (String.eqb (Trade.status r) s))
                     (Some 1%Z) None)
         rows).

(** Общая статистика: the first SELECT of the statistics. *)
Definition select_general (d : database) : Stats.general :=
  let rows := paper_trades d in
  {| Stats.total_trades := Sql.COUNT_star rows;
     Stats.planned_trades := count_status "planned" rows;
     Stats.active_trades := count_status "active" rows;
     Stats.closed_trades := count_status "closed" rows;
     Stats.winning_trades :=
       Sql.SUM_int
         (map (fun r =>
                 Some (Sql.case_when
                         (Sql.AND (is_closed r)
                                  (Sql.gt (Trade.actual_profit_loss r) (Float.of_Z 0)))
                         1%Z 0%Z))
              rows);
     Stats.losing_trades :=
       Sql.SUM_int
         (map (fun r =>
                 Some (Sql.case_when
                         (Sql.AND (is_closed r)
                                  (Sql.lt (Trade.actual_profit_loss r) (Float.of_Z 0)))
                         1%Z 0%Z))
              rows);
     Stats.total_pnl := Sql.SUM (map pnl_or_zero rows);
     Stats.avg_pnl := Sql.AVG (map pnl_or_null rows);
     Stats.total_risk_amount :=
       Sql.SUM (map (fun r => Some (Sql.Real (Trade.risk_amount r))) rows) |}.

(** Статистика по символам:
    [GROUP BY symbol ORDER BY trades_count DESC LIMIT 10] *)
Definition select_by_symbol (d : database) : list Stats.by_symbol_row :=
  let rows := paper_trades d in
  Sql.limit 10
    (Sql.order_by
       (fun a b => (Stats.symbol_trades_count b <=? Stats.symbol_trades_count a)%Z)
       (map (fun k =>
               let g := Sql.group Trade.symbol k rows in
               {| Stats.symbol := k;
                  Stats.symbol_trades_count := Sql.COUNT_star g;
                  Stats.symbol_pnl := Sql.SUM (map pnl_or_zero g) |})
            (Sql.group_keys Trade.symbol rows))).

(** Статистика по направлениям: [GROUP BY direction] *)
Definition select_by_direction (d : database) : list Stats.by_direction_row :=
  let rows := paper_trades d in
  map (fun k =>
         let g := Sql.group Trade.direction k rows in
         {| Stats.direction := k;
            Stats.direction_trades_count := Sql.COUNT_star g;
            Stats.direction_pnl := Sql.SUM (map pnl_or_zero g);
            Stats.direction_avg_pnl := Sql.AVG (map pnl_or_null g) |})
      (Sql.group_keys Trade.direction rows).

(** GET /paper-trades/stats *)
Definition get_paper_trading_stats : io Stats.t :=
  with_connection
    (try_except
       (stats <- query select_general ;;
        symbol_stats <- query select_by_symbol ;;
        direction_stats <- query select_by_direction ;;
        ret {| Stats.general_stats := stats;
               Stats.by_symbol := symbol_stats;
               Stats.by_direction := direction_stats |})
       (fun e =>
          raise (HTTPException 500 ("Ошибка получения статистики: " ++ str e)))).

End PaperTrades.

(** * Definitions used by the statements *)

(** What the loop of [reorder_favorites] does to one row. *)
Fixpoint reorder_row (now : clock) (index : Z) (symbol_order : list string)
    (r : Favorite.row) : Favorite.row :=
  match symbol_order with
  | [] => r
  | symbol :: rest =>
      reorder_row now (index + 1) rest
        (if String.eqb (Favorite.symbol r) (upper symbol)
         then Favorites.set_sort_order index (utcnow now (Z.to_nat index)) r else r)
  end.

(** A clock reading and three favorites A, B, C in the order they were added. *)
Definition noon : clock :=
  {| utcnow := fun n => "2024-05-01T12:00:00.00000" ++ str_int (Z.of_nat n);
     CURRENT_TIMESTAMP := "2024-05-01 12:00:00" |}.

Definition favorite_at (rowid : Z) (sym : string) (added_at : string) : Favorite.row :=
  {| Favorite.id := rowid;
     Favorite.symbol := sym;
     Favorite.is_active := true;
     Favorite.price_drop_percentage := None;
     Favorite.current_price := None;
     Favorite.historical_price := None;
     Favorite.notes := None;
     Favorite.color := "#FFD700";
     Favorite.sort_order := rowid;
     Favorite.favorite_added_at := added_at;
     Favorite.created_at := "2024-04-30 09:00:00";
     Favorite.updated_at := "2024-04-30 09:00:00" |}.

Definition favorites_abc : database :=
  set_favorites empty_database
    [ favorite_at 1 "A" "2024-04-30T09:00:01.000000";
      favorite_at 2 "B" "2024-04-30T09:00:02.000000";
      favorite_at 3 "C" "2024-04-30T09:00:03.000000" ]
    3.

Definition order_bac : FavoriteReorder.t :=
  {| FavoriteReorder.symbol_order := ["B"; "A"; "C"] |}.

(** [sort_order] of the favorite with the given symbol, if there is one. *)
Definition sort_order_of (sym : string) (d : database) : option Z :=
  option_map Favorite.sort_order
    (find (fun r => String.eqb (Favorite.symbol r) sym) (favorites d)).

(** A computation is [strict] when a statement that the fault plan fails
    is the last one it issues and its failure is what the computation raises. *)
Definition strict {A} (m : io A) : Prop :=
  forall (f : faults) (c : conn),
    (tick c <= tick (snd (m f c)))%nat
    /\ forall (k : nat) (msg : string),
         (tick c <= k < tick (snd (m f c)))%nat ->
         f k = Some msg ->
         fst (m f c) = Raise (OperationalError msg).

(** An endpoint [surfaces] storage failures when the failure of any statement
    it issued reaches the client as a 500 whose detail ends with the
    failure's message. *)
Definition surfaces {A} (prefix : string) (h : io A) : Prop :=
  forall (f : faults) (d : database) (k : nat) (msg : string),
    (k < issued h f d)%nat ->
    f k = Some msg ->
    fst (serve h f d) = HTTPError 500 (prefix ++ msg).

(** The fault plan in which only statement [n] fails. *)
Definition fails_at (n : nat) (msg : string) : faults :=
  fun k => if Nat.eqb k n then Some msg else None.

Definition watch_at (rowid : Z) (sym : string) (flag : bool) : Watch.row :=
  {| Watch.id := rowid;
     Watch.symbol := sym;
     Watch.is_active := true;
     Watch.is_favorite := flag;
     Watch.price_drop_percentage := None;
     Watch.current_price := None;
     Watch.historical_price := None;
     Watch.created_at := "2024-04-30T09:00:00.000000";
     Watch.updated_at := "2024-04-30T09:00:00.000000" |}.

(** A watchlist whose stored flags are stale: A is a favorite but is not
    flagged, B is flagged but is not a favorite. *)
Definition stale_watchlist : database :=
  set_watchlist
    (set_favorites empty_database
       [favorite_at 1 "A" "2024-04-30T09:00:01.000000"] 1)
    [watch_at 1 "A" false; watch_at 2 "B" true]
    2.

(** Two watchlist rows that agree on every column but [is_favorite]. *)
Definition same_but_flag (r r' : Watch.row) : Prop :=
  Watch.id r' = Watch.id r
  /\ Watch.symbol r' = Watch.symbol r
  /\ Watch.is_active r' = Watch.is_active r
  /\ Watch.price_drop_percentage r' = Watch.price_drop_percentage r
  /\ Watch.current_price r' = Watch.current_price r
  /\ Watch.historical_price r' = Watch.historical_price r
  /\ Watch.created_at r' = Watch.created_at r
  /\ Watch.updated_at r' = Watch.updated_at r.

(** The flag of a watchlist row says whether its symbol is a favorite. *)
Definition flag_follows (favorites : list Favorite.row) (r : Watch.row) : Prop :=
  Watch.is_favorite r = true <-> In (Watch.symbol r) (map Favorite.symbol favorites).

(** Two requests for the same pair, spelled in upper and in lower case. *)
Definition favorite_request (sym : string) : FavoriteCreate.t :=
  {| FavoriteCreate.symbol := sym;
     FavoriteCreate.notes := None;
     FavoriteCreate.color := Some "#FFD700" |}.

(** Comparisons of doubles, as relations. *)
Definition float_le (x y : float) : Prop := Float.leb x y = true.

Definition float_lt (x y : float) : Prop := Float.ltb x y = true.

(** The conditions under which the specification rejects a proposed trade. *)
Definition rejected_by_validation (t : PaperTradeCreate.t) : Prop :=
  (PaperTradeCreate.direction t <> "LONG" /\ PaperTradeCreate.direction t <> "SHORT")
  \/ float_le (PaperTradeCreate.entry_price t) (Float.of_Z 0)
  \/ float_le (PaperTradeCreate.quantity t) (Float.of_Z 0)
  \/ (PaperTradeCreate.direction t = "LONG"
      /\ (float_le (PaperTradeCreate.entry_price t) (PaperTradeCreate.stop_loss t)
          \/ float_le (PaperTradeCreate.take_profit t) (PaperTradeCreate.entry_price t)))
  \/ (PaperTradeCreate.direction t = "SHORT"
      /\ (float_le (PaperTradeCreate.stop_loss t) (PaperTradeCreate.entry_price t)
          \/ float_le (PaperTradeCreate.entry_price t) (PaperTradeCreate.take_profit t))).

(** A proposed trade can be stored when its alert reference, if any, fits
    the 64 bits of an INTEGER and none of its ten amounts is a NaN. *)
Definition storable (t : PaperTradeCreate.t) : Prop :=
  (forall n, PaperTradeCreate.alert_id t = Some n -> - 2 ^ 63 <= n < 2 ^ 63)
  /\ PaperTradeCreate.entry_price t <> S754_nan
  /\ PaperTradeCreate.stop_loss t <> S754_nan
  /\ PaperTradeCreate.take_profit t <> S754_nan
  /\ PaperTradeCreate.quantity t <> S754_nan
  /\ PaperTradeCreate.risk_amount t <> S754_nan
  /\ PaperTradeCreate.risk_percentage t <> S754_nan
  /\ PaperTradeCreate.position_value t <> S754_nan
  /\ PaperTradeCreate.potential_loss t <> S754_nan
  /\ PaperTradeCreate.potential_profit t <> S754_nan
  /\ PaperTradeCreate.risk_reward_ratio t <> S754_nan.

Definition valid_status (s : string) : Prop :=
  s = "planned" \/ s = "active" \/ s = "closed".

(** The detail of the first check of [create_paper_trade] that fails. *)
Definition validation_detail (t : PaperTradeCreate.t) : option string :=
  if negb (PaperTrades.in_list (PaperTradeCreate.direction t) ["LONG"; "SHORT"])
  then Some "Направление должно быть LONG или SHORT"
  else if Float.leb (PaperTradeCreate.entry_price t) (Float.of_Z 0)
  then Some "Цена входа должна быть больше 0"
  else if Float.leb (PaperTradeCreate.quantity t) (Float.of_Z 0)
  then Some "Количество должно быть больше 0"
  else if String.eqb (PaperTradeCreate.direction t) "LONG"
  then
    if Float.leb (PaperTradeCreate.entry_price t) (PaperTradeCreate.stop_loss t)
    then Some "Для LONG стоп-лосс должен быть меньше цены входа"
    else if Float.leb (PaperTradeCreate.take_profit t) (PaperTradeCreate.entry_price t)
    then Some "Для LONG тейк-профит должен быть больше цены входа"
    else None
  else
    if Float.leb (PaperTradeCreate.stop_loss t) (PaperTradeCreate.entry_price t)
    then Some "Для SHORT стоп-лосс должен быть больше цены входа"
    else if Float.leb (PaperTradeCreate.entry_price t) (PaperTradeCreate.take_profit t)
    then Some "Для SHORT тейк-профит должен быть меньше цены входа"
    else None.

(** The row that [create_paper_trade] stores for an accepted trade. *)
Definition stored_trade (now : clock) (t : PaperTradeCreate.t) (rowid : Z) : Trade.row :=
  {| Trade.id := rowid;
     Trade.symbol := upper (PaperTradeCreate.symbol t);
     Trade.alert_id := PaperTradeCreate.alert_id t;
     Trade.direction := PaperTradeCreate.direction t;
     Trade.entry_price := PaperTradeCreate.entry_price t;
     Trade.stop_loss := PaperTradeCreate.stop_loss t;
     Trade.take_profit := PaperTradeCreate.take_profit t;
     Trade.quantity := PaperTradeCreate.quantity t;
     Trade.risk_amount := PaperTradeCreate.risk_amount t;
     Trade.risk_percentage := PaperTradeCreate.risk_percentage t;
     Trade.position_value := PaperTradeCreate.position_value t;
     Trade.potential_loss := PaperTradeCreate.potential_loss t;
     Trade.potential_profit := PaperTradeCreate.potential_profit t;
     Trade.risk_reward_ratio := PaperTradeCreate.risk_reward_ratio t;
     Trade.status := PaperTradeCreate.status t;
     Trade.exit_price := None;
     Trade.exit_time := None;
     Trade.actual_profit_loss := None;
     Trade.notes := PaperTradeCreate.notes t;
     Trade.created_at := utcnow now 0;
     Trade.updated_at := utcnow now 1 |}.

(** The trade of the specification's scenario, with a chosen symbol,
    direction and status. *)
Definition proposed_trade (sym dir st : string) : PaperTradeCreate.t :=
  {| PaperTradeCreate.symbol := sym;
     PaperTradeCreate.alert_id := None;
     PaperTradeCreate.direction := dir;
     PaperTradeCreate.entry_price := Float.of_Z 100;
     PaperTradeCreate.stop_loss := Float.of_Z 95;
     PaperTradeCreate.take_profit := Float.of_Z 110;
     PaperTradeCreate.quantity := Float.of_Z 1;
     PaperTradeCreate.risk_amount := Float.of_Z 5;
     PaperTradeCreate.risk_percentage := Float.of_Z 5;
     PaperTradeCreate.position_value := Float.of_Z 100;
     PaperTradeCreate.potential_loss := Float.of_Z 5;
     PaperTradeCreate.potential_profit := Float.of_Z 10;
     PaperTradeCreate.risk_reward_ratio := Float.of_Z 2;
     PaperTradeCreate.status := st;
     PaperTradeCreate.notes := None |}.

Definition status_update (s : string) : PaperTradeUpdate.t :=
  {| PaperTradeUpdate.status := Some s;
     PaperTradeUpdate.exit_price := None;
     PaperTradeUpdate.exit_time := None;
     PaperTradeUpdate.actual_profit_loss := None;
     PaperTradeUpdate.notes := None |}.

(** The table after the scenario's trade was created. *)
Definition one_planned_trade : database :=
  set_paper_trades empty_database
    [stored_trade noon (proposed_trade "BTCUSDT" "LONG" "planned") 1] 1.

(** The statistics in the specification's words. *)
Definition closed (r : Trade.row) : bool := String.eqb (Trade.status r) "closed".

(** closed with a realized P&L above zero *)
Definition winning (r : Trade.row) : bool :=
  closed r
  && match Trade.actual_profit_loss r with
     | Some v => Float.ltb (Float.of_Z 0) v
     | None => false
     end.

(** closed with a realized P&L below zero *)
Definition losing (r : Trade.row) : bool :=
  closed r
  && match Trade.actual_profit_loss r with
     | Some v => Float.ltb v (Float.of_Z 0)
     | None => false
     end.

(** What a trade adds to the sum of the realized P&L: its realized P&L when
    it is closed and has one, nothing when it is closed and has none, and
    the integer 0 when it is not closed. *)
Definition pnl_inputs (rows : list Trade.row) : list Sql.number :=
  flat_map
    (fun r =>
       if closed r
       then match Trade.actual_profit_loss r with
            | Some v => [Sql.Real v]
            | None => []
            end
       else [Sql.Int 0])
    rows.


(** A closed trade whose realized P&L was never recorded. *)
Definition closed_without_pnl : database :=
  set_paper_trades empty_database
    [PaperTrades.set_fields (status_update "closed") (utcnow noon 0)
       (stored_trade noon (proposed_trade "BTCUSDT" "LONG" "planned") 1)] 1.

(** The scenario's trade after PUT status=closed, actual_profit_loss=8. *)
Definition closed_with_profit : database :=
  set_paper_trades empty_database
    [PaperTrades.set_fields
       {| PaperTradeUpdate.status := Some "closed";
          PaperTradeUpdate.exit_price := None;
          PaperTradeUpdate.exit_time := None;
          PaperTradeUpdate.actual_profit_loss := Some (Float.of_Z 8);
          PaperTradeUpdate.notes := None |}
       (utcnow noon 0)
       (stored_trade noon (proposed_trade "BTCUSDT" "LONG" "planned") 1)] 1.

(** What GET /paper-trades/stats reports when there is no trade. *)
Definition stats_of_no_trades : Stats.t :=
  {| Stats.general_stats :=
       {| Stats.total_trades := 0;
          Stats.planned_trades := 0;
          Stats.active_trades := 0;
          Stats.closed_trades := 0;
          Stats.winning_trades := None;
          Stats.losing_trades := None;
          Stats.total_pnl := None;
          Stats.avg_pnl := None;
          Stats.total_risk_amount := None |};
     Stats.by_symbol := [];
     Stats.by_direction := [] |}.

(** The same proposed trade under another spelling of its symbol. *)
Definition with_symbol (t : PaperTradeCreate.t) (sym : string) : PaperTradeCreate.t :=
  {| PaperTradeCreate.symbol := sym;
     PaperTradeCreate.alert_id := PaperTradeCreate.alert_id t;
     PaperTradeCreate.direction := PaperTradeCreate.direction t;
     PaperTradeCreate.entry_price := PaperTradeCreate.entry_price t;
     PaperTradeCreate.stop_loss := PaperTradeCreate.stop_loss t;
     PaperTradeCreate.take_profit := PaperTradeCreate.take_profit t;
     PaperTradeCreate.quantity := PaperTradeCreate.quantity t;
     PaperTradeCreate.risk_amount := PaperTradeCreate.risk_amount t;
     PaperTradeCreate.risk_percentage := PaperTradeCreate.risk_percentage t;
     PaperTradeCreate.position_value := PaperTradeCreate.position_value t;
     PaperTradeCreate.potential_loss := PaperTradeCreate.potential_loss t;
     PaperTradeCreate.potential_profit := PaperTradeCreate.potential_profit t;
     PaperTradeCreate.risk_reward_ratio := PaperTradeCreate.risk_reward_ratio t;
     PaperTradeCreate.status := PaperTradeCreate.status t;
     PaperTradeCreate.notes := PaperTradeCreate.notes t |}.

(** The same proposed trade with an alert reference, and with another risk
    amount. *)
Definition with_alert_id (t : PaperTradeCreate.t) (n : Z) : PaperTradeCreate.t :=
  {| PaperTradeCreate.symbol := PaperTradeCreate.symbol t;
     PaperTradeCreate.alert_id := Some n;
     PaperTradeCreate.direction := PaperTradeCreate.direction t;
     PaperTradeCreate.entry_price := PaperTradeCreate.entry_price t;
     PaperTradeCreate.stop_loss := PaperTradeCreate.stop_loss t;
     PaperTradeCreate.take_profit := PaperTradeCreate.take_profit t;
     PaperTradeCreate.quantity := PaperTradeCreate.quantity t;
     PaperTradeCreate.risk_amount := PaperTradeCreate.risk_amount t;
     PaperTradeCreate.risk_percentage := PaperTradeCreate.risk_percentage t;
     PaperTradeCreate.position_value := PaperTradeCreate.position_value t;
     PaperTradeCreate.potential_loss := PaperTradeCreate.potential_loss t;
     PaperTradeCreate.potential_profit := PaperTradeCreate.potential_profit t;
     PaperTradeCreate.risk_reward_ratio := PaperTradeCreate.risk_reward_ratio t;
     PaperTradeCreate.status := PaperTradeCreate.status t;
     PaperTradeCreate.notes := PaperTradeCreate.notes t |}.

Definition with_risk_amount (t : PaperTradeCreate.t) (x : float)
  : PaperTradeCreate.t :=
  {| PaperTradeCreate.symbol := PaperTradeCreate.symbol t;
     PaperTradeCreate.alert_id := PaperTradeCreate.alert_id t;
     PaperTradeCreate.direction := PaperTradeCreate.direction t;
     PaperTradeCreate.entry_price := PaperTradeCreate.entry_price t;
     PaperTradeCreate.stop_loss := PaperTradeCreate.stop_loss t;
     PaperTradeCreate.take_profit := PaperTradeCreate.take_profit t;
     PaperTradeCreate.quantity := PaperTradeCreate.quantity t;
     PaperTradeCreate.risk_amount := x;
     PaperTradeCreate.risk_percentage := PaperTradeCreate.risk_percentage t;
     PaperTradeCreate.position_value := PaperTradeCreate.position_value t;
     PaperTradeCreate.potential_loss := PaperTradeCreate.potential_loss t;
     PaperTradeCreate.potential_profit := PaperTradeCreate.potential_profit t;
     PaperTradeCreate.risk_reward_ratio := PaperTradeCreate.risk_reward_ratio t;
     PaperTradeCreate.status := PaperTradeCreate.status t;
     PaperTradeCreate.notes := PaperTradeCreate.notes t |}.

(** ** Definitions for the further properties *)

(** A computation is [quiet] when it never commits. *)
Definition quiet {A} (m : io A) : Prop :=
  forall (f : faults) (c : conn), disk (snd (m f c)) = disk c.

(** A computation is [transactional] when it has committed nothing whenever
    it raises. *)
Definition transactional {A} (m : io A) : Prop :=
  forall (f : faults) (c : conn) (e : exn),
    fst (m f c) = Raise e -> disk (snd (m f c)) = disk c.

(** An endpoint is [all_or_nothing] when a request it answers with an error
    leaves the database as it was. *)
Definition all_or_nothing {A} (h : io A) : Prop :=
  forall (f : faults) (d d' : database) (status_code : Z) (detail : string),
    serve h f d = (HTTPError status_code detail, d') -> d' = d.

(** An endpoint is [read_only] when no request changes the database. *)
Definition read_only {A} (h : io A) : Prop :=
  forall (f : faults) (d : database), snd (serve h f d) = d.

(** The orders of the three listings, as relations between a row and the
    row listed after it. *)
Definition favorites_listed_before (a b : Favorite.row) : Prop :=
  Favorite.sort_order a < Favorite.sort_order b
  \/ (Favorite.sort_order a = Favorite.sort_order b
      /\ String.leb (Favorite.favorite_added_at b) (Favorite.favorite_added_at a) = true).


Definition trades_listed_before (a b : Trade.row) : Prop :=
  String.leb (Trade.created_at b) (Trade.created_at a) = true.

(** A row of the trades table passes the filters of GET /paper-trades. *)
Definition passes_filters (status symbol : option string) (r : Trade.row) : Prop :=
  (truthy status = true -> Some (Trade.status r) = status)
  /\ (truthy symbol = true -> Some (Trade.symbol r) = option_map upper symbol).

(** the same, as a test on the row *)
Definition passes (status symbol : option string) (r : Trade.row) : bool :=
  match status with
  | Some (String c s) => String.eqb (Trade.status r) (String c s)
  | _ => true
  end
  && match symbol with
     | Some (String c s) => String.eqb (Trade.symbol r) (upper (String c s))
     | _ => true
     end.

(** An entry of the favorites listing shows a stored favorite: every column
    as stored, but for an empty color, which is shown as the default. *)
Definition favorite_shown_as (r e : Favorite.row) : Prop :=
  Favorite.id e = Favorite.id r
  /\ Favorite.symbol e = Favorite.symbol r
  /\ Favorite.is_active e = Favorite.is_active r
  /\ Favorite.price_drop_percentage e = Favorite.price_drop_percentage r
  /\ Favorite.current_price e = Favorite.current_price r
  /\ Favorite.historical_price e = Favorite.historical_price r
  /\ Favorite.notes e = Favorite.notes r
  /\ Favorite.color e
     = (if String.eqb (Favorite.color r) "" then "#FFD700" else Favorite.color r)
  /\ Favorite.sort_order e = Favorite.sort_order r
  /\ Favorite.favorite_added_at e = Favorite.favorite_added_at r
  /\ Favorite.created_at e = Favorite.created_at r
  /\ Favorite.updated_at e = Favorite.updated_at r.

(** The requests of the API. *)
Inductive request :=
| GetFavorites
| AddFavorite (now : clock) (favorite : FavoriteCreate.t)
| UpdateFavorite (now : clock) (symbol : string) (favorite : FavoriteUpdate.t)
| RemoveFavorite (symbol : string)
| ReorderFavorites (now : clock) (reorder : FavoriteReorder.t)
| GetWatchlist
| AddToWatchlist (now : clock) (item : WatchlistCreate.t)
| UpdateWatchlistItem (now : clock) (item_id : Z) (item : WatchlistUpdate.t)
| RemoveFromWatchlist (item_id : Z)
| GetPaperTrades (status symbol : option string)
| CreatePaperTrade (now : clock) (trade : PaperTradeCreate.t)
| UpdatePaperTrade (now : clock) (trade_id : Z) (trade_update : PaperTradeUpdate.t)
| DeletePaperTrade (trade_id : Z)
| GetPaperTradingStats.

(** The database after a request, under a fault plan. *)
Definition handle (r : request) (f : faults) (d : database) : database :=
  match r with
  | GetFavorites => snd (serve Favorites.get_favorites f d)
  | AddFavorite now favorite => snd (serve (Favorites.add_favorite now favorite) f d)
  | UpdateFavorite now symbol favorite =>
      snd (serve (Favorites.update_favorite now symbol favorite) f d)
  | RemoveFavorite symbol => snd (serve (Favorites.remove_favorite symbol) f d)
  | ReorderFavorites now reorder =>
      snd (serve (Favorites.reorder_favorites now reorder) f d)
  | GetWatchlist => snd (serve Watchlist.get_watchlist f d)
  | AddToWatchlist now item => snd (serve (Watchlist.add_to_watchlist now item) f d)
  | UpdateWatchlistItem now item_id item =>
      snd (serve (Watchlist.update_watchlist_item now item_id item) f d)
  | RemoveFromWatchlist item_id =>
      snd (serve (Watchlist.remove_from_watchlist item_id) f d)
  | GetPaperTrades status symbol =>
      snd (serve (PaperTrades.get_paper_trades status symbol) f d)
  | CreatePaperTrade now trade =>
      snd (serve (PaperTrades.create_paper_trade now trade) f d)
  | UpdatePaperTrade now trade_id trade_update =>
      snd (serve (PaperTrades.update_paper_trade now trade_id trade_update) f d)
  | DeletePaperTrade trade_id =>
      snd (serve (PaperTrades.delete_paper_trade trade_id) f d)
  | GetPaperTradingStats => snd (serve PaperTrades.get_paper_trading_stats f d)
  end.

(** The databases that requests can produce from the freshly created,
    empty tables, whatever fails on the way. *)
Inductive reachable : database -> Prop :=
| reachable_empty : reachable empty_database
| reachable_step (r : request) (f : faults) (d : database) :
    reachable d -> reachable (handle r f d).

(** What one request can do to the database. *)
Inductive effect (d : database) : database -> Prop :=
| effect_none : effect d d
| effect_favorite_insert now s notes color sort_order added_at rowid d' :
    Favorites.insert now (upper s) notes color sort_order added_at d
      = Return (rowid, d') ->
    sort_order = opt_int_or (Favorites.select_max_order d) 0 + 1 ->
    effect d d'
| effect_favorite_update notes color updated_at sym :
    effect d (Favorites.update_fields notes color updated_at sym d)
| effect_favorite_delete sym :
    effect d (Favorites.delete sym d)
| effect_favorite_reorder now l :
    effect d (set_favorites d (map (reorder_row now 0 l) (favorites d))
                (favorites_seq d))
| effect_flags :
    effect d (Watchlist.raise_flags (Watchlist.clear_flags d))
| effect_watch_insert s created_at updated_at rowid d' :
    Watchlist.insert (upper s) created_at updated_at d = Return (rowid, d') ->
    effect d d'
| effect_watch_update s active updated_at item_id d' :
    Watchlist.update_item (upper s) active updated_at item_id d = Return (tt, d') ->
    effect d d'
| effect_watch_delete item_id :
    effect d (Watchlist.delete item_id d)
| effect_trade_insert now t :
    validation_detail t = None ->
    PaperTrades.null_column t = None ->
    PaperTrades.in_list (PaperTradeCreate.status t) ["planned"; "active"; "closed"]
      = true ->
    effect d (set_paper_trades d
                (paper_trades d ++ [stored_trade now t (paper_trades_seq d + 1)])%list
                (paper_trades_seq d + 1))
| effect_trade_update u updated_at trade_id d' :
    (forall s, PaperTradeUpdate.status u = Some s ->
               PaperTrades.in_list s ["planned"; "active"; "closed"] = true) ->
    PaperTrades.update_fields u updated_at trade_id d = Return (tt, d') ->
    effect d d'
| effect_trade_delete trade_id :
    effect d (PaperTrades.delete trade_id d).

(** The keys of a database are in order when, in each table, the ids are
    distinct, positive and not above the table's counter, and, in the
    favorites and in the watchlist, the symbols are distinct. *)
Definition keys_in_order (d : database) : Prop :=
  (0 <= favorites_seq d
   /\ NoDup (map Favorite.id (favorites d))
   /\ (forall r, In r (favorites d) -> 0 < Favorite.id r <= favorites_seq d)
   /\ NoDup (map Favorite.symbol (favorites d)))
  /\ (0 <= watchlist_seq d
      /\ NoDup (map Watch.id (watchlist d))
      /\ (forall r, In r (watchlist d) -> 0 < Watch.id r <= watchlist_seq d)
      /\ NoDup (map Watch.symbol (watchlist d)))
  /\ (0 <= paper_trades_seq d
      /\ NoDup (map Trade.id (paper_trades d))
      /\ (forall r, In r (paper_trades d) -> 0 < Trade.id r <= paper_trades_seq d)).

(** Every stored symbol is in upper case. *)
Definition symbols_upper (d : database) : Prop :=
  (forall r, In r (favorites d) -> upper (Favorite.symbol r) = Favorite.symbol r)
  /\ (forall r, In r (watchlist d) -> upper (Watch.symbol r) = Watch.symbol r)
  /\ (forall r, In r (paper_trades d) -> upper (Trade.symbol r) = Trade.symbol r).

(** A stored trade is well formed when its status is one of the three, its
    entry price and quantity are positive, and its stop-loss and take-profit
    lie on the sides of the entry price that its direction asks for. *)
Definition well_formed_trade (r : Trade.row) : Prop :=
  valid_status (Trade.status r)
  /\ float_lt (Float.of_Z 0) (Trade.entry_price r)
  /\ float_lt (Float.of_Z 0) (Trade.quantity r)
  /\ ((Trade.direction r = "LONG"
       /\ float_lt (Trade.stop_loss r) (Trade.entry_price r)
       /\ float_lt (Trade.entry_price r) (Trade.take_profit r))
      \/ (Trade.direction r = "SHORT"
          /\ float_lt (Trade.take_profit r) (Trade.entry_price r)
          /\ float_lt (Trade.entry_price r) (Trade.stop_loss r))).

(** The three AUTOINCREMENT counters of [d] are not above those of [d']. *)
Definition counters_le (d d' : database) : Prop :=
  favorites_seq d <= favorites_seq d'
  /\ watchlist_seq d <= watchlist_seq d'
  /\ paper_trades_seq d <= paper_trades_seq d'.

(** Three requests in a row on the empty tables: a favorite and a watchlist
    entry in lower case, and the scenario's trade. *)
Definition after_three_requests : database :=
  handle (CreatePaperTrade noon (proposed_trade "btcusdt" "LONG" "planned")) no_faults
    (handle (AddToWatchlist noon {| WatchlistCreate.symbol := "ethusdt" |}) no_faults
       (handle (AddFavorite noon (favorite_request "btcusdt")) no_faults
          empty_database)).

Definition recolor (c : string) : FavoriteUpdate.t :=
  {| FavoriteUpdate.notes := None; FavoriteUpdate.color := Some c |}.

Definition sum_Z (l : list Z) : Z := fold_right Z.add 0 l.

(** the number of stored trades with a given symbol, direction or status *)
Definition trades_with {K} (key : Trade.row -> K) (eqb : K -> K -> bool) (k : K)
    (rows : list Trade.row) : Z :=
  Z.of_nat (List.length (filter (fun r => eqb (key r) k) rows)).

(** A computation [raises_client_errors] when every [HTTPException] it
    raises carries the status 400 or 404. *)
Definition raises_client_errors {A} (m : io A) : Prop :=
  forall (f : faults) (c : conn) (status_code : Z) (detail : string),
    fst (m f c) = Raise (HTTPException status_code detail) ->
    status_code = 400 \/ status_code = 404.

(** An endpoint [handles_its_exceptions] when whatever it raises is an
    [HTTPException] with the status 400, 404 or 500: no error of the
    storage and no other exception leaves it. *)
Definition handles_its_exceptions {A} (h : io A) : Prop :=
  forall (f : faults) (c : conn) (e : exn),
    fst (h f c) = Raise e ->
    exists (status_code : Z) (detail : string),
      e = HTTPException status_code detail
      /\ (status_code = 400 \/ status_code = 404 \/ status_code = 500).


(** * Properties *)

(** ** Running a request *)

Lemma serve_unfold {A} (h : io A) (f : faults) (d : database) :
  serve h f d =
  match h f {| disk := d; work := d; tick := 0 |} with
  | (Return a, c) => (OK a, disk c)
  | (Raise (HTTPException s m), c) => (HTTPError s m, disk c)
  | (Raise _, c) => (HTTPError 500 "Internal Server Error", disk c)
  end.
Proof. reflexivity. Qed.

(** ** The model on the specification's scenarios *)

Example first_favorite_gets_order_1 :
  map (fun r => (Favorite.symbol r, Favorite.sort_order r))
      (favorites (snd (serve (Favorites.add_favorite noon (favorite_request "btcusdt"))
                         no_faults empty_database)))
  = [("BTCUSDT", 1)].
Proof. vm_compute. reflexivity. Qed.

Example next_favorite_gets_max_plus_1 :
  sort_order_of "D"
    (snd (serve (Favorites.add_favorite noon (favorite_request "d"))
            no_faults favorites_abc))
  = Some 4.
Proof. vm_compute. reflexivity. Qed.

Example scenario_create_then_close :
  snd (serve (PaperTrades.create_paper_trade noon
                (proposed_trade "BTCUSDT" "LONG" "planned"))
         no_faults empty_database)
  = one_planned_trade
  /\ serve (PaperTrades.update_paper_trade noon 1
              {| PaperTradeUpdate.status := Some "closed";
                 PaperTradeUpdate.exit_price := None;
                 PaperTradeUpdate.exit_time := None;
                 PaperTradeUpdate.actual_profit_loss := Some (Float.of_Z 8);
                 PaperTradeUpdate.notes := None |})
       no_faults one_planned_trade
     = (OK "Сделка 1 обновлена", closed_with_profit).
Proof. split; vm_compute; reflexivity. Qed.

Example scenario_statistics :
  let g := PaperTrades.select_general closed_with_profit in
  Stats.total_trades g = 1
  /\ Stats.closed_trades g = 1
  /\ Stats.winning_trades g = Some 1
  /\ Stats.losing_trades g = Some 0
  /\ Stats.total_pnl g = Some (Sql.Sum_of [Sql.Real (Float.of_Z 8)])
  /\ Stats.avg_pnl g = Some (Sql.Avg_of [Sql.Real (Float.of_Z 8)])
  /\ Stats.total_risk_amount g = Some (Sql.Sum_of [Sql.Real (Float.of_Z 5)]).
Proof. vm_compute. repeat split. Qed.

Example closed_without_pnl_statistics :
  let g := PaperTrades.select_general closed_without_pnl in
  Stats.closed_trades g = 1
  /\ Stats.winning_trades g = Some 0
  /\ Stats.losing_trades g = Some 0
  /\ Stats.total_pnl g = None
  /\ Stats.avg_pnl g = None.
Proof. vm_compute. repeat split. Qed.

Lemma order_by_In {A} (le : A -> A -> bool) (l : list A) (x : A) :
  In x (Sql.order_by le l) <-> In x l.
Proof.
  assert (Hins : forall y l', In x (Sql.insert le y l') <-> x = y \/ In x l').
  { intros y l'. induction l' as [|z l' IH]; simpl.
    - intuition.
    - destruct (le y z); simpl; rewrite ?IH; intuition. }
  induction l as [|y l IH]; simpl.
  - reflexivity.
  - unfold Sql.order_by in *. rewrite Hins, IH. intuition.
Qed.

Lemma upper_char_idempotent (c : ascii) : upper_char (upper_char c) = upper_char c.
Proof.
  destruct c as [[] [] [] [] [] [] [] []]; reflexivity.
Qed.

Lemma upper_idempotent (s : string) : upper (upper s) = upper s.
Proof.
  induction s as [|c s IH]; simpl.
  - reflexivity.
  - now rewrite upper_char_idempotent, IH.
Qed.

(** ** Reordering favorites *)

Lemma reorder_loop_no_faults (now : clock) (l : list string) :
  forall (index : Z) (c : conn),
    Favorites.reorder_loop now index l no_faults c =
    (Return tt,
     {| disk := disk c;
        work := set_favorites (work c)
                  (map (reorder_row now index l) (favorites (work c)))
                  (favorites_seq (work c));
        tick := (tick c + List.length l)%nat |}).
Proof.
  induction l as [|s l IH]; intros index c.
  - simpl. unfold ret. f_equal. destruct c as [dk [fa fs wa ws pa ps] tk]; simpl.
    unfold set_favorites; simpl. rewrite map_id. now rewrite Nat.add_0_r.
  - simpl. unfold bind, execute at 1. simpl. unfold next_tick. rewrite IH. simpl.
    f_equal. f_equal.
    + unfold set_favorites, Favorites.update_sort_order; simpl.
      f_equal. rewrite map_map. reflexivity.
    + lia.
Qed.

Lemma reorder_favorites_no_faults (now : clock) (reorder : FavoriteReorder.t)
    (d : database) :
  serve (Favorites.reorder_favorites now reorder) no_faults d =
  (OK "Порядок избранного обновлен",
   set_favorites d
     (map (reorder_row now 0 (FavoriteReorder.symbol_order reorder)) (favorites d))
     (favorites_seq d)).
Proof.
  rewrite serve_unfold.
  unfold Favorites.reorder_favorites, with_connection, try_except, bind.
  rewrite reorder_loop_no_faults. reflexivity.
Qed.

Lemma reorder_row_symbol (now : clock) (l : list string) :
  forall index r, Favorite.symbol (reorder_row now index l r) = Favorite.symbol r.
Proof.
  induction l as [|s l IH]; intros index r; simpl.
  - reflexivity.
  - rewrite IH. now destruct (String.eqb _ _).
Qed.

Lemma reorder_row_id (now : clock) (l : list string) :
  forall index r, Favorite.id (reorder_row now index l r) = Favorite.id r.
Proof.
  induction l as [|s l IH]; intros index r; simpl.
  - reflexivity.
  - rewrite IH. now destruct (String.eqb _ _).
Qed.

Lemma reorder_row_not_mentioned (now : clock) (l : list string) :
  forall index r,
    ~ In (Favorite.symbol r) (map upper l) ->
    reorder_row now index l r = r.
Proof.
  induction l as [|s l IH]; intros index r Hnot; simpl in *.
  - reflexivity.
  - destruct (String.eqb_spec (Favorite.symbol r) (upper s)) as [E|E].
    + exfalso. apply Hnot. left. now symmetry.
    + apply IH. intro H. apply Hnot. now right.
Qed.

Lemma reorder_row_last_position (now : clock) (l : list string) :
  forall index r n,
    nth_error (map upper l) n = Some (Favorite.symbol r) ->
    (forall m, (n < m)%nat -> nth_error (map upper l) m <> Some (Favorite.symbol r)) ->
    Favorite.sort_order (reorder_row now index l r) = index + Z.of_nat n.
Proof.
  induction l as [|s l IH]; intros index r n Hn Hlast.
  - destruct n; discriminate.
  - destruct n as [|n]; simpl in *.
    + injection Hn as Hs. rewrite <- Hs, String.eqb_refl.
      rewrite reorder_row_not_mentioned.
      * simpl. lia.
      * simpl. intro Hin. apply In_nth_error in Hin as [m Hm].
        apply (Hlast (S m)); [lia|]. simpl. congruence.
    + set (r1 := if String.eqb (Favorite.symbol r) (upper s)
                 then Favorites.set_sort_order index (utcnow now (Z.to_nat index)) r
                 else r).
      assert (Hsym : Favorite.symbol r1 = Favorite.symbol r).
      { unfold r1. now destruct (String.eqb _ _). }
      rewrite (IH (index + 1) r1 n).
      * lia.
      * now rewrite Hsym.
      * intros m Hm. rewrite Hsym. apply (Hlast (S m)). lia.
Qed.

(** C10. POST /favorites/reorder succeeds whatever symbols the list holds:
    no row is added or removed, the other tables are untouched, and a
    favorite whose symbol is not (upper-cased) in the list is left exactly as
    it was, so symbols that match no favorite change nothing. *)
Theorem C10_reorder_ignores_unknown_symbols :
  forall (now : clock) (reorder : FavoriteReorder.t) (d : database),
  exists d' : database,
    serve (Favorites.reorder_favorites now reorder) no_faults d =
      (OK "Порядок избранного обновлен", d')
    /\ map Favorite.id (favorites d') = map Favorite.id (favorites d)
    /\ map Favorite.symbol (favorites d') = map Favorite.symbol (favorites d)
    /\ favorites_seq d' = favorites_seq d
    /\ watchlist d' = watchlist d
    /\ watchlist_seq d' = watchlist_seq d
    /\ paper_trades d' = paper_trades d
    /\ paper_trades_seq d' = paper_trades_seq d
    /\ forall (k : nat) (r : Favorite.row),
         nth_error (favorites d) k = Some r ->
         nth_error (favorites d') k = Some r
         \/ In (Favorite.symbol r)
               (map upper (FavoriteReorder.symbol_order reorder)).
Proof.
  intros now reorder d. eexists. split.
  - apply reorder_favorites_no_faults.
  - simpl. repeat split.
    + rewrite map_map. apply map_ext. intro r. apply reorder_row_id.
    + rewrite map_map. apply map_ext. intro r. apply reorder_row_symbol.
    + intros k r Hk.
      destruct (in_dec string_dec (Favorite.symbol r)
                  (map upper (FavoriteReorder.symbol_order reorder))) as [Hin|Hnot].
      * now right.
      * left. rewrite nth_error_map, Hk. simpl.
        now rewrite reorder_row_not_mentioned.
Qed.

Lemma C10_reorder_unknown_symbol_witness :
  exists d' : database,
    serve (Favorites.reorder_favorites noon
             {| FavoriteReorder.symbol_order := ["ZZZ"] |}) no_faults favorites_abc =
      (OK "Порядок избранного обновлен", d')
    /\ favorites d' = favorites favorites_abc.
Proof.
  destruct (C10_reorder_ignores_unknown_symbols noon
              {| FavoriteReorder.symbol_order := ["ZZZ"] |} favorites_abc)
    as [d' [Hrun _]].
  exists d'. split.
  - exact Hrun.
  - rewrite reorder_favorites_no_faults in Hrun. injection Hrun as <-. reflexivity.
Defined.

(** C5, as stated, fails on its own example: after reordering A, B, C with
    the list [B, A, C] the favorites are listed B, A, C (ascending
    sort_order 0, 1, 2), not A, B, C. *)
Lemma C5_listing_after_reorder_is_not_ABC :
  let d1 := snd (serve (Favorites.reorder_favorites noon order_bac)
                   no_faults favorites_abc) in
  exists listing : list Favorite.row,
    fst (serve Favorites.get_favorites no_faults d1) = OK listing
    /\ map Favorite.symbol listing = ["B"; "A"; "C"]
    /\ map Favorite.symbol listing <> ["A"; "B"; "C"].
Proof.
  simpl. eexists. split.
  - vm_compute. reflexivity.
  - split.
    + vm_compute. reflexivity.
    + vm_compute. discriminate.
Qed.

(** C5, amended. POST /favorites/reorder with list L keeps every row, gives
    each favorite whose symbol occurs in the upper-cased L the 0-based
    position of its last occurrence there (its position, when it occurs
    once), and leaves every favorite not mentioned as it was; with the list
    [B, A, C] this yields sort_order A=1, B=0, C=2, and GET /favorites then
    lists B, A, C. *)
Theorem C5_reorder_assigns_positions :
  (forall (now : clock) (reorder : FavoriteReorder.t) (d : database),
   exists d' : database,
     serve (Favorites.reorder_favorites now reorder) no_faults d =
       (OK "Порядок избранного обновлен", d')
     /\ List.length (favorites d') = List.length (favorites d)
     /\ forall (k : nat) (r : Favorite.row),
          nth_error (favorites d) k = Some r ->
          exists r' : Favorite.row,
            nth_error (favorites d') k = Some r'
            /\ Favorite.id r' = Favorite.id r
            /\ Favorite.symbol r' = Favorite.symbol r
            /\ (forall n : nat,
                  nth_error (map upper (FavoriteReorder.symbol_order reorder)) n
                    = Some (Favorite.symbol r) ->
                  (forall m : nat, (n < m)%nat ->
                     nth_error (map upper (FavoriteReorder.symbol_order reorder)) m
                       <> Some (Favorite.symbol r)) ->
                  Favorite.sort_order r' = Z.of_nat n)
            /\ (~ In (Favorite.symbol r)
                     (map upper (FavoriteReorder.symbol_order reorder)) ->
                r' = r))
  /\ (let d1 := snd (serve (Favorites.reorder_favorites noon order_bac)
                       no_faults favorites_abc) in
      sort_order_of "A" d1 = Some 1
      /\ sort_order_of "B" d1 = Some 0
      /\ sort_order_of "C" d1 = Some 2
      /\ option_map (map Favorite.symbol)
           (match fst (serve Favorites.get_favorites no_faults d1) with
            | OK listing => Some listing
            | HTTPError _ _ => None
            end) = Some ["B"; "A"; "C"]).
Proof.
  split.
  - intros now reorder d. eexists. split; [apply reorder_favorites_no_faults|].
    simpl. split; [apply length_map|].
    intros k r Hk.
    exists (reorder_row now 0 (FavoriteReorder.symbol_order reorder) r).
    split; [now rewrite nth_error_map, Hk|].
    split; [apply reorder_row_id|].
    split; [apply reorder_row_symbol|].
    split.
    + intros n Hn Hlast.
      now rewrite (reorder_row_last_position now _ 0 r n Hn Hlast).
    + apply reorder_row_not_mentioned.
  - vm_compute. repeat split.
Qed.

Lemma C5_reorder_bac_witness :
  exists d' : database,
    serve (Favorites.reorder_favorites noon order_bac) no_faults favorites_abc =
      (OK "Порядок избранного обновлен", d')
    /\ map Favorite.sort_order (favorites d') = [1; 0; 2].
Proof.
  destruct (proj1 C5_reorder_assigns_positions noon order_bac favorites_abc)
    as [d' [Hrun _]].
  exists d'. split.
  - exact Hrun.
  - rewrite reorder_favorites_no_faults in Hrun. injection Hrun as <-.
    vm_compute. reflexivity.
Defined.

(** ** The watchlist flags *)

Lemma get_watchlist_no_faults (d : database) :
  serve Watchlist.get_watchlist no_faults d =
  (OK (Sql.order_by Watchlist.listing_le
         (watchlist (Watchlist.raise_flags (Watchlist.clear_flags d)))),
   Watchlist.raise_flags (Watchlist.clear_flags d)).
Proof. reflexivity. Qed.

Lemma recomputed_flags (d : database) :
  watchlist (Watchlist.raise_flags (Watchlist.clear_flags d)) =
  map (fun r => Watchlist.set_is_favorite
                  (Watchlist.in_favorites d (Watch.symbol r)) r)
      (watchlist d).
Proof.
  unfold Watchlist.raise_flags, Watchlist.clear_flags. simpl.
  rewrite map_map. apply map_ext. intro r. simpl.
  unfold Watchlist.in_favorites at 1. simpl.
  fold (Watchlist.in_favorites d (Watch.symbol r)).
  now destruct (Watchlist.in_favorites d (Watch.symbol r)).
Qed.

Lemma in_favorites_iff (d : database) (sym : string) :
  Watchlist.in_favorites d sym = true
  <-> In sym (map Favorite.symbol (favorites d)).
Proof.
  unfold Watchlist.in_favorites. rewrite existsb_exists, in_map_iff.
  split.
  - intros [f [Hin Heq]]. apply String.eqb_eq in Heq. exists f. now split.
  - intros [f [Heq Hin]]. exists f. split; [assumption|].
    apply String.eqb_eq. now symmetry.
Qed.





Lemma recomputed_rows (d : database) :
  Forall2 same_but_flag (watchlist d)
    (watchlist (Watchlist.raise_flags (Watchlist.clear_flags d)))
  /\ forall r,
       In r (watchlist (Watchlist.raise_flags (Watchlist.clear_flags d))) ->
       flag_follows (favorites d) r.
Proof.
  rewrite recomputed_flags. split.
  - induction (watchlist d) as [|r l IH]; cbn [map]; constructor; [|exact IH].
    unfold same_but_flag. now auto 10.
  - intros r Hin. apply in_map_iff in Hin as [r0 [<- _]].
    unfold flag_follows. cbn. apply in_favorites_iff.
Qed.




(** ** Storage failures *)

Lemma strict_ret {A} (a : A) : strict (ret a).
Proof.
  intros f c. simpl. split; [lia|]. intros k msg Hk. lia.
Qed.

Lemma strict_raise {A} (e : exn) : strict (@raise A e).
Proof.
  intros f c. simpl. split; [lia|]. intros k msg Hk. lia.
Qed.

Lemma strict_execute {A} (stmt : database -> outcome (A * database)) :
  strict (execute stmt).
Proof.
  intros f c. unfold execute.
  destruct (f (tick c)) as [m|] eqn:Hf.
  - simpl. split; [lia|]. intros k msg Hk Hmsg.
    assert (k = tick c) by lia. subst k. congruence.
  - destruct (stmt (work c)) as [[a w]|e]; simpl;
      (split; [lia|]); intros k msg Hk Hmsg;
      assert (k = tick c) by lia; subst k; congruence.
Qed.

Lemma strict_query {A} (q : database -> A) : strict (query q).
Proof. apply strict_execute. Qed.

Lemma strict_commit : strict commit.
Proof.
  intros f c. unfold commit.
  destruct (f (tick c)) as [m|] eqn:Hf; simpl;
    (split; [lia|]); intros k msg Hk Hmsg;
    assert (k = tick c) by lia; subst k; congruence.
Qed.

Lemma strict_bind {A B} (m : io A) (k : A -> io B) :
  strict m -> (forall a, strict (k a)) -> strict (bind m k).
Proof.
  intros Hm Hk f c. unfold bind.
  destruct (Hm f c) as [Hle Hfault].
  destruct (m f c) as [[a|e] c1] eqn:Hrun; simpl in *.
  - destruct (Hk a f c1) as [Hle' Hfault'].
    split; [lia|]. intros n msg Hn Hmsg.
    destruct (Nat.lt_ge_cases n (tick c1)) as [Hlt|Hge].
    + specialize (Hfault n msg (conj (proj1 Hn) Hlt) Hmsg). discriminate.
    + apply (Hfault' n msg); [lia|assumption].
  - split; [lia|]. intros n msg Hn Hmsg.
    specialize (Hfault n msg Hn Hmsg). now injection Hfault as ->.
Qed.

Lemma strict_reorder_loop (now : clock) (l : list string) :
  forall index, strict (Favorites.reorder_loop now index l).
Proof.
  induction l as [|s l IH]; intro index; simpl.
  - apply strict_ret.
  - apply strict_bind; [apply strict_execute|]. intros _. apply IH.
Qed.

Lemma strict_bind_int (n : Z) : strict (bind_int n).
Proof.
  unfold bind_int. destruct (Sql.int64 n); [apply strict_ret|apply strict_raise].
Qed.

Lemma strict_bind_optional_int (n : option Z) : strict (bind_optional_int n).
Proof.
  destruct n as [v|]; [apply strict_bind_int|apply strict_ret].
Qed.

Ltac strict_body :=
  repeat first
    [ apply strict_ret
    | apply strict_raise
    | apply strict_bind_int
    | apply strict_bind_optional_int
    | apply strict_query
    | apply strict_execute
    | apply strict_commit
    | apply strict_reorder_loop
    | apply strict_bind; [|intro]
    | match goal with
      | |- strict (if ?b then _ else _) => destruct b
      | |- strict (match ?x with _ => _ end) => destruct x
      end ].

(** The [except] clauses of the endpoints: writers pass an [HTTPException]
    on and roll back anything else, readers only wrap. *)
Lemma writer_surfaces {A} (prefix : string) (body : io A) :
  strict body ->
  surfaces prefix
    (with_connection
       (try_except body
          (fun e =>
             match e with
             | HTTPException _ _ => raise e
             | _ => rollback ;;; raise (HTTPException 500 (prefix ++ str e))
             end))).
Proof.
  intros Hbody f d k msg Hk Hmsg.
  unfold issued in Hk. rewrite serve_unfold.
  unfold with_connection, try_except in *. simpl in *.
  destruct (Hbody f {| disk := d; work := d; tick := 0 |}) as [_ Hfault].
  specialize (Hfault k msg).
  destruct (body f {| disk := d; work := d; tick := 0 |}) as [[a|e] c1] eqn:Hrun;
    simpl in *.
  - assert (H : Return a = Raise (OperationalError msg))
      by (apply Hfault; [simpl in Hk; lia|assumption]).
    discriminate.
  - assert (H : @Raise A e = Raise (OperationalError msg)).
    { apply Hfault; [|assumption]. destruct e; simpl in Hk; lia. }
    injection H as ->. reflexivity.
Qed.

Lemma rollback_surfaces {A} (prefix : string) (body : io A) :
  strict body ->
  surfaces prefix
    (with_connection
       (try_except body
          (fun e => rollback ;;; raise (HTTPException 500 (prefix ++ str e))))).
Proof.
  intros Hbody f d k msg Hk Hmsg.
  unfold issued in Hk. rewrite serve_unfold.
  unfold with_connection, try_except in *. simpl in *.
  destruct (Hbody f {| disk := d; work := d; tick := 0 |}) as [_ Hfault].
  specialize (Hfault k msg).
  destruct (body f {| disk := d; work := d; tick := 0 |}) as [[a|e] c1] eqn:Hrun;
    simpl in *.
  - assert (H : Return a = Raise (OperationalError msg))
      by (apply Hfault; [simpl in Hk; lia|assumption]).
    discriminate.
  - assert (H : @Raise A e = Raise (OperationalError msg))
      by (apply Hfault; [simpl in Hk; lia|assumption]).
    injection H as ->. reflexivity.
Qed.

Lemma reader_surfaces {A} (prefix : string) (body : io A) :
  strict body ->
  surfaces prefix
    (with_connection
       (try_except body
          (fun e => raise (HTTPException 500 (prefix ++ str e))))).
Proof.
  intros Hbody f d k msg Hk Hmsg.
  unfold issued in Hk. rewrite serve_unfold.
  unfold with_connection, try_except in *. simpl in *.
  destruct (Hbody f {| disk := d; work := d; tick := 0 |}) as [_ Hfault].
  specialize (Hfault k msg).
  destruct (body f {| disk := d; work := d; tick := 0 |}) as [[a|e] c1] eqn:Hrun;
    simpl in *.
  - assert (H : Return a = Raise (OperationalError msg))
      by (apply Hfault; [simpl in Hk; lia|assumption]).
    discriminate.
  - assert (H : @Raise A e = Raise (OperationalError msg))
      by (apply Hfault; [simpl in Hk; lia|assumption]).
    injection H as ->. reflexivity.
Qed.

Lemma recomputation_failure_is_swallowed (f : faults) (d : database)
    (k : nat) (msg : string) :
  (k < 3)%nat ->
  f k = Some msg ->
  (forall j, (j < k)%nat -> f j = None) ->
  f (S k) = None ->
  serve Watchlist.get_watchlist f d =
  (OK (Sql.order_by Watchlist.listing_le (watchlist d)), d).
Proof.
  intros Hk Hmsg Hbefore Hafter.
  rewrite serve_unfold.
  unfold Watchlist.get_watchlist, Watchlist.update_watchlist_favorites,
    with_connection, try_except, bind, query, execute, commit, rollback, ret.
  destruct k as [|[|[|k]]]; [| | |lia]; simpl.
  - rewrite Hmsg. simpl. rewrite Hafter. reflexivity.
  - rewrite (Hbefore 0%nat) by lia. simpl. rewrite Hmsg. simpl.
    rewrite Hafter. reflexivity.
  - rewrite (Hbefore 0%nat) by lia. simpl. rewrite (Hbefore 1%nat) by lia. simpl.
    rewrite Hmsg. simpl. rewrite Hafter. reflexivity.
Qed.

Lemma listing_failure_is_surfaced (f : faults) (d : database) (msg : string) :
  f 0%nat = None -> f 1%nat = None -> f 2%nat = None -> f 3%nat = Some msg ->
  fst (serve Watchlist.get_watchlist f d) =
  HTTPError 500 ("Ошибка получения списка: " ++ msg).
Proof.
  intros H0 H1 H2 H3.
  rewrite serve_unfold.
  unfold Watchlist.get_watchlist, Watchlist.update_watchlist_favorites,
    with_connection, try_except, bind, query, execute, commit, rollback, ret.
  simpl. rewrite H0. simpl. rewrite H1. simpl. rewrite H2. simpl. rewrite H3.
  reflexivity.
Qed.

Lemma listing_failure_after_failed_recomputation (f : faults) (d : database)
    (k : nat) (msg msg' : string) :
  (k < 3)%nat ->
  f k = Some msg ->
  (forall j, (j < k)%nat -> f j = None) ->
  f (S k) = Some msg' ->
  fst (serve Watchlist.get_watchlist f d) =
  HTTPError 500 ("Ошибка получения списка: " ++ msg').
Proof.
  intros Hk Hmsg Hbefore Hafter.
  rewrite serve_unfold.
  unfold Watchlist.get_watchlist, Watchlist.update_watchlist_favorites,
    with_connection, try_except, bind, query, execute, commit, rollback, ret.
  destruct k as [|[|[|k]]]; [| | |lia]; simpl.
  - rewrite Hmsg. simpl. rewrite Hafter. reflexivity.
  - rewrite (Hbefore 0%nat) by lia. simpl. rewrite Hmsg. simpl.
    rewrite Hafter. reflexivity.
  - rewrite (Hbefore 0%nat) by lia. simpl. rewrite (Hbefore 1%nat) by lia. simpl.
    rewrite Hmsg. simpl. rewrite Hafter. reflexivity.
Qed.

(** C9, as stated, fails: when the first statement of the flag recomputation
    fails inside GET /watchlist, the caller still gets a 200 listing, with
    the flags as they were stored. *)
Lemma C9_recomputation_failure_not_reported :
  fails_at 0 "database is locked" 0%nat = Some "database is locked"
  /\ serve Watchlist.get_watchlist (fails_at 0 "database is locked") stale_watchlist =
     (OK [watch_at 2 "B" true; watch_at 1 "A" false], stale_watchlist).
Proof.
  split; vm_compute; reflexivity.
Qed.

(** C9, amended. The failure of any statement that an endpoint issues itself
    reaches the caller as a 500 response whose detail is the endpoint's
    message followed by the failure's text; this holds for every endpoint
    except GET /watchlist, where a failure inside the flag recomputation is
    rolled back and not reported (the listing is read from what was stored)
    and only a failure of the listing's own SELECT is reported. *)
Theorem C9_storage_failures_surface_except_recomputation :
  surfaces "Ошибка получения избранного: " Favorites.get_favorites
  /\ (forall now favorite,
        surfaces "Ошибка добавления в избранное: "
          (Favorites.add_favorite now favorite))
  /\ (forall now symbol favorite,
        surfaces "Ошибка обновления избранного: "
          (Favorites.update_favorite now symbol favorite))
  /\ (forall symbol,
        surfaces "Ошибка удаления из избранного: "
          (Favorites.remove_favorite symbol))
  /\ (forall now reorder,
        surfaces "Ошибка изменения порядка: "
          (Favorites.reorder_favorites now reorder))
  /\ (forall now item,
        surfaces "Ошибка добавления в список: "
          (Watchlist.add_to_watchlist now item))
  /\ (forall now item_id item,
        surfaces "Ошибка обновления элемента: "
          (Watchlist.update_watchlist_item now item_id item))
  /\ (forall item_id,
        surfaces "Ошибка удаления элемента: "
          (Watchlist.remove_from_watchlist item_id))
  /\ (forall status symbol,
        surfaces "Ошибка получения сделок: "
          (PaperTrades.get_paper_trades status symbol))
  /\ (forall now trade,
        surfaces "Ошибка создания сделки: "
          (PaperTrades.create_paper_trade now trade))
  /\ (forall now trade_id trade_update,
        surfaces "Ошибка обновления сделки: "
          (PaperTrades.update_paper_trade now trade_id trade_update))
  /\ (forall trade_id,
        surfaces "Ошибка удаления сделки: "
          (PaperTrades.delete_paper_trade trade_id))
  /\ surfaces "Ошибка получения статистики: " PaperTrades.get_paper_trading_stats
  /\ (forall (f : faults) (d : database) (k : nat) (msg : string),
        (k < 3)%nat ->
        f k = Some msg ->
        (forall j, (j < k)%nat -> f j = None) ->
        f (S k) = None ->
        serve Watchlist.get_watchlist f d =
        (OK (Sql.order_by Watchlist.listing_le (watchlist d)), d))
  /\ (forall (f : faults) (d : database) (msg : string),
        f 0%nat = None -> f 1%nat = None -> f 2%nat = None ->
        f 3%nat = Some msg ->
        fst (serve Watchlist.get_watchlist f d) =
        HTTPError 500 ("Ошибка получения списка: " ++ msg))
  /\ (forall (f : faults) (d : database) (k : nat) (msg msg' : string),
        (k < 3)%nat ->
        f k = Some msg ->
        (forall j, (j < k)%nat -> f j = None) ->
        f (S k) = Some msg' ->
        fst (serve Watchlist.get_watchlist f d) =
        HTTPError 500 ("Ошибка получения списка: " ++ msg')).
Proof.
  repeat split; intros;
    try (first [apply writer_surfaces | apply rollback_surfaces
               | apply reader_surfaces];
         strict_body).
  - now apply recomputation_failure_is_swallowed with (k := k) (msg := msg).
  - now apply listing_failure_is_surfaced.
  - now apply listing_failure_after_failed_recomputation with (k := k) (msg := msg).
Qed.

Lemma C9_storage_failure_witness :
  fst (serve (Favorites.remove_favorite "A") (fails_at 2 "disk I/O error")
         stale_watchlist)
    = HTTPError 500 ("Ошибка удаления из избранного: " ++ "disk I/O error")
  /\ serve Watchlist.get_watchlist (fails_at 1 "disk I/O error") stale_watchlist
     = (OK (Sql.order_by Watchlist.listing_le (watchlist stale_watchlist)),
        stale_watchlist).
Proof.
  destruct C9_storage_failures_surface_except_recomputation
    as (_ & _ & _ & Hremove & _ & _ & _ & _ & _ & _ & _ & _ & _ & Hswallow & _ & _).
  split.
  - apply (Hremove "A" (fails_at 2 "disk I/O error") stale_watchlist 2%nat).
    + vm_compute. lia.
    + reflexivity.
  - apply (Hswallow (fails_at 1 "disk I/O error") stale_watchlist 1%nat
             "disk I/O error").
    + lia.
    + reflexivity.
    + intros j Hj. assert (j = 0%nat) by lia. subst j. reflexivity.
    + reflexivity.
Defined.

(** ** Duplicate favorites *)

Lemma duplicate_is_refused (sym : string) (d : database) :
  In sym (map Favorite.symbol (favorites d)) ->
  existsb (fun r => String.eqb (Favorite.symbol r) sym) (favorites d) = true.
Proof.
  intro Hin. apply existsb_exists. apply in_map_iff in Hin as [r [Heq Hin]].
  exists r. split; [assumption|]. rewrite Heq. apply String.eqb_refl.
Qed.

Lemma raw_match_is_found (sym : string) (d : database) :
  In sym (map Favorite.symbol (favorites d)) ->
  is_some (fetchone (Favorites.select_id sym d)) = true.
Proof.
  intro Hin. apply in_map_iff in Hin as [r [Heq Hin]].
  unfold Favorites.select_id.
  assert (Hf : In r (filter (fun r => String.eqb (Favorite.symbol r) sym)
                       (favorites d))).
  { apply filter_In. split; [assumption|]. rewrite Heq. apply String.eqb_refl. }
  destruct (filter _ (favorites d)); [contradiction|reflexivity].
Qed.

(** C4 (defect in [add_favorite]). The lookup that guards the insert compares
    the symbol as sent, the insert stores it upper-cased.  A duplicate never
    creates a second row and always fails, and it is answered 400 when the
    symbol as sent is already stored; but a duplicate spelled in another case
    passes the lookup, is refused by the UNIQUE constraint and is answered
    500: with A, B, C stored, POST /favorites for "a" yields 500. *)
Theorem C4_duplicate_in_other_case_is_a_500 :
  (forall (now : clock) (favorite : FavoriteCreate.t) (f : faults) (d : database),
     In (upper (FavoriteCreate.symbol favorite))
        (map Favorite.symbol (favorites d)) ->
     exists (status_code : Z) (detail : string),
       serve (Favorites.add_favorite now favorite) f d
         = (HTTPError status_code detail, d)
       /\ (status_code = 400 \/ status_code = 500))
  /\ (forall (now : clock) (favorite : FavoriteCreate.t) (d : database),
        In (FavoriteCreate.symbol favorite) (map Favorite.symbol (favorites d)) ->
        serve (Favorites.add_favorite now favorite) no_faults d
          = (HTTPError 400
               ("Пара " ++ FavoriteCreate.symbol favorite ++ " уже в избранном"),
             d))
  /\ serve (Favorites.add_favorite noon (favorite_request "a")) no_faults
       favorites_abc
     = (HTTPError 500
          "Ошибка добавления в избранное: UNIQUE constraint failed: favorites.symbol",
        favorites_abc).
Proof.
  split; [|split].
  - intros now favorite f d Hdup.
    rewrite serve_unfold.
    unfold Favorites.add_favorite, with_connection, try_except, bind, query,
      execute, commit, rollback, raise, ret. simpl.
    destruct (f 0%nat); simpl; [eauto|].
    destruct (is_some (fetchone (Favorites.select_id _ d))); simpl; [eauto|].
    destruct (f 1%nat); simpl; [eauto|].
    destruct (f 2%nat); simpl; [eauto|].
    unfold Favorites.insert. rewrite (duplicate_is_refused _ d Hdup). simpl. eauto.
  - intros now favorite d Hdup.
    rewrite serve_unfold.
    unfold Favorites.add_favorite, with_connection, try_except, bind, query,
      execute, raise. simpl.
    rewrite (raw_match_is_found _ d Hdup). reflexivity.
  - vm_compute. reflexivity.
Qed.

Lemma C4_duplicate_witness :
  (exists (status_code : Z) (detail : string),
     serve (Favorites.add_favorite noon (favorite_request "a"))
       (fails_at 1 "database is locked") favorites_abc
       = (HTTPError status_code detail, favorites_abc)
     /\ (status_code = 400 \/ status_code = 500))
  /\ serve (Favorites.add_favorite noon (favorite_request "A")) no_faults
       favorites_abc
     = (HTTPError 400 ("Пара " ++ "A" ++ " уже в избранном"), favorites_abc).
Proof.
  destruct C4_duplicate_in_other_case_is_a_500 as (Hany & Hraw & _).
  split.
  - apply (Hany noon (favorite_request "a")). simpl. tauto.
  - apply (Hraw noon (favorite_request "A") favorites_abc). simpl. tauto.
Defined.

(** ** Creating a paper trade *)

Lemma int64_spec (n : Z) : Sql.int64 n = true <-> - 2 ^ 63 <= n < 2 ^ 63.
Proof.
  unfold Sql.int64. rewrite andb_true_iff, Z.leb_le, Z.ltb_lt. reflexivity.
Qed.

Lemma not_int64_spec (n : Z) :
  Sql.int64 n = false <-> n < - 2 ^ 63 \/ 2 ^ 63 <= n.
Proof.
  unfold Sql.int64. rewrite andb_false_iff, Z.leb_gt, Z.ltb_ge. reflexivity.
Qed.

Lemma is_nan_false (x : float) : x <> S754_nan -> Float.is_nan x = false.
Proof. destruct x; try reflexivity. intro H. now elim H. Qed.

Lemma compare_antisym (x y : float) :
  SFcompare y x = option_map CompOpp (SFcompare x y).
Proof.
  destruct x as [sx|sx| |sx mx ex], y as [sy|sy| |sy my ey]; simpl;
    try reflexivity;
    try (destruct sx; reflexivity); try (destruct sy; reflexivity);
    try (destruct sx, sy; reflexivity).
  destruct sx, sy; try reflexivity;
    rewrite (Z.compare_antisym ey ex);
    destruct (ey ?= ex)%Z; simpl; try reflexivity;
    change (PosDef.Pos.compare_cont Eq mx my) with (Pos.compare mx my);
    change (PosDef.Pos.compare_cont Eq my mx) with (Pos.compare my mx);
    rewrite (Pos.compare_antisym mx my); try reflexivity.
Qed.

(** Between two doubles neither of which is a NaN, [y < x] holds as soon as
    [x <= y] does not. *)
Lemma ltb_of_not_leb (x y : float) :
  x <> S754_nan -> y <> S754_nan ->
  Float.leb x y = false -> Float.ltb y x = true.
Proof.
  intros Hx Hy. unfold Float.leb, Float.ltb, SFleb, SFltb.
  rewrite (compare_antisym x y).
  destruct (SFcompare x y) as [[]|] eqn:E; simpl; try discriminate; try reflexivity.
  destruct x, y; simpl in E; try discriminate; contradiction.
Qed.


Lemma create_rejected (now : clock) (t : PaperTradeCreate.t) (f : faults)
    (d : database) (msg : string) :
  validation_detail t = Some msg ->
  serve (PaperTrades.create_paper_trade now t) f d = (HTTPError 400 msg, d).
Proof.
  unfold validation_detail. intro H.
  rewrite serve_unfold.
  unfold PaperTrades.create_paper_trade, with_connection, try_except, bind,
    raise, ret.
  destruct (negb (PaperTrades.in_list _ _));
    [injection H as <-; reflexivity|].
  destruct (Float.leb (PaperTradeCreate.entry_price t) (Float.of_Z 0));
    [injection H as <-; reflexivity|].
  destruct (Float.leb (PaperTradeCreate.quantity t) (Float.of_Z 0));
    [injection H as <-; reflexivity|].
  destruct (String.eqb (PaperTradeCreate.direction t) "LONG").
  - destruct (Float.leb (PaperTradeCreate.entry_price t) _);
      [injection H as <-; reflexivity|].
    destruct (Float.leb (PaperTradeCreate.take_profit t) _);
      [injection H as <-; reflexivity|discriminate].
  - destruct (Float.leb (PaperTradeCreate.stop_loss t) _);
      [injection H as <-; reflexivity|].
    destruct (Float.leb (PaperTradeCreate.entry_price t) _);
      [injection H as <-; reflexivity|discriminate].
Qed.

(** What becomes of a trade that passes the checks: the binding of
    [alert_id], the INSERT with its constraints, the commit. *)
Lemma create_accepted (now : clock) (t : PaperTradeCreate.t) (f : faults)
    (d : database) :
  validation_detail t = None ->
  serve (PaperTrades.create_paper_trade now t) f d =
  if match PaperTradeCreate.alert_id t with
     | Some n => Sql.int64 n
     | None => true
     end
  then
    match f 0%nat with
    | Some msg => (HTTPError 500 ("Ошибка создания сделки: " ++ msg), d)
    | None =>
        match PaperTrades.null_column t with
        | Some column =>
            (HTTPError 500
               ("Ошибка создания сделки: "
                ++ "NOT NULL constraint failed: paper_trades." ++ column),
             d)
        | None =>
            if negb (PaperTrades.in_list (PaperTradeCreate.status t)
                       ["planned"; "active"; "closed"])
            then (HTTPError 500
                    ("Ошибка создания сделки: "
                     ++ "CHECK constraint failed: status IN ('planned', 'active', 'closed')"),
                  d)
            else
              match f 1%nat with
              | Some msg => (HTTPError 500 ("Ошибка создания сделки: " ++ msg), d)
              | None =>
                  (OK {| trade_id := paper_trades_seq d + 1;
                         trade_symbol := upper (PaperTradeCreate.symbol t);
                         trade_direction := PaperTradeCreate.direction t;
                         trade_message :=
                           PaperTradeCreate.direction t ++ " бумажная сделка для "
                           ++ PaperTradeCreate.symbol t ++ " создана" |},
                   set_paper_trades d
                     (paper_trades d
                      ++ [stored_trade now t (paper_trades_seq d + 1)])%list
                     (paper_trades_seq d + 1))
              end
        end
    end
  else
    (HTTPError 500
       ("Ошибка создания сделки: "
        ++ "Python int too large to convert to SQLite INTEGER"),
     d).
Proof.
  unfold validation_detail. intro H.
  rewrite serve_unfold.
  unfold PaperTrades.create_paper_trade, with_connection, try_except, bind,
    raise, ret, execute, commit, rollback, PaperTrades.insert,
    bind_optional_int, bind_int, stored_trade.
  destruct (negb (PaperTrades.in_list (PaperTradeCreate.direction t) _));
    [discriminate|].
  destruct (Float.leb (PaperTradeCreate.entry_price t) (Float.of_Z 0));
    [discriminate|].
  destruct (Float.leb (PaperTradeCreate.quantity t) (Float.of_Z 0));
    [discriminate|].
  destruct (String.eqb (PaperTradeCreate.direction t) "LONG").
  - destruct (Float.leb (PaperTradeCreate.entry_price t) _); [discriminate|].
    destruct (Float.leb (PaperTradeCreate.take_profit t) _); [discriminate|].
    destruct (PaperTradeCreate.alert_id t) as [n|]; unfold ret, raise;
      [destruct (Sql.int64 n); [|reflexivity]|];
      cbn [tick]; (destruct (f 0%nat); [reflexivity|]);
      cbn [work];
      (destruct (PaperTrades.null_column t); [reflexivity|]);
      (destruct (negb (PaperTrades.in_list (PaperTradeCreate.status t) _));
        [reflexivity|]);
      cbn [tick next_tick]; destruct (f 1%nat); reflexivity.
  - destruct (Float.leb (PaperTradeCreate.stop_loss t) _); [discriminate|].
    destruct (Float.leb (PaperTradeCreate.entry_price t) _); [discriminate|].
    destruct (PaperTradeCreate.alert_id t) as [n|]; unfold ret, raise;
      [destruct (Sql.int64 n); [|reflexivity]|];
      cbn [tick]; (destruct (f 0%nat); [reflexivity|]);
      cbn [work];
      (destruct (PaperTrades.null_column t); [reflexivity|]);
      (destruct (negb (PaperTrades.in_list (PaperTradeCreate.status t) _));
        [reflexivity|]);
      cbn [tick next_tick]; destruct (f 1%nat); reflexivity.
Qed.

Lemma validation_detail_spec (t : PaperTradeCreate.t) :
  rejected_by_validation t <-> exists msg, validation_detail t = Some msg.
Proof.
  unfold rejected_by_validation, validation_detail, PaperTrades.in_list, existsb,
    float_le.
  destruct (String.eqb_spec (PaperTradeCreate.direction t) "LONG") as [HL|HL];
  destruct (String.eqb_spec (PaperTradeCreate.direction t) "SHORT") as [HS|HS];
    try (exfalso; congruence); cbn [orb negb].
  - (* LONG *)
    assert (HnS : PaperTradeCreate.direction t <> "SHORT") by (rewrite HL; discriminate).
    destruct (Float.leb (PaperTradeCreate.entry_price t) (Float.of_Z 0)) eqn:E1;
      [split; eauto|].
    destruct (Float.leb (PaperTradeCreate.quantity t) (Float.of_Z 0)) eqn:E2;
      [split; eauto|].
    destruct (Float.leb (PaperTradeCreate.entry_price t)
                (PaperTradeCreate.stop_loss t)) eqn:E3;
      [split; eauto 7|].
    destruct (Float.leb (PaperTradeCreate.take_profit t)
                (PaperTradeCreate.entry_price t)) eqn:E4;
      [split; eauto 7|].
    split; [|intros [msg H]; discriminate].
    intros [[H _]|[H|[H|[[_ [H|H]]|[H _]]]]]; congruence.
  - (* SHORT *)
    destruct (Float.leb (PaperTradeCreate.entry_price t) (Float.of_Z 0)) eqn:E1;
      [split; eauto|].
    destruct (Float.leb (PaperTradeCreate.quantity t) (Float.of_Z 0)) eqn:E2;
      [split; eauto|].
    destruct (Float.leb (PaperTradeCreate.stop_loss t)
                (PaperTradeCreate.entry_price t)) eqn:E3;
      [split; eauto 8|].
    destruct (Float.leb (PaperTradeCreate.entry_price t)
                (PaperTradeCreate.take_profit t)) eqn:E4;
      [split; eauto 8|].
    split; [|intros [msg H]; discriminate].
    intros [[_ H]|[H|[H|[[H _]|[_ [H|H]]]]]]; congruence.
  - (* neither *)
    split; eauto.
Qed.

Lemma in_status_list (s : string) :
  PaperTrades.in_list s ["planned"; "active"; "closed"] = true <-> valid_status s.
Proof.
  unfold PaperTrades.in_list, valid_status, existsb.
  destruct (String.eqb_spec s "planned"), (String.eqb_spec s "active"),
    (String.eqb_spec s "closed"); cbn [orb]; split; intro H;
    try reflexivity; try tauto; try discriminate.
Qed.

Lemma storable_spec (t : PaperTradeCreate.t) :
  storable t ->
  match PaperTradeCreate.alert_id t with
  | Some n => Sql.int64 n
  | None => true
  end = true
  /\ PaperTrades.null_column t = None.
Proof.
  intros (Halert & H1 & H2 & H3 & H4 & H5 & H6 & H7 & H8 & H9 & H10). split.
  - destruct (PaperTradeCreate.alert_id t) as [n|]; [|reflexivity].
    specialize (Halert n eq_refl). unfold Sql.int64.
    apply andb_true_intro. split; [apply Z.leb_le|apply Z.ltb_lt]; lia.
  - unfold PaperTrades.null_column, PaperTrades.real_columns. cbn [find snd].
    now rewrite !is_nan_false.
Qed.

(** C1, as stated, fails: a LONG trade with entry 100, stop 95, take 110
    and quantity 1 meets none of the listed conditions, and yet it is not
    inserted when its status is "done" (the table's CHECK on [status]
    refuses the row), when its alert reference is 2^63 (sqlite3 cannot bind
    it to an INTEGER) or when its risk amount is a NaN (bound as NULL to a
    NOT NULL column); each of these requests ends in a 500. *)
Lemma C1_unlisted_rejections :
  (~ rejected_by_validation (proposed_trade "btcusdt" "LONG" "done")
   /\ serve (PaperTrades.create_paper_trade noon
               (proposed_trade "btcusdt" "LONG" "done"))
        no_faults empty_database
      = (HTTPError 500
           "Ошибка создания сделки: CHECK constraint failed: status IN ('planned', 'active', 'closed')",
         empty_database))
  /\ (~ rejected_by_validation
        (with_alert_id (proposed_trade "btcusdt" "LONG" "planned") (2 ^ 63))
      /\ serve (PaperTrades.create_paper_trade noon
                  (with_alert_id (proposed_trade "btcusdt" "LONG" "planned")
                     (2 ^ 63)))
           no_faults empty_database
         = (HTTPError 500
              "Ошибка создания сделки: Python int too large to convert to SQLite INTEGER",
            empty_database))
  /\ (~ rejected_by_validation
        (with_risk_amount (proposed_trade "btcusdt" "LONG" "planned") S754_nan)
      /\ serve (PaperTrades.create_paper_trade noon
                  (with_risk_amount (proposed_trade "btcusdt" "LONG" "planned")
                     S754_nan))
           no_faults empty_database
         = (HTTPError 500
              "Ошибка создания сделки: NOT NULL constraint failed: paper_trades.risk_amount",
            empty_database)).
Proof.
  repeat split;
    try (rewrite validation_detail_spec; intros [msg H]; vm_compute in H;
         discriminate);
    vm_compute; reflexivity.
Qed.

(** C1, amended. If one of the listed conditions holds, POST /paper-trades
    answers 400 and nothing is persisted (whatever the storage does).  For a
    request whose status is planned, active or closed the converse holds: a
    400 is answered only if one of the conditions holds, and when none holds
    and the trade can be stored (its alert reference fits 64 bits, none of
    its amounts is a NaN) the trade is inserted with its symbol upper-cased
    and with the two clock readings of the request (absent a storage
    failure). *)
Theorem C1_create_validates_then_inserts :
  forall (now : clock) (t : PaperTradeCreate.t) (d : database),
    (forall f : faults,
       rejected_by_validation t ->
       exists detail,
         serve (PaperTrades.create_paper_trade now t) f d
           = (HTTPError 400 detail, d))
    /\ (valid_status (PaperTradeCreate.status t) ->
        forall (f : faults) (detail : string),
          fst (serve (PaperTrades.create_paper_trade now t) f d)
            = HTTPError 400 detail ->
          rejected_by_validation t)
    /\ (valid_status (PaperTradeCreate.status t) ->
        storable t ->
        ~ rejected_by_validation t ->
        exists (reply : created_trade) (r : Trade.row),
          serve (PaperTrades.create_paper_trade now t) no_faults d
            = (OK reply,
               set_paper_trades d (paper_trades d ++ [r])%list
                 (paper_trades_seq d + 1))
          /\ r = stored_trade now t (paper_trades_seq d + 1)
          /\ Trade.symbol r = upper (PaperTradeCreate.symbol t)
          /\ Trade.created_at r = utcnow now 0
          /\ Trade.updated_at r = utcnow now 1
          /\ trade_id reply = Trade.id r
          /\ trade_symbol reply = upper (PaperTradeCreate.symbol t)).
Proof.
  intros now t d. split; [|split].
  - intros f Hrej. apply validation_detail_spec in Hrej as [msg H].
    exists msg. apply (create_rejected now t f d msg H).
  - intros Hstatus f detail H. apply validation_detail_spec.
    destruct (validation_detail t) as [msg|] eqn:Hv; [now exists msg|].
    exfalso. rewrite (create_accepted now t f d Hv) in H.
    destruct (match PaperTradeCreate.alert_id t with
              | Some n => Sql.int64 n
              | None => true
              end); [|discriminate].
    destruct (f 0%nat); [discriminate|].
    destruct (PaperTrades.null_column t); [discriminate|].
    destruct (negb (PaperTrades.in_list _ _)); [discriminate|].
    destruct (f 1%nat); discriminate.
  - intros Hstatus Hstore Hok.
    assert (Hv : validation_detail t = None).
    { destruct (validation_detail t) as [msg|] eqn:Hv; [|reflexivity].
      exfalso. apply Hok. apply validation_detail_spec. now exists msg. }
    rewrite (create_accepted now t no_faults d Hv). cbn [no_faults].
    destruct (storable_spec t Hstore) as [-> ->].
    apply in_status_list in Hstatus. rewrite Hstatus. cbn [negb].
    do 2 eexists. split; [reflexivity|]. now auto 10.
Qed.

Lemma C1_scenario_witness :
  (exists detail,
     serve (PaperTrades.create_paper_trade noon
              (proposed_trade "btcusdt" "SHORT" "planned"))
       no_faults empty_database
       = (HTTPError 400 detail, empty_database))
  /\ exists (reply : created_trade) (r : Trade.row),
       serve (PaperTrades.create_paper_trade noon
                (proposed_trade "btcusdt" "LONG" "planned"))
         no_faults empty_database
         = (OK reply, set_paper_trades empty_database [r] 1)
       /\ Trade.symbol r = "BTCUSDT".
Proof.
  split.
  - apply (C1_create_validates_then_inserts noon
             (proposed_trade "btcusdt" "SHORT" "planned") empty_database).
    right. right. right. right. split; [reflexivity|].
    left. vm_compute. reflexivity.
  - destruct (C1_create_validates_then_inserts noon
                (proposed_trade "btcusdt" "LONG" "planned") empty_database)
      as (_ & _ & Hinsert).
    destruct Hinsert as (reply & r & Hrun & _ & Hsym & _).
    + left. reflexivity.
    + unfold storable. cbn.
      split; [intros n H; discriminate|].
      repeat split; discriminate.
    + rewrite validation_detail_spec. intros [msg H]. vm_compute in H. discriminate.
    + exists reply, r. split; [exact Hrun|exact Hsym].
Defined.

(** ** Status values *)

Lemma known_trade_is_found (id : Z) (d : database) :
  In id (map Trade.id (paper_trades d)) ->
  is_some (fetchone (PaperTrades.select_id id d)) = true.
Proof.
  intro Hin. apply in_map_iff in Hin as [r [Heq Hin]].
  unfold PaperTrades.select_id.
  assert (Hf : In r (filter (fun r => (Trade.id r =? id)%Z) (paper_trades d))).
  { apply filter_In. split; [assumption|]. rewrite Heq. apply Z.eqb_refl. }
  destruct (filter _ (paper_trades d)); [contradiction|reflexivity].
Qed.

Lemma invalid_status_not_listed (s : string) :
  ~ valid_status s ->
  PaperTrades.in_list s ["planned"; "active"; "closed"] = false.
Proof.
  intro H. destruct (PaperTrades.in_list s _) eqn:E; [|reflexivity].
  exfalso. apply H. now apply in_status_list.
Qed.

(** C6 (defect in [create_paper_trade]). A status outside planned, active,
    closed never reaches the table: PUT /paper-trades/{id} checks it and
    answers 400 for a known trade (whose id, being stored, is an SQLite
    INTEGER), but POST /paper-trades does not check it;
    there the row is refused by the table's CHECK constraint and the request
    is answered 500, not 400.  The scenario's LONG trade with status "done"
    yields 500. *)
Theorem C6_invalid_status_on_create_is_a_500 :
  serve (PaperTrades.create_paper_trade noon
           (proposed_trade "BTCUSDT" "LONG" "done"))
    no_faults empty_database
  = (HTTPError 500
       "Ошибка создания сделки: CHECK constraint failed: status IN ('planned', 'active', 'closed')",
     empty_database)
  /\ (forall (now : clock) (t : PaperTradeCreate.t) (f : faults) (d : database),
        ~ valid_status (PaperTradeCreate.status t) ->
        exists (status_code : Z) (detail : string),
          serve (PaperTrades.create_paper_trade now t) f d
            = (HTTPError status_code detail, d)
          /\ (status_code = 400 \/ status_code = 500))
  /\ (forall (now : clock) (trade_id : Z) (u : PaperTradeUpdate.t)
             (d : database) (s : string),
        PaperTradeUpdate.status u = Some s ->
        ~ valid_status s ->
        In trade_id (map Trade.id (paper_trades d)) ->
        - 2 ^ 63 <= trade_id < 2 ^ 63 ->
        serve (PaperTrades.update_paper_trade now trade_id u) no_faults d
          = (HTTPError 400 "Неверный статус сделки", d))
  /\ (forall (now : clock) (trade_id : Z) (u : PaperTradeUpdate.t)
             (f : faults) (d : database) (s : string),
        PaperTradeUpdate.status u = Some s ->
        ~ valid_status s ->
        exists (status_code : Z) (detail : string),
          serve (PaperTrades.update_paper_trade now trade_id u) f d
            = (HTTPError status_code detail, d)).
Proof.
  split; [vm_compute; reflexivity|]. split; [|split].
  - intros now t f d Hbad.
    destruct (validation_detail t) as [msg|] eqn:Hv.
    + rewrite (create_rejected now t f d msg Hv). eauto.
    + rewrite (create_accepted now t f d Hv).
      destruct (match PaperTradeCreate.alert_id t with
                | Some n => Sql.int64 n
                | None => true
                end); [|eauto].
      destruct (f 0%nat); [eauto|].
      destruct (PaperTrades.null_column t); [eauto|].
      rewrite (invalid_status_not_listed _ Hbad). cbn [negb]. eauto.
  - intros now trade_id u d s Hs Hbad Hknown Hfits.
    apply int64_spec in Hfits.
    rewrite serve_unfold.
    unfold PaperTrades.update_paper_trade, with_connection, try_except, bind,
      bind_int, query, execute, raise, ret.
    rewrite Hfits.
    cbn [disk tick work no_faults]. rewrite (known_trade_is_found _ _ Hknown).
    rewrite Hs, (invalid_status_not_listed _ Hbad). reflexivity.
  - intros now trade_id u f d s Hs Hbad.
    rewrite serve_unfold.
    unfold PaperTrades.update_paper_trade, with_connection, try_except, bind,
      bind_int, query, execute, raise, ret, rollback.
    destruct (Sql.int64 trade_id); [|cbn; eauto].
    cbn [disk tick work]. destruct (f 0%nat); [cbn; eauto|].
    destruct (is_some (fetchone (PaperTrades.select_id trade_id d)));
      [|cbn; eauto].
    rewrite Hs, (invalid_status_not_listed _ Hbad). cbn. eauto.
Qed.

Lemma C6_invalid_status_witness :
  (exists (status_code : Z) (detail : string),
     serve (PaperTrades.create_paper_trade noon
              (proposed_trade "ETHUSDT" "SHORT" "open"))
       no_faults one_planned_trade
       = (HTTPError status_code detail, one_planned_trade)
     /\ (status_code = 400 \/ status_code = 500))
  /\ serve (PaperTrades.update_paper_trade noon 1 (status_update "done"))
       no_faults one_planned_trade
     = (HTTPError 400 "Неверный статус сделки", one_planned_trade).
Proof.
  destruct C6_invalid_status_on_create_is_a_500 as (_ & Hcreate & Hupdate & _).
  split.
  - apply Hcreate. unfold valid_status. simpl.
    intros [H|[H|H]]; discriminate.
  - apply (Hupdate noon 1 (status_update "done") one_planned_trade "done").
    + reflexivity.
    + unfold valid_status. intros [H|[H|H]]; discriminate.
    + simpl. tauto.
    + lia.
Defined.

(** ** Upper-casing at the boundary *)

Ltac run_io :=
  rewrite ?serve_unfold;
  unfold with_connection, try_except, bind, bind_optional_int, bind_int, query,
    execute, commit, rollback, raise, ret;
  cbn [disk work tick next_tick fst snd].

Ltac split_cases :=
  repeat (cbn [disk work tick next_tick fst snd];
          match goal with
          | |- context [match ?g ?n with Some _ => _ | None => _ end] =>
              destruct (g n)
          | |- context [if ?b then _ else _] => destruct b
          | |- context [match ?x with Return _ => _ | Raise _ => _ end] =>
              destruct x as [[? ?]|[]]
          end);
  try reflexivity.

Lemma remove_favorite_normalizes (symbol : string) (f : faults) (d : database) :
  snd (serve (Favorites.remove_favorite symbol) f d)
  = snd (serve (Favorites.remove_favorite (upper symbol)) f d).
Proof.
  unfold Favorites.remove_favorite. run_io. rewrite upper_idempotent.
  split_cases.
Qed.

Lemma update_favorite_normalizes (now : clock) (symbol : string)
    (u : FavoriteUpdate.t) (f : faults) (d : database) :
  snd (serve (Favorites.update_favorite now symbol u) f d)
  = snd (serve (Favorites.update_favorite now (upper symbol) u) f d).
Proof.
  unfold Favorites.update_favorite. run_io. rewrite upper_idempotent.
  split_cases.
Qed.

Lemma update_watchlist_item_normalizes (now : clock) (item_id id0 : Z)
    (symbol : string) (active : bool) (f : faults) (d : database) :
  snd (serve (Watchlist.update_watchlist_item now item_id
                {| WatchlistUpdate.id := id0; WatchlistUpdate.symbol := symbol;
                   WatchlistUpdate.is_active := active |}) f d)
  = snd (serve (Watchlist.update_watchlist_item now item_id
                  {| WatchlistUpdate.id := id0; WatchlistUpdate.symbol := upper symbol;
                     WatchlistUpdate.is_active := active |}) f d).
Proof.
  unfold Watchlist.update_watchlist_item. run_io.
  cbn [WatchlistUpdate.symbol WatchlistUpdate.is_active]. rewrite upper_idempotent.
  split_cases.
Qed.

Lemma create_paper_trade_normalizes (now : clock) (t : PaperTradeCreate.t)
    (f : faults) (d : database) :
  snd (serve (PaperTrades.create_paper_trade now t) f d)
  = snd (serve (PaperTrades.create_paper_trade now
                  (with_symbol t (upper (PaperTradeCreate.symbol t)))) f d).
Proof.
  destruct (validation_detail t) as [msg|] eqn:Hv.
  - rewrite (create_rejected now t f d msg Hv).
    rewrite (create_rejected now _ f d msg); [reflexivity|exact Hv].
  - rewrite (create_accepted now t f d Hv).
    rewrite (create_accepted now _ f d); [|exact Hv].
    unfold stored_trade, with_symbol.
    cbn [PaperTradeCreate.symbol PaperTradeCreate.alert_id
         PaperTradeCreate.direction PaperTradeCreate.entry_price
         PaperTradeCreate.stop_loss PaperTradeCreate.take_profit
         PaperTradeCreate.quantity PaperTradeCreate.risk_amount
         PaperTradeCreate.risk_percentage PaperTradeCreate.position_value
         PaperTradeCreate.potential_loss PaperTradeCreate.potential_profit
         PaperTradeCreate.risk_reward_ratio PaperTradeCreate.status
         PaperTradeCreate.notes].
    rewrite upper_idempotent.
    change (PaperTrades.null_column
              {| PaperTradeCreate.symbol := upper (PaperTradeCreate.symbol t);
                 PaperTradeCreate.alert_id := PaperTradeCreate.alert_id t;
                 PaperTradeCreate.direction := PaperTradeCreate.direction t;
                 PaperTradeCreate.entry_price := PaperTradeCreate.entry_price t;
                 PaperTradeCreate.stop_loss := PaperTradeCreate.stop_loss t;
                 PaperTradeCreate.take_profit := PaperTradeCreate.take_profit t;
                 PaperTradeCreate.quantity := PaperTradeCreate.quantity t;
                 PaperTradeCreate.risk_amount := PaperTradeCreate.risk_amount t;
                 PaperTradeCreate.risk_percentage :=
                   PaperTradeCreate.risk_percentage t;
                 PaperTradeCreate.position_value := PaperTradeCreate.position_value t;
                 PaperTradeCreate.potential_loss := PaperTradeCreate.potential_loss t;
                 PaperTradeCreate.potential_profit :=
                   PaperTradeCreate.potential_profit t;
                 PaperTradeCreate.risk_reward_ratio :=
                   PaperTradeCreate.risk_reward_ratio t;
                 PaperTradeCreate.status := PaperTradeCreate.status t;
                 PaperTradeCreate.notes := PaperTradeCreate.notes t |})
      with (PaperTrades.null_column t).
    destruct (match PaperTradeCreate.alert_id t with
              | Some n => Sql.int64 n
              | None => true
              end); [|reflexivity].
    destruct (f 0%nat); [reflexivity|].
    destruct (PaperTrades.null_column t); [reflexivity|].
    destruct (negb _); [reflexivity|].
    destruct (f 1%nat); [reflexivity|].
    reflexivity.
Qed.

Lemma truthy_upper (symbol : string) :
  truthy (Some (upper symbol)) = truthy (Some symbol).
Proof. destruct symbol; reflexivity. Qed.

Lemma get_paper_trades_normalizes (status : option string) (symbol : string)
    (f : faults) (d : database) :
  serve (PaperTrades.get_paper_trades status (Some symbol)) f d
  = serve (PaperTrades.get_paper_trades status (Some (upper symbol))) f d.
Proof.
  unfold PaperTrades.get_paper_trades. rewrite truthy_upper.
  destruct (truthy (Some symbol)); [|reflexivity].
  cbn [option_map]. now rewrite upper_idempotent.
Qed.

Lemma reorder_loop_normalizes (now : clock) (l : list string) :
  forall index f c,
    Favorites.reorder_loop now index l f c
    = Favorites.reorder_loop now index (map upper l) f c.
Proof.
  induction l as [|s l IH]; intros index f c; [reflexivity|].
  cbn [map Favorites.reorder_loop]. unfold bind.
  rewrite upper_idempotent.
  destruct (execute _ f c) as [[[]|e] c1]; [apply IH|reflexivity].
Qed.

Lemma reorder_favorites_normalizes (now : clock) (l : list string)
    (f : faults) (d : database) :
  serve (Favorites.reorder_favorites now {| FavoriteReorder.symbol_order := l |}) f d
  = serve (Favorites.reorder_favorites now
             {| FavoriteReorder.symbol_order := map upper l |}) f d.
Proof.
  rewrite !serve_unfold.
  unfold Favorites.reorder_favorites, with_connection, try_except.
  cbn [FavoriteReorder.symbol_order]. unfold bind at 1 3.
  now rewrite reorder_loop_normalizes.
Qed.

Lemma add_to_watchlist_normalizes (now : clock) (symbol : string) (f : faults)
    (d : database) :
  snd (serve (Watchlist.add_to_watchlist now
                {| WatchlistCreate.symbol := symbol |}) f d)
  = snd (serve (Watchlist.add_to_watchlist now
                  {| WatchlistCreate.symbol := upper symbol |}) f d).
Proof.
  unfold Watchlist.add_to_watchlist. run_io.
  cbn [WatchlistCreate.symbol]. rewrite upper_idempotent.
  split_cases.
Qed.

(** C8 (same defect as C4). [add_favorite] looks the symbol up as it was
    sent: "A" and "a" are the same symbol once upper-cased, yet with A stored
    the first is answered 400 by the duplicate check and the second passes
    it and fails on the insert with a 500.  Every other endpoint that takes
    a symbol upper-cases it before any use, so the spelling makes no
    difference to what it does to the database (or, for the trade filter,
    to what it returns). *)
Theorem C8_add_favorite_looks_up_the_raw_symbol :
  (upper "a" = upper "A"
   /\ fst (serve (Favorites.add_favorite noon (favorite_request "A")) no_faults
             favorites_abc)
      = HTTPError 400 "Пара A уже в избранном"
   /\ fst (serve (Favorites.add_favorite noon (favorite_request "a")) no_faults
             favorites_abc)
      = HTTPError 500
          "Ошибка добавления в избранное: UNIQUE constraint failed: favorites.symbol")
  /\ (forall now symbol u f d,
        snd (serve (Favorites.update_favorite now symbol u) f d)
        = snd (serve (Favorites.update_favorite now (upper symbol) u) f d))
  /\ (forall symbol f d,
        snd (serve (Favorites.remove_favorite symbol) f d)
        = snd (serve (Favorites.remove_favorite (upper symbol)) f d))
  /\ (forall now l f d,
        serve (Favorites.reorder_favorites now
                 {| FavoriteReorder.symbol_order := l |}) f d
        = serve (Favorites.reorder_favorites now
                   {| FavoriteReorder.symbol_order := map upper l |}) f d)
  /\ (forall now symbol f d,
        snd (serve (Watchlist.add_to_watchlist now
                      {| WatchlistCreate.symbol := symbol |}) f d)
        = snd (serve (Watchlist.add_to_watchlist now
                        {| WatchlistCreate.symbol := upper symbol |}) f d))
  /\ (forall now item_id id0 symbol active f d,
        snd (serve (Watchlist.update_watchlist_item now item_id
                      {| WatchlistUpdate.id := id0;
                         WatchlistUpdate.symbol := symbol;
                         WatchlistUpdate.is_active := active |}) f d)
        = snd (serve (Watchlist.update_watchlist_item now item_id
                        {| WatchlistUpdate.id := id0;
                           WatchlistUpdate.symbol := upper symbol;
                           WatchlistUpdate.is_active := active |}) f d))
  /\ (forall now t f d,
        snd (serve (PaperTrades.create_paper_trade now t) f d)
        = snd (serve (PaperTrades.create_paper_trade now
                        (with_symbol t (upper (PaperTradeCreate.symbol t)))) f d))
  /\ (forall status symbol f d,
        serve (PaperTrades.get_paper_trades status (Some symbol)) f d
        = serve (PaperTrades.get_paper_trades status (Some (upper symbol))) f d).
Proof.
  split.
  - split; [reflexivity|]. split; vm_compute; reflexivity.
  - split; [exact update_favorite_normalizes|].
    split; [exact remove_favorite_normalizes|].
    split; [exact reorder_favorites_normalizes|].
    split; [exact add_to_watchlist_normalizes|].
    split; [exact update_watchlist_item_normalizes|].
    split; [exact create_paper_trade_normalizes|].
    exact get_paper_trades_normalizes.
Qed.

(** ** Statistics *)

Lemma stats_no_faults (d : database) :
  serve PaperTrades.get_paper_trading_stats no_faults d =
  (OK {| Stats.general_stats := PaperTrades.select_general d;
         Stats.by_symbol := PaperTrades.select_by_symbol d;
         Stats.by_direction := PaperTrades.select_by_direction d |},
   d).
Proof. reflexivity. Qed.

Lemma non_null_all {A B} (g : A -> B) (rows : list A) :
  Sql.non_null (map (fun r => Some (g r)) rows) = map g rows.
Proof.
  induction rows as [|r rows IH]; simpl; [reflexivity|now rewrite IH].
Qed.

Lemma count_by_sum {A} (p : A -> bool) (rows : list A) :
  forall acc : Z,
    fold_left Z.add (map (fun r => if p r then 1 else 0) rows) acc
    = acc + Z.of_nat (List.length (filter p rows)).
Proof.
  induction rows as [|r rows IH]; intro acc; simpl.
  - lia.
  - rewrite IH. destruct (p r); simpl List.length; lia.
Qed.

Lemma SUM_int_counts {A} (p : A -> bool) (rows : list A) :
  rows <> [] ->
  Sql.SUM_int (map (fun r => Some (if p r then 1 else 0)) rows)
  = Some (Z.of_nat (List.length (filter p rows))).
Proof.
  intro Hne. unfold Sql.SUM_int. rewrite non_null_all.
  destruct (map (fun r => if p r then 1 else 0) rows) as [|v vs] eqn:E.
  - apply map_eq_nil in E. contradiction.
  - rewrite <- E, count_by_sum. reflexivity.
Qed.

Lemma winning_case (r : Trade.row) :
  Sql.case_when
    (Sql.AND (PaperTrades.is_closed r)
       (Sql.gt (Trade.actual_profit_loss r) (Float.of_Z 0)))
    1 0
  = if winning r then 1 else 0.
Proof.
  unfold winning, closed, PaperTrades.is_closed, Sql.gt.
  destruct (String.eqb (Trade.status r) "closed");
    destruct (Trade.actual_profit_loss r) as [v|]; simpl;
    try reflexivity; destruct (Float.ltb _ v); reflexivity.
Qed.

Lemma losing_case (r : Trade.row) :
  Sql.case_when
    (Sql.AND (PaperTrades.is_closed r)
       (Sql.lt (Trade.actual_profit_loss r) (Float.of_Z 0)))
    1 0
  = if losing r then 1 else 0.
Proof.
  unfold losing, closed, PaperTrades.is_closed, Sql.lt.
  destruct (String.eqb (Trade.status r) "closed");
    destruct (Trade.actual_profit_loss r) as [v|]; simpl;
    try reflexivity; destruct (Float.ltb v _); reflexivity.
Qed.

Lemma winning_count (rows : list Trade.row) :
  rows <> [] ->
  Sql.SUM_int
    (map (fun r =>
            Some (Sql.case_when
                    (Sql.AND (PaperTrades.is_closed r)
                       (Sql.gt (Trade.actual_profit_loss r) (Float.of_Z 0)))
                    1 0))
         rows)
  = Some (Z.of_nat (List.length (filter winning rows))).
Proof.
  intro Hne.
  rewrite (map_ext _ (fun r => Some (if winning r then 1 else 0)))
    by (intro r; now rewrite winning_case).
  now apply SUM_int_counts.
Qed.

Lemma losing_count (rows : list Trade.row) :
  rows <> [] ->
  Sql.SUM_int
    (map (fun r =>
            Some (Sql.case_when
                    (Sql.AND (PaperTrades.is_closed r)
                       (Sql.lt (Trade.actual_profit_loss r) (Float.of_Z 0)))
                    1 0))
         rows)
  = Some (Z.of_nat (List.length (filter losing rows))).
Proof.
  intro Hne.
  rewrite (map_ext _ (fun r => Some (if losing r then 1 else 0)))
    by (intro r; now rewrite losing_case).
  now apply SUM_int_counts.
Qed.

Lemma pnl_or_zero_inputs (rows : list Trade.row) :
  Sql.non_null (map PaperTrades.pnl_or_zero rows) = pnl_inputs rows.
Proof.
  induction rows as [|r rows IH]; [reflexivity|].
  cbn [map pnl_inputs flat_map]. fold (pnl_inputs rows). rewrite <- IH.
  unfold PaperTrades.pnl_or_zero, PaperTrades.is_closed, Sql.case_when, closed.
  destruct (String.eqb (Trade.status r) "closed");
    [destruct (Trade.actual_profit_loss r)|]; reflexivity.
Qed.


(** The inputs of a table none of whose trades is closed are as many
    integers 0. *)
Lemma pnl_inputs_open (rows : list Trade.row) :
  (forall r, In r rows -> closed r = false) ->
  pnl_inputs rows = repeat (Sql.Int 0) (List.length rows).
Proof.
  induction rows as [|r rows IH]; intro Hopen; [reflexivity|].
  cbn [pnl_inputs flat_map]. fold (pnl_inputs rows).
  rewrite (Hopen r (or_introl eq_refl)), IH by (intros; apply Hopen; now right).
  reflexivity.
Qed.

Lemma sum_of_zeros (n : nat) :
  n <> 0%nat ->
  Sql.SUM (map Some (repeat (Sql.Int 0) n)) = Some (Sql.Integer 0).
Proof.
  intro Hn. unfold Sql.SUM.
  assert (Hnn : Sql.non_null (map Some (repeat (Sql.Int 0) n))
                = repeat (Sql.Int 0) n).
  { clear Hn. induction n as [|n IH]; [reflexivity|]. simpl. now rewrite IH. }
  rewrite Hnn. destruct n as [|n]; [contradiction|].
  assert (Hall : forall m, forallb Sql.is_int (repeat (Sql.Int 0) m) = true)
    by (induction m; [reflexivity|assumption]).
  assert (Hsum : forall m acc,
            fold_left Z.add (map Sql.int_of (repeat (Sql.Int 0) m)) acc = acc).
  { induction m as [|m IH]; intro acc; [reflexivity|].
    simpl. rewrite IH. lia. }
  cbn [repeat]. change (Sql.Int 0 :: repeat (Sql.Int 0) n)
    with (repeat (Sql.Int 0) (S n)).
  now rewrite Hall, Hsum.
Qed.

(** C2 (defect in the statistics query). [winning_trades] and
    [losing_trades] are SUM(CASE ... THEN 1 ELSE 0 END) and [total_pnl] is
    SUM(CASE ... ELSE 0 END).  On a record set with trades they are what the
    claim says: the numbers of closed trades with a realized P&L above and
    below 0, a record set without a closed trade giving 0 for the counts and
    for the sum.  But SUM over no rows is NULL: on the empty record set the
    two counts and the sum are reported as null, not as 0. *)
Theorem C2_counts_are_null_without_trades :
  (exists st : Stats.t,
     serve PaperTrades.get_paper_trading_stats no_faults empty_database
       = (OK st, empty_database)
     /\ List.length (filter winning (paper_trades empty_database)) = 0%nat
     /\ List.length (filter losing (paper_trades empty_database)) = 0%nat
     /\ Stats.winning_trades (Stats.general_stats st) = None
     /\ Stats.losing_trades (Stats.general_stats st) = None
     /\ Stats.total_pnl (Stats.general_stats st) = None)
  /\ (forall d : database,
        paper_trades d <> [] ->
        exists st : Stats.t,
          serve PaperTrades.get_paper_trading_stats no_faults d = (OK st, d)
          /\ Stats.winning_trades (Stats.general_stats st)
             = Some (Z.of_nat (List.length (filter winning (paper_trades d))))
          /\ Stats.losing_trades (Stats.general_stats st)
             = Some (Z.of_nat (List.length (filter losing (paper_trades d)))))
  /\ (forall d : database,
        paper_trades d <> [] ->
        (forall r, In r (paper_trades d) -> closed r = false) ->
        exists st : Stats.t,
          serve PaperTrades.get_paper_trading_stats no_faults d = (OK st, d)
          /\ Stats.winning_trades (Stats.general_stats st) = Some 0
          /\ Stats.losing_trades (Stats.general_stats st) = Some 0
          /\ Stats.total_pnl (Stats.general_stats st) = Some (Sql.Integer 0)).
Proof.
  split; [|split].
  - eexists. split; [apply stats_no_faults|]. now auto 10.
  - intros d Hne. eexists. split; [apply stats_no_faults|].
    cbn [Stats.general_stats PaperTrades.select_general Stats.winning_trades
         Stats.losing_trades].
    split; [now apply winning_count|now apply losing_count].
  - intros d Hne Hopen. eexists. split; [apply stats_no_faults|].
    cbn [Stats.general_stats PaperTrades.select_general Stats.winning_trades
         Stats.losing_trades Stats.total_pnl].
    assert (Hnone : forall p : Trade.row -> bool,
              (forall r, p r = true -> closed r = true) ->
              filter p (paper_trades d) = []).
    { intros p Hp. destruct (filter p (paper_trades d)) as [|r l] eqn:E;
        [reflexivity|].
      assert (Hin : In r (filter p (paper_trades d))) by (rewrite E; now left).
      apply filter_In in Hin as [Hin Hpr].
      specialize (Hopen r Hin). rewrite (Hp r Hpr) in Hopen. discriminate. }
    split; [|split].
    + rewrite (winning_count _ Hne), Hnone; [reflexivity|].
      intros r H. unfold winning in H. now apply andb_prop in H.
    + rewrite (losing_count _ Hne), Hnone; [reflexivity|].
      intros r H. unfold losing in H. now apply andb_prop in H.
    + unfold Sql.SUM. rewrite pnl_or_zero_inputs, (pnl_inputs_open _ Hopen).
      pose proof (sum_of_zeros (List.length (paper_trades d))) as Hz.
      unfold Sql.SUM in Hz.
      assert (Hnn : forall n, Sql.non_null (map Some (repeat (Sql.Int 0) n))
                              = repeat (Sql.Int 0) n).
      { induction n as [|n IH]; [reflexivity|]. simpl. now rewrite IH. }
      rewrite Hnn in Hz. apply Hz.
      destruct (paper_trades d); [contradiction|discriminate].
Qed.

Lemma C2_closed_with_profit_witness :
  exists st : Stats.t,
    serve PaperTrades.get_paper_trading_stats no_faults closed_with_profit
      = (OK st, closed_with_profit)
    /\ Stats.winning_trades (Stats.general_stats st) = Some 1
    /\ Stats.losing_trades (Stats.general_stats st) = Some 0.
Proof.
  destruct C2_counts_are_null_without_trades as (_ & Hcounts & _).
  destruct (Hcounts closed_with_profit) as (st & Hrun & Hwin & Hlose).
  - discriminate.
  - exists st. split; [exact Hrun|]. split.
    + rewrite Hwin. vm_compute. reflexivity.
    + rewrite Hlose. vm_compute. reflexivity.
Defined.

(** C3 (same defect as C2). When there is no paper trade,
    GET /paper-trades/stats succeeds and leaves the database alone; the
    total and the three per-status counts are 0, the average is absent and
    the per-symbol and per-direction lists are empty, but the counts of
    winning and losing trades and both sums are reported as null, not
    as 0. *)
Theorem C3_no_trades_sums_are_null :
  forall d : database,
    paper_trades d = [] ->
    serve PaperTrades.get_paper_trading_stats no_faults d
      = (OK stats_of_no_trades, d)
    /\ Stats.total_trades (Stats.general_stats stats_of_no_trades) = 0
    /\ Stats.avg_pnl (Stats.general_stats stats_of_no_trades) = None
    /\ Stats.winning_trades (Stats.general_stats stats_of_no_trades) <> Some 0
    /\ Stats.losing_trades (Stats.general_stats stats_of_no_trades) <> Some 0
    /\ Stats.total_pnl (Stats.general_stats stats_of_no_trades)
       <> Some (Sql.Integer 0)
    /\ Stats.total_risk_amount (Stats.general_stats stats_of_no_trades)
       <> Some (Sql.Integer 0).
Proof.
  intros d Hnone. split.
  - rewrite stats_no_faults.
    unfold PaperTrades.select_general, PaperTrades.select_by_symbol,
      PaperTrades.select_by_direction.
    rewrite Hnone. reflexivity.
  - cbn. repeat split; discriminate.
Qed.

Lemma C3_no_trades_witness :
  serve PaperTrades.get_paper_trading_stats no_faults favorites_abc
  = (OK stats_of_no_trades, favorites_abc).
Proof.
  apply (C3_no_trades_sums_are_null favorites_abc). reflexivity.
Defined.

(** * Further properties of the endpoints *)

(** ** Transactions *)

Lemma quiet_ret {A} (a : A) : quiet (ret a).
Proof. intros f c. reflexivity. Qed.

Lemma quiet_raise {A} (e : exn) : quiet (@raise A e).
Proof. intros f c. reflexivity. Qed.

Lemma quiet_execute {A} (stmt : database -> outcome (A * database)) :
  quiet (execute stmt).
Proof.
  intros f c. unfold execute.
  destruct (f (tick c)); [reflexivity|].
  destruct (stmt (work c)) as [[a w]|e]; reflexivity.
Qed.

Lemma quiet_query {A} (q : database -> A) : quiet (query q).
Proof. apply quiet_execute. Qed.

Lemma quiet_rollback : quiet rollback.
Proof. intros f c. reflexivity. Qed.

Lemma quiet_bind {A B} (m : io A) (k : A -> io B) :
  quiet m -> (forall a, quiet (k a)) -> quiet (bind m k).
Proof.
  intros Hm Hk f c. unfold bind.
  specialize (Hm f c).
  destruct (m f c) as [[a|e] c1]; simpl in *.
  - now rewrite Hk.
  - exact Hm.
Qed.

Lemma quiet_reorder_loop (now : clock) (l : list string) :
  forall index, quiet (Favorites.reorder_loop now index l).
Proof.
  induction l as [|s l IH]; intro index; simpl.
  - apply quiet_ret.
  - apply quiet_bind; [apply quiet_execute|]. intros _. apply IH.
Qed.

Lemma quiet_bind_int (n : Z) : quiet (bind_int n).
Proof.
  unfold bind_int. destruct (Sql.int64 n); [apply quiet_ret|apply quiet_raise].
Qed.

Lemma quiet_bind_optional_int (n : option Z) : quiet (bind_optional_int n).
Proof.
  destruct n as [v|]; [apply quiet_bind_int|apply quiet_ret].
Qed.

Ltac quiet_body :=
  repeat first
    [ apply quiet_ret
    | apply quiet_raise
    | apply quiet_bind_int
    | apply quiet_bind_optional_int
    | apply quiet_query
    | apply quiet_execute
    | apply quiet_rollback
    | apply quiet_reorder_loop
    | apply quiet_bind; [|intro]
    | match goal with
      | |- quiet (if ?b then _ else _) => destruct b
      | |- quiet (match ?x with _ => _ end) => destruct x
      end ].

Lemma transactional_quiet {A} (m : io A) : quiet m -> transactional m.
Proof. intros Hm f c e _. apply Hm. Qed.

Lemma transactional_commit : transactional commit.
Proof.
  intros f c e. unfold commit.
  destruct (f (tick c)); simpl; [reflexivity|discriminate].
Qed.

Lemma transactional_bind {A B} (m : io A) (k : A -> io B) :
  quiet m -> (forall a, transactional (k a)) -> transactional (bind m k).
Proof.
  intros Hm Hk f c e. unfold bind.
  specialize (Hm f c).
  destruct (m f c) as [[a|e1] c1]; simpl in *.
  - intro H. rewrite (Hk a f c1 e H). exact Hm.
  - intros _. exact Hm.
Qed.

Lemma transactional_then_ret {A B} (m : io A) (b : B) :
  transactional m -> transactional (bind m (fun _ => ret b)).
Proof.
  intros Hm f c e. unfold bind, ret.
  specialize (Hm f c).
  destruct (m f c) as [[a|e1] c1]; simpl in *.
  - discriminate.
  - intros _. now apply (Hm e1).
Qed.

Ltac transactional_body :=
  repeat first
    [ apply transactional_commit
    | apply transactional_then_ret
    | apply transactional_bind; [solve [quiet_body]|intro]
    | match goal with
      | |- transactional (if ?b then _ else _) => destruct b
      | |- transactional (match ?x with _ => _ end) => destruct x
      end
    | apply transactional_quiet; solve [quiet_body] ].

Lemma writer_all_or_nothing {A} (prefix : string) (body : io A) :
  transactional body ->
  all_or_nothing
    (with_connection
       (try_except body
          (fun e =>
             match e with
             | HTTPException _ _ => raise e
             | _ => rollback ;;; raise (HTTPException 500 (prefix ++ str e))
             end))).
Proof.
  intros Hbody f d d' s detail. rewrite serve_unfold.
  unfold with_connection, try_except. simpl.
  specialize (Hbody f {| disk := d; work := d; tick := 0 |}).
  destruct (body f {| disk := d; work := d; tick := 0 |}) as [[a|e] c1]; simpl in *.
  - discriminate.
  - specialize (Hbody e eq_refl).
    destruct e; simpl; intro H; injection H as _ _ <-; exact Hbody.
Qed.

Lemma rollback_all_or_nothing {A} (prefix : string) (body : io A) :
  transactional body ->
  all_or_nothing
    (with_connection
       (try_except body
          (fun e => rollback ;;; raise (HTTPException 500 (prefix ++ str e))))).
Proof.
  intros Hbody f d d' s detail. rewrite serve_unfold.
  unfold with_connection, try_except. simpl.
  specialize (Hbody f {| disk := d; work := d; tick := 0 |}).
  destruct (body f {| disk := d; work := d; tick := 0 |}) as [[a|e] c1]; simpl in *.
  - discriminate.
  - specialize (Hbody e eq_refl).
    intro H; injection H as _ _ <-; exact Hbody.
Qed.

Lemma reader_read_only {A} (prefix : string) (body : io A) :
  quiet body ->
  read_only
    (with_connection
       (try_except body
          (fun e => raise (HTTPException 500 (prefix ++ str e))))).
Proof.
  intros Hbody f d. rewrite serve_unfold.
  unfold with_connection, try_except. simpl.
  specialize (Hbody f {| disk := d; work := d; tick := 0 |}).
  destruct (body f {| disk := d; work := d; tick := 0 |}) as [[a|e] c1]; simpl in *;
    exact Hbody.
Qed.

Lemma get_favorites_read_only : read_only Favorites.get_favorites.
Proof. apply reader_read_only; quiet_body. Qed.

Lemma get_paper_trades_read_only (status symbol : option string) :
  read_only (PaperTrades.get_paper_trades status symbol).
Proof. apply reader_read_only; quiet_body. Qed.

Lemma get_paper_trading_stats_read_only :
  read_only PaperTrades.get_paper_trading_stats.
Proof. apply reader_read_only; quiet_body. Qed.

(** X1. Whatever fails, a request that a writing endpoint answers with an error
    (400, 404 or 500) has changed nothing in the database. *)
Theorem writers_are_all_or_nothing :
  (forall now favorite, all_or_nothing (Favorites.add_favorite now favorite))
  /\ (forall now symbol favorite,
        all_or_nothing (Favorites.update_favorite now symbol favorite))
  /\ (forall symbol, all_or_nothing (Favorites.remove_favorite symbol))
  /\ (forall now reorder, all_or_nothing (Favorites.reorder_favorites now reorder))
  /\ (forall now item, all_or_nothing (Watchlist.add_to_watchlist now item))
  /\ (forall now item_id item,
        all_or_nothing (Watchlist.update_watchlist_item now item_id item))
  /\ (forall item_id, all_or_nothing (Watchlist.remove_from_watchlist item_id))
  /\ (forall now trade, all_or_nothing (PaperTrades.create_paper_trade now trade))
  /\ (forall now trade_id trade_update,
        all_or_nothing (PaperTrades.update_paper_trade now trade_id trade_update))
  /\ (forall trade_id, all_or_nothing (PaperTrades.delete_paper_trade trade_id)).
Proof.
  repeat split; intros;
    (first [apply writer_all_or_nothing | apply rollback_all_or_nothing]);
    transactional_body.
Qed.

Lemma writers_are_all_or_nothing_witness :
  snd (serve (Favorites.reorder_favorites noon order_bac)
         (fails_at 2 "disk I/O error") favorites_abc)
  = favorites_abc.
Proof.
  destruct writers_are_all_or_nothing as (_ & _ & _ & Hreorder & _).
  destruct (serve (Favorites.reorder_favorites noon order_bac)
              (fails_at 2 "disk I/O error") favorites_abc)
    as [[body|status_code detail] d'] eqn:Hrun.
  - vm_compute in Hrun. discriminate.
  - apply (Hreorder noon order_bac _ _ _ _ _ Hrun).
Defined.

(** X2. Whatever fails, GET /favorites, GET /paper-trades and
    GET /paper-trades/stats leave the database exactly as it was. *)
Theorem readers_are_read_only :
  read_only Favorites.get_favorites
  /\ (forall status symbol, read_only (PaperTrades.get_paper_trades status symbol))
  /\ read_only PaperTrades.get_paper_trading_stats.
Proof.
  split; [exact get_favorites_read_only|].
  split; [exact get_paper_trades_read_only|].
  exact get_paper_trading_stats_read_only.
Qed.

(** ** Listings *)

Lemma insert_sorted {A} (le : A -> A -> bool) :
  (forall a b, le a b = true \/ le b a = true) ->
  forall (x : A) (l : list A),
    Sorted (fun a b => le a b = true) l ->
    Sorted (fun a b => le a b = true) (Sql.insert le x l).
Proof.
  intros Htotal x l. induction l as [|y l IH]; intro Hs; simpl.
  - repeat constructor.
  - destruct (le x y) eqn:Hxy.
    + constructor; [assumption|]. now constructor.
    + inversion Hs as [|? ? Hs' Hhd]; subst.
      constructor; [now apply IH|].
      assert (Hyx : le y x = true).
      { destruct (Htotal x y) as [H|H]; [congruence|exact H]. }
      destruct l as [|z l]; simpl.
      * now constructor.
      * destruct (le x z); constructor; [exact Hyx|].
        now inversion Hhd.
Qed.

Lemma order_by_sorted {A} (le : A -> A -> bool) (l : list A) :
  (forall a b, le a b = true \/ le b a = true) ->
  Sorted (fun a b => le a b = true) (Sql.order_by le l).
Proof.
  intro Htotal. induction l as [|x l IH]; simpl.
  - constructor.
  - now apply insert_sorted.
Qed.

Lemma insert_permutation {A} (le : A -> A -> bool) (x : A) (l : list A) :
  Permutation (Sql.insert le x l) (x :: l).
Proof.
  induction l as [|y l IH]; simpl.
  - reflexivity.
  - destruct (le x y); [reflexivity|].
    rewrite IH. apply perm_swap.
Qed.

Lemma order_by_permutation {A} (le : A -> A -> bool) (l : list A) :
  Permutation (Sql.order_by le l) l.
Proof.
  induction l as [|x l IH]; simpl.
  - reflexivity.
  - unfold Sql.order_by in *. simpl. rewrite insert_permutation. now constructor.
Qed.

Lemma Sorted_impl {A} (R S : A -> A -> Prop) (l : list A) :
  (forall a b, R a b -> S a b) -> Sorted R l -> Sorted S l.
Proof.
  intros HRS Hs. induction Hs as [|a l Hs IH Hhd]; constructor.
  - exact IH.
  - destruct Hhd; constructor. now apply HRS.
Qed.

Lemma Sorted_map {A B} (R : B -> B -> Prop) (g : A -> B) (l : list A) :
  Sorted (fun a b => R (g a) (g b)) l -> Sorted R (map g l).
Proof.
  intro Hs. induction Hs as [|a l Hs IH Hhd]; simpl; constructor.
  - exact IH.
  - destruct Hhd; simpl; now constructor.
Qed.

Lemma favorites_listing_le_total (a b : Favorite.row) :
  Favorites.listing_le a b = true \/ Favorites.listing_le b a = true.
Proof.
  unfold Favorites.listing_le.
  destruct (Z.ltb_spec (Favorite.sort_order a) (Favorite.sort_order b));
    [now left|].
  destruct (Z.ltb_spec (Favorite.sort_order b) (Favorite.sort_order a));
    [now right|].
  assert (E : Favorite.sort_order a = Favorite.sort_order b) by lia.
  rewrite E, Z.eqb_refl. simpl.
  destruct (String.leb_total (Favorite.favorite_added_at a)
              (Favorite.favorite_added_at b)); [now right|now left].
Qed.

Lemma favorites_listing_le_spec (a b : Favorite.row) :
  Favorites.listing_le a b = true -> favorites_listed_before a b.
Proof.
  unfold Favorites.listing_le, favorites_listed_before. intro H.
  apply orb_true_iff in H as [H|H].
  - left. now apply Z.ltb_lt.
  - right. apply andb_true_iff in H as [H1 H2]. split; [now apply Z.eqb_eq|exact H2].
Qed.



Lemma to_dict_order (r : Favorite.row) :
  Favorite.sort_order (Favorites.to_dict r) = Favorite.sort_order r
  /\ Favorite.favorite_added_at (Favorites.to_dict r) = Favorite.favorite_added_at r.
Proof.
  split; [|reflexivity]. simpl.
  destruct (Favorite.sort_order r); reflexivity.
Qed.

Lemma to_dict_shows (r : Favorite.row) : favorite_shown_as r (Favorites.to_dict r).
Proof.
  unfold favorite_shown_as, Favorites.to_dict. cbn.
  do 7 (split; [reflexivity|]).
  split; [destruct (Favorite.color r); reflexivity|].
  split; [destruct (Favorite.sort_order r); reflexivity|].
  now auto.
Qed.

(** X3. GET /favorites returns every stored favorite exactly once: the
    listing shows, entry by entry, a rearrangement of the stored rows, each
    with all its columns as stored but for an empty color, shown as
    #FFD700; each entry has a sort_order not above the next one's and, on a
    tie, was added no earlier. *)
Theorem get_favorites_listing :
  forall d : database,
  exists (rows listing : list Favorite.row),
    serve Favorites.get_favorites no_faults d = (OK listing, d)
    /\ Permutation rows (favorites d)
    /\ Forall2 favorite_shown_as rows listing
    /\ Sorted favorites_listed_before listing.
Proof.
  intro d. exists (Sql.order_by Favorites.listing_le (favorites d)).
  exists (map Favorites.to_dict (Sql.order_by Favorites.listing_le (favorites d))).
  split; [reflexivity|]. split; [|split].
  - apply order_by_permutation.
  - induction (Sql.order_by Favorites.listing_le (favorites d)) as [|r l IH];
      cbn [map]; constructor; [apply to_dict_shows|exact IH].
  - apply Sorted_map.
    apply Sorted_impl with (R := fun a b => Favorites.listing_le a b = true).
    + intros a b H. apply favorites_listing_le_spec in H.
      unfold favorites_listed_before in *.
      destruct (to_dict_order a) as [-> ->], (to_dict_order b) as [-> ->].
      exact H.
    + apply order_by_sorted. apply favorites_listing_le_total.
Qed.


Lemma get_paper_trades_no_faults (status symbol : option string) (d : database) :
  serve (PaperTrades.get_paper_trades status symbol) no_faults d =
  (OK (PaperTrades.select_trades
         (if truthy status then status else None)
         (if truthy symbol then option_map upper symbol else None) d),
   d).
Proof. reflexivity. Qed.

Lemma passes_spec (status symbol : option string) (r : Trade.row) :
  passes status symbol r = true <-> passes_filters status symbol r.
Proof.
  unfold passes, passes_filters. rewrite andb_true_iff.
  assert (Hand : forall A B C D : Prop, (A <-> C) -> (B <-> D) -> (A /\ B <-> C /\ D))
    by (intros; tauto).
  apply Hand.
  - destruct status as [[|c s]|]; cbn [truthy].
    + split; [intros _ H; discriminate H|reflexivity].
    + rewrite String.eqb_eq. split.
      * intros -> _. reflexivity.
      * intro H. specialize (H eq_refl). now injection H.
    + split; [intros _ H; discriminate H|reflexivity].
  - destruct symbol as [[|c s]|]; cbn [truthy option_map].
    + split; [intros _ H; discriminate H|reflexivity].
    + rewrite String.eqb_eq. split.
      * intros -> _. reflexivity.
      * intro H. specialize (H eq_refl). now injection H.
    + split; [intros _ H; discriminate H|reflexivity].
Qed.

(** X5. GET /paper-trades returns exactly the stored trades that pass the
    filters, each once: the listing is a rearrangement of the stored rows
    whose status is the status filter and whose symbol is the upper-cased
    symbol filter, an absent or empty filter passing every trade; no entry
    is older than the one after it. *)
Theorem get_paper_trades_filters :
  forall (status symbol : option string) (d : database),
  exists trades : list Trade.row,
    serve (PaperTrades.get_paper_trades status symbol) no_faults d = (OK trades, d)
    /\ Permutation trades (filter (passes status symbol) (paper_trades d))
    /\ (forall r, passes status symbol r = true <-> passes_filters status symbol r)
    /\ (forall r, In r trades <->
                  In r (paper_trades d) /\ passes_filters status symbol r)
    /\ Sorted trades_listed_before trades.
Proof.
  intros status symbol d. eexists. split; [apply get_paper_trades_no_faults|].
  unfold PaperTrades.select_trades.
  assert (Hfilter :
    filter
      (fun r =>
         (match (if truthy status then status else None) with
          | Some s => String.eqb (Trade.status r) s
          | None => true
          end)
         && (match (if truthy symbol then option_map upper symbol else None) with
             | Some s => String.eqb (Trade.symbol r) s
             | None => true
             end))%bool
      (paper_trades d)
    = filter (passes status symbol) (paper_trades d)).
  { apply filter_ext. intro r. unfold passes.
    destruct status as [[|c s]|], symbol as [[|c' s']|]; reflexivity. }
  rewrite Hfilter. split; [|split; [|split]].
  - apply order_by_permutation.
  - intro r. apply passes_spec.
  - intro r. rewrite order_by_In, filter_In, passes_spec. reflexivity.
  - apply order_by_sorted. intros a b. apply String.leb_total.
Qed.

(** ** What GET /watchlist writes *)

Lemma get_watchlist_effect (f : faults) (d : database) :
  snd (serve Watchlist.get_watchlist f d) = d
  \/ snd (serve Watchlist.get_watchlist f d)
     = Watchlist.raise_flags (Watchlist.clear_flags d).
Proof.
  rewrite serve_unfold.
  unfold Watchlist.get_watchlist, Watchlist.update_watchlist_favorites,
    with_connection, try_except, bind, query, execute, commit, rollback, ret, raise.
  cbn [disk work tick next_tick].
  destruct (f 0%nat); cbn [disk work tick next_tick fst snd].
  { destruct (f 1%nat); cbn; auto. }
  destruct (f 1%nat); cbn [disk work tick next_tick fst snd].
  { destruct (f 2%nat); cbn; auto. }
  destruct (f 2%nat); cbn [disk work tick next_tick fst snd].
  { destruct (f 3%nat); cbn; auto. }
  destruct (f 3%nat); cbn; auto.
Qed.

Lemma set_is_favorite_twice (a b : bool) (r : Watch.row) :
  Watchlist.set_is_favorite a (Watchlist.set_is_favorite b r)
  = Watchlist.set_is_favorite a r.
Proof. reflexivity. Qed.

Lemma same_but_flag_refl (l : list Watch.row) : Forall2 same_but_flag l l.
Proof.
  induction l as [|r l IH]; constructor; [|exact IH].
  unfold same_but_flag. now auto 10.
Qed.

(** X6. Whatever fails, GET /watchlist writes nothing but the [is_favorite]
    column of the watchlist: after it the favorites, the trades and the
    three counters are as before, the watchlist holds the same rows in the
    same order with every column but [is_favorite] as before, and either
    the whole database is as before or every row's flag says whether its
    symbol is a favorite. *)
Theorem get_watchlist_writes_only_flags :
  forall (f : faults) (d : database),
    let d' := snd (serve Watchlist.get_watchlist f d) in
    favorites d' = favorites d
    /\ favorites_seq d' = favorites_seq d
    /\ paper_trades d' = paper_trades d
    /\ paper_trades_seq d' = paper_trades_seq d
    /\ watchlist_seq d' = watchlist_seq d
    /\ Forall2 same_but_flag (watchlist d) (watchlist d')
    /\ (d' = d
        \/ forall r, In r (watchlist d') -> flag_follows (favorites d) r).
Proof.
  intros f d d'. subst d'.
  destruct (get_watchlist_effect f d) as [-> | ->].
  - do 5 (split; [reflexivity|]). split; [apply same_but_flag_refl|now left].
  - destruct (recomputed_rows d) as [Hrows Hflags].
    do 5 (split; [reflexivity|]). split; [exact Hrows|now right].
Qed.

(** X7. GET /watchlist is not all-or-nothing: when the recomputation succeeds
    and the listing's SELECT fails, the request is answered 500 although the
    recomputed flags have been committed. *)
Theorem get_watchlist_error_after_commit :
  forall (f : faults) (d : database) (msg : string),
    f 0%nat = None -> f 1%nat = None -> f 2%nat = None -> f 3%nat = Some msg ->
    serve Watchlist.get_watchlist f d
    = (HTTPError 500 ("Ошибка получения списка: " ++ msg),
       Watchlist.raise_flags (Watchlist.clear_flags d)).
Proof.
  intros f d msg H0 H1 H2 H3.
  rewrite serve_unfold.
  unfold Watchlist.get_watchlist, Watchlist.update_watchlist_favorites,
    with_connection, try_except, bind, query, execute, commit, rollback, ret.
  simpl. rewrite H0. simpl. rewrite H1. simpl. rewrite H2. simpl. rewrite H3.
  reflexivity.
Qed.

Lemma get_watchlist_error_after_commit_witness :
  snd (serve Watchlist.get_watchlist (fails_at 3 "disk I/O error") stale_watchlist)
  <> stale_watchlist
  /\ exists detail,
       fst (serve Watchlist.get_watchlist (fails_at 3 "disk I/O error")
              stale_watchlist)
       = HTTPError 500 detail.
Proof.
  rewrite (get_watchlist_error_after_commit (fails_at 3 "disk I/O error")
             stale_watchlist "disk I/O error");
    try reflexivity.
  split.
  - vm_compute. discriminate.
  - eexists. reflexivity.
Defined.

Lemma recomputation_idempotent (d : database) :
  Watchlist.raise_flags
    (Watchlist.clear_flags (Watchlist.raise_flags (Watchlist.clear_flags d)))
  = Watchlist.raise_flags (Watchlist.clear_flags d).
Proof.
  set (d1 := Watchlist.raise_flags (Watchlist.clear_flags d)).
  assert (Hw : watchlist (Watchlist.raise_flags (Watchlist.clear_flags d1))
               = watchlist d1).
  { rewrite recomputed_flags. unfold d1 at 2 3. rewrite recomputed_flags.
    rewrite map_map. apply map_ext. intro r. reflexivity. }
  unfold Watchlist.raise_flags at 1, Watchlist.clear_flags at 1.
  unfold Watchlist.raise_flags at 1 in Hw. unfold Watchlist.clear_flags at 1 in Hw.
  unfold set_watchlist in *. cbn in Hw |- *. rewrite Hw.
  reflexivity.
Qed.

(** X8. Reading the watchlist twice in a row gives the same answer and leaves
    the same database as reading it once. *)
Theorem get_watchlist_twice :
  forall d : database,
    serve Watchlist.get_watchlist no_faults
      (snd (serve Watchlist.get_watchlist no_faults d))
    = serve Watchlist.get_watchlist no_faults d.
Proof.
  intro d. rewrite !get_watchlist_no_faults. cbn [snd].
  now rewrite recomputation_idempotent.
Qed.

(** ** The effect of a request *)

Lemma reorder_loop_effect (now : clock) (l : list string) :
  forall (index : Z) (f : faults) (c : conn) (u : unit),
    fst (Favorites.reorder_loop now index l f c) = Return u ->
    work (snd (Favorites.reorder_loop now index l f c))
    = set_favorites (work c)
        (map (reorder_row now index l) (favorites (work c)))
        (favorites_seq (work c)).
Proof.
  induction l as [|s l IH]; intros index f c u.
  - simpl. intros _. destruct (work c); unfold set_favorites; simpl.
    now rewrite map_id.
  - cbn [Favorites.reorder_loop]. unfold bind, execute.
    destruct (f (tick c)); [discriminate|]. cbn [fst snd].
    intro H. rewrite (IH _ _ _ u H). unfold next_tick. cbn [work].
    unfold set_favorites, Favorites.update_sort_order. cbn.
    f_equal. rewrite map_map. reflexivity.
Qed.

Lemma add_favorite_effect now favorite f d :
  effect d (snd (serve (Favorites.add_favorite now favorite) f d)).
Proof.
  unfold Favorites.add_favorite. run_io.
  destruct (f 0%nat); [constructor|].
  destruct (is_some _); [constructor|].
  cbn [disk work tick next_tick]. destruct (f 1%nat); [constructor|].
  cbn [disk work tick next_tick]. destruct (f 2%nat); [constructor|].
  destruct (Favorites.insert _ _ _ _ _ _ d) as [[rowid w]|e] eqn:Hins;
    [|destruct e; constructor].
  cbn [disk work tick next_tick]. destruct (f 3%nat); [constructor|].
  cbn. eapply effect_favorite_insert; [exact Hins|reflexivity].
Qed.

Lemma update_favorite_effect now symbol favorite f d :
  effect d (snd (serve (Favorites.update_favorite now symbol favorite) f d)).
Proof.
  unfold Favorites.update_favorite. run_io.
  destruct (f 0%nat); [constructor|].
  destruct (is_some _); [|constructor].
  destruct (_ || _)%bool; [|constructor].
  cbn [disk work tick next_tick]. destruct (f 1%nat); [constructor|].
  cbn [disk work tick next_tick]. destruct (f 2%nat); constructor.
Qed.

Lemma remove_favorite_effect symbol f d :
  effect d (snd (serve (Favorites.remove_favorite symbol) f d)).
Proof.
  unfold Favorites.remove_favorite. run_io.
  destruct (f 0%nat); [constructor|].
  destruct (is_some _); [|constructor].
  cbn [disk work tick next_tick]. destruct (f 1%nat); [constructor|].
  cbn [disk work tick next_tick]. destruct (f 2%nat); constructor.
Qed.

Lemma reorder_favorites_effect now reorder f d :
  effect d (snd (serve (Favorites.reorder_favorites now reorder) f d)).
Proof.
  rewrite serve_unfold.
  unfold Favorites.reorder_favorites, with_connection, try_except.
  cbn [disk work tick]. unfold bind at 1.
  pose proof (reorder_loop_effect now (FavoriteReorder.symbol_order reorder) 0 f
                {| disk := d; work := d; tick := 0 |}) as Hwork.
  pose proof (quiet_reorder_loop now (FavoriteReorder.symbol_order reorder) 0 f
                {| disk := d; work := d; tick := 0 |}) as Hdisk.
  destruct (Favorites.reorder_loop now 0 _ f _) as [[[]|e] c1]; cbn [fst snd] in *.
  - specialize (Hwork tt eq_refl). unfold bind, commit, ret.
    destruct (f (tick c1)); cbn; [rewrite Hdisk; constructor|].
    rewrite Hwork. constructor.
  - cbn. rewrite Hdisk. constructor.
Qed.

Lemma add_to_watchlist_effect now item f d :
  effect d (snd (serve (Watchlist.add_to_watchlist now item) f d)).
Proof.
  unfold Watchlist.add_to_watchlist. run_io.
  destruct (f 0%nat); [constructor|].
  destruct (is_some _); [constructor|].
  cbn [disk work tick next_tick]. destruct (f 1%nat); [constructor|].
  destruct (Watchlist.insert _ _ _ d) as [[rowid w]|e] eqn:Hins;
    [|destruct e; constructor].
  cbn [disk work tick next_tick]. destruct (f 2%nat); [constructor|].
  cbn. eapply effect_watch_insert; exact Hins.
Qed.

Lemma update_watchlist_item_effect now item_id item f d :
  effect d (snd (serve (Watchlist.update_watchlist_item now item_id item) f d)).
Proof.
  unfold Watchlist.update_watchlist_item. run_io.
  destruct (Sql.int64 _); [|constructor].
  cbn [disk work tick next_tick]. destruct (f 0%nat); [constructor|].
  destruct (is_some _); [|constructor].
  cbn [disk work tick next_tick]. destruct (f 1%nat); [constructor|].
  destruct (Watchlist.update_item _ _ _ _ d) as [[[] w]|e] eqn:Hupd;
    [|destruct e; constructor].
  cbn [disk work tick next_tick]. destruct (f 2%nat); [constructor|].
  cbn. eapply effect_watch_update; exact Hupd.
Qed.

Lemma remove_from_watchlist_effect item_id f d :
  effect d (snd (serve (Watchlist.remove_from_watchlist item_id) f d)).
Proof.
  unfold Watchlist.remove_from_watchlist. run_io.
  destruct (Sql.int64 _); [|constructor].
  cbn [disk work tick next_tick]. destruct (f 0%nat); [constructor|].
  destruct (fetchone _); [|constructor].
  cbn [disk work tick next_tick]. destruct (f 1%nat); [constructor|].
  cbn [disk work tick next_tick]. destruct (f 2%nat); constructor.
Qed.

Lemma create_paper_trade_effect now trade f d :
  effect d (snd (serve (PaperTrades.create_paper_trade now trade) f d)).
Proof.
  destruct (validation_detail trade) as [msg|] eqn:Hv.
  - rewrite (create_rejected now trade f d msg Hv). constructor.
  - rewrite (create_accepted now trade f d Hv).
    destruct (match PaperTradeCreate.alert_id trade with
              | Some n => Sql.int64 n
              | None => true
              end); [|constructor].
    destruct (f 0%nat); [constructor|].
    destruct (PaperTrades.null_column trade) eqn:Hnull; [constructor|].
    destruct (PaperTrades.in_list _ _) eqn:Hst; cbn [negb]; [|constructor].
    destruct (f 1%nat); [constructor|].
    cbn. now apply effect_trade_insert.
Qed.

Lemma update_paper_trade_effect now trade_id u f d :
  effect d (snd (serve (PaperTrades.update_paper_trade now trade_id u) f d)).
Proof.
  unfold PaperTrades.update_paper_trade. run_io.
  destruct (Sql.int64 _); [|constructor].
  cbn [disk work tick next_tick]. destruct (f 0%nat); [constructor|].
  destruct (is_some _); [|constructor].
  assert (Hvalid :
    (forall s, PaperTradeUpdate.status u = Some s ->
               PaperTrades.in_list s ["planned"; "active"; "closed"] = true)
    \/ exists s, PaperTradeUpdate.status u = Some s
                 /\ PaperTrades.in_list s ["planned"; "active"; "closed"] = false).
  { destruct (PaperTradeUpdate.status u) as [s|]; [|left; discriminate].
    destruct (PaperTrades.in_list s ["planned"; "active"; "closed"]) eqn:E;
      [left|right; eauto].
    intros s' H. injection H as <-. exact E. }
  destruct Hvalid as [Hvalid|[s [Hs Hbad]]].
  - assert (Hpass :
      match PaperTradeUpdate.status u with
      | Some s =>
          if negb (PaperTrades.in_list s ["planned"; "active"; "closed"])
          then @raise unit (HTTPException 400 "Неверный статус сделки")
          else ret tt
      | None => ret tt
      end = ret tt).
    { destruct (PaperTradeUpdate.status u) as [s|]; [|reflexivity].
      now rewrite (Hvalid s eq_refl). }
    unfold raise, ret in Hpass. rewrite Hpass.
    destruct (PaperTrades.has_fields u); [|constructor].
    cbn [disk work tick next_tick]. destruct (f 1%nat); [constructor|].
    destruct (PaperTrades.update_fields _ _ _ d) as [[[] w]|e] eqn:Hupd;
      [|destruct e; constructor].
    cbn [disk work tick next_tick]. destruct (f 2%nat); [constructor|].
    cbn. eapply effect_trade_update; [exact Hvalid|exact Hupd].
  - rewrite Hs, Hbad. constructor.
Qed.

Lemma delete_paper_trade_effect trade_id f d :
  effect d (snd (serve (PaperTrades.delete_paper_trade trade_id) f d)).
Proof.
  unfold PaperTrades.delete_paper_trade. run_io.
  destruct (Sql.int64 _); [|constructor].
  cbn [disk work tick next_tick]. destruct (f 0%nat); [constructor|].
  destruct (is_some _); [|constructor].
  cbn [disk work tick next_tick]. destruct (f 1%nat); [constructor|].
  cbn [disk work tick next_tick]. destruct (f 2%nat); constructor.
Qed.

Lemma handle_effect (r : request) (f : faults) (d : database) :
  effect d (handle r f d).
Proof.
  destruct r; cbn [handle].
  - rewrite get_favorites_read_only. constructor.
  - apply add_favorite_effect.
  - apply update_favorite_effect.
  - apply remove_favorite_effect.
  - apply reorder_favorites_effect.
  - destruct (get_watchlist_effect f d) as [-> | ->]; constructor.
  - apply add_to_watchlist_effect.
  - apply update_watchlist_item_effect.
  - apply remove_from_watchlist_effect.
  - rewrite get_paper_trades_read_only. constructor.
  - apply create_paper_trade_effect.
  - apply update_paper_trade_effect.
  - apply delete_paper_trade_effect.
  - rewrite get_paper_trading_stats_read_only. constructor.
Qed.

Lemma reachable_invariant (P : database -> Prop) :
  P empty_database ->
  (forall d d', effect d d' -> P d -> P d') ->
  forall d, reachable d -> P d.
Proof.
  intros Hempty Hstep d Hd. induction Hd as [|r f d Hd IH].
  - exact Hempty.
  - apply (Hstep d); [apply handle_effect|exact IH].
Qed.

(** ** Invariants of the reachable databases *)

Section Keys.
Context {R K : Type} (key : R -> K).

Lemma NoDup_map_filter (p : R -> bool) (l : list R) :
  NoDup (map key l) -> NoDup (map key (filter p l)).
Proof.
  induction l as [|r l IH]; simpl; intro H; [constructor|].
  inversion H as [|? ? Hnin Hnd]; subst.
  destruct (p r); simpl; [|now apply IH].
  constructor; [|now apply IH].
  intro Hin. apply Hnin. apply in_map_iff in Hin as [r' [Heq Hin]].
  apply filter_In in Hin as [Hin _]. apply in_map_iff. now exists r'.
Qed.

Lemma NoDup_map_app_fresh (l : list R) (r : R) :
  NoDup (map key l) -> ~ In (key r) (map key l) ->
  NoDup (map key (l ++ [r])).
Proof.
  intros Hnd Hnin. rewrite map_app. simpl.
  apply NoDup_app; [exact Hnd|repeat constructor; intros []|].
  intros k Hin [<-|[]]. contradiction.
Qed.

Lemma map_key_preserved (g : R -> R) (l : list R) :
  (forall r, key (g r) = key r) -> map key (map g l) = map key l.
Proof.
  intro Hg. rewrite map_map. apply map_ext. exact Hg.
Qed.
End Keys.

Lemma not_existsb_not_In {R} (sym : R -> string) (s : string) (l : list R) :
  existsb (fun r => String.eqb (sym r) s) l = false -> ~ In s (map sym l).
Proof.
  intros H Hin. apply in_map_iff in Hin as [r [Heq Hin]].
  assert (Ht : existsb (fun r => String.eqb (sym r) s) l = true).
  { apply existsb_exists. exists r. split; [exact Hin|].
    rewrite Heq. apply String.eqb_refl. }
  congruence.
Qed.

Lemma favorite_insert_inv now sym notes color so added d rowid d' :
  Favorites.insert now sym notes color so added d = Return (rowid, d') ->
  exists r,
    d' = set_favorites d (favorites d ++ [r])%list (favorites_seq d + 1)
    /\ rowid = favorites_seq d + 1
    /\ Favorite.id r = favorites_seq d + 1
    /\ Favorite.symbol r = sym
    /\ Favorite.sort_order r = so
    /\ Favorite.notes r = notes
    /\ Favorite.color r = color
    /\ Favorite.is_active r = true
    /\ ~ In sym (map Favorite.symbol (favorites d)).
Proof.
  unfold Favorites.insert.
  destruct (existsb _ (favorites d)) eqn:Hex; [intro H; discriminate H|].
  intro H. injection H as <- <-. eexists. split; [reflexivity|].
  repeat split. now apply not_existsb_not_In.
Qed.

Lemma watch_insert_inv sym created updated d rowid d' :
  Watchlist.insert sym created updated d = Return (rowid, d') ->
  exists r,
    d' = set_watchlist d (watchlist d ++ [r])%list (watchlist_seq d + 1)
    /\ rowid = watchlist_seq d + 1
    /\ Watch.id r = watchlist_seq d + 1
    /\ Watch.symbol r = sym
    /\ Watch.is_active r = true
    /\ Watch.is_favorite r = false
    /\ ~ In sym (map Watch.symbol (watchlist d)).
Proof.
  unfold Watchlist.insert.
  destruct (existsb _ (watchlist d)) eqn:Hex; [intro H; discriminate H|].
  intro H. injection H as <- <-. eexists. split; [reflexivity|].
  repeat split. now apply not_existsb_not_In.
Qed.

Lemma fresh_id_not_used {R} (id : R -> Z) (l : list R) (seq : Z) :
  (forall r, In r l -> 0 < id r <= seq) -> ~ In (seq + 1) (map id l).
Proof.
  intros Hb Hin. apply in_map_iff in Hin as [r [Heq Hin]].
  specialize (Hb r Hin). lia.
Qed.

Lemma bounds_after_insert {R} (id : R -> Z) (l : list R) (seq : Z) (r0 : R) :
  0 <= seq ->
  (forall r, In r l -> 0 < id r <= seq) ->
  id r0 = seq + 1 ->
  forall r, In r (l ++ [r0]) -> 0 < id r <= seq + 1.
Proof.
  intros Hseq Hb Hid r Hin. apply in_app_iff in Hin as [Hin|[<-|[]]].
  - specialize (Hb r Hin). lia.
  - lia.
Qed.

Lemma bounds_after_map {R} (id : R -> Z) (g : R -> R) (l : list R) (seq : Z) :
  (forall r, id (g r) = id r) ->
  (forall r, In r l -> 0 < id r <= seq) ->
  forall r, In r (map g l) -> 0 < id r <= seq.
Proof.
  intros Hg Hb r Hin. apply in_map_iff in Hin as [r0 [<- Hin]].
  rewrite Hg. now apply Hb.
Qed.

Lemma bounds_after_filter {R} (id : R -> Z) (p : R -> bool) (l : list R) (seq : Z) :
  (forall r, In r l -> 0 < id r <= seq) ->
  forall r, In r (filter p l) -> 0 < id r <= seq.
Proof.
  intros Hb r Hin. apply filter_In in Hin as [Hin _]. now apply Hb.
Qed.

Lemma rename_absent (sym : string) (active : bool) (updated_at : string)
    (item_id : Z) (l : list Watch.row) :
  ~ In item_id (map Watch.id l) ->
  map (fun r => if (Watch.id r =? item_id)%Z
                then Watchlist.set_item sym active updated_at r else r) l = l.
Proof.
  induction l as [|r l IH]; simpl; intro H; [reflexivity|].
  destruct (Z.eqb_spec (Watch.id r) item_id) as [E|E].
  - exfalso. apply H. now left.
  - rewrite IH; [reflexivity|]. intro Hin. apply H. now right.
Qed.

Lemma rename_keeps_symbols_unique (sym : string) (active : bool)
    (updated_at : string) (item_id : Z) (l : list Watch.row) :
  NoDup (map Watch.id l) ->
  NoDup (map Watch.symbol l) ->
  existsb (fun r => negb (Watch.id r =? item_id)%Z
                    && String.eqb (Watch.symbol r) sym) l = false ->
  NoDup (map Watch.symbol
           (map (fun r => if (Watch.id r =? item_id)%Z
                          then Watchlist.set_item sym active updated_at r else r) l)).
Proof.
  induction l as [|r l IH]; simpl; intros Hid Hsym Hguard; [constructor|].
  inversion Hid as [|? ? Hid1 Hid2]; subst.
  inversion Hsym as [|? ? Hsym1 Hsym2]; subst.
  apply orb_false_iff in Hguard as [Hr Hguard].
  destruct (Z.eqb_spec (Watch.id r) item_id) as [E|E].
  - rewrite rename_absent by (rewrite <- E; exact Hid1).
    simpl. constructor; [|exact Hsym2].
    intro Hin. apply in_map_iff in Hin as [r' [Heq Hin]].
    assert (Ht : existsb (fun r => negb (Watch.id r =? item_id)%Z
                                   && String.eqb (Watch.symbol r) sym) l = true).
    { apply existsb_exists. exists r'. split; [exact Hin|].
      rewrite Heq, String.eqb_refl, andb_true_r.
      apply negb_true_iff. apply Z.eqb_neq. intro E'.
      apply Hid1. apply in_map_iff. exists r'. split; [congruence|exact Hin]. }
    congruence.
  - constructor; [|now apply IH].
    simpl in Hr. apply String.eqb_neq in Hr.
    intro Hin. apply in_map_iff in Hin as [r' [Heq Hin]].
    apply in_map_iff in Hin as [r0 [Hr0 Hin]].
    destruct (Watch.id r0 =? item_id)%Z; subst r'.
    + simpl in Heq. congruence.
    + apply Hsym1. apply in_map_iff. now exists r0.
Qed.

Lemma watch_update_inv sym active updated_at item_id d d' :
  Watchlist.update_item sym active updated_at item_id d = Return (tt, d') ->
  d' = set_watchlist d
         (map (fun r => if (Watch.id r =? item_id)%Z
                        then Watchlist.set_item sym active updated_at r else r)
              (watchlist d))
         (watchlist_seq d)
  /\ (In item_id (map Watch.id (watchlist d)) ->
      existsb (fun r => negb (Watch.id r =? item_id)%Z
                        && String.eqb (Watch.symbol r) sym) (watchlist d) = false).
Proof.
  unfold Watchlist.update_item.
  destruct (existsb (fun r => (Watch.id r =? item_id)%Z) (watchlist d)) eqn:Hid;
    cbn [andb].
  - match goal with
    | |- context [if ?b then Raise _ else _] => destruct b eqn:Hother
    end; [intro H; discriminate H|].
    intro H. injection H as <-. split; [reflexivity|]. intros _. reflexivity.
  - intro H. injection H as <-. split; [reflexivity|].
    intro Hin. exfalso. apply in_map_iff in Hin as [r [Heq Hin]].
    assert (Ht : existsb (fun r => (Watch.id r =? item_id)%Z) (watchlist d) = true).
    { apply existsb_exists. exists r. split; [exact Hin|]. now apply Z.eqb_eq. }
    congruence.
Qed.

Lemma trade_update_inv u updated_at trade_id d d' :
  PaperTrades.update_fields u updated_at trade_id d = Return (tt, d') ->
  d' = set_paper_trades d
         (map (fun r => if (Trade.id r =? trade_id)%Z
                        then PaperTrades.set_fields u updated_at r else r)
              (paper_trades d))
         (paper_trades_seq d).
Proof.
  unfold PaperTrades.update_fields.
  destruct (_ && _)%bool; [intro H; discriminate H|].
  intro H. now injection H as <-.
Qed.

Lemma effect_keeps_keys (d d' : database) :
  effect d d' -> keys_in_order d -> keys_in_order d'.
Proof.
  intros Heff ((Hfs & Hfid & Hfb & Hfsym) & (Hws & Hwid & Hwb & Hwsym)
               & (Hts & Htid & Htb)).
  destruct Heff.
  - now auto 10.
  - apply favorite_insert_inv in H as (r & -> & _ & Hid & Hsym & _ & _ & _ & _ & Hfresh).
    split; [|split; [now auto 10|now auto 10]].
    cbn. split; [lia|]. split; [|split].
    + apply NoDup_map_app_fresh; [exact Hfid|].
      rewrite Hid. now apply fresh_id_not_used.
    + now apply bounds_after_insert.
    + apply NoDup_map_app_fresh; [exact Hfsym|]. now rewrite Hsym.
  - split; [|split; [now auto 10|now auto 10]].
    cbn. split; [exact Hfs|]. split; [|split].
    + rewrite map_key_preserved; [exact Hfid|]. intro r. now destruct (String.eqb _ _).
    + apply bounds_after_map; [|exact Hfb]. intro r. now destruct (String.eqb _ _).
    + rewrite map_key_preserved; [exact Hfsym|]. intro r. now destruct (String.eqb _ _).
  - split; [|split; [now auto 10|now auto 10]].
    cbn. split; [exact Hfs|]. split; [|split].
    + now apply NoDup_map_filter.
    + now apply bounds_after_filter.
    + now apply NoDup_map_filter.
  - split; [|split; [now auto 10|now auto 10]].
    cbn. split; [exact Hfs|]. split; [|split].
    + rewrite map_key_preserved; [exact Hfid|]. apply reorder_row_id.
    + apply bounds_after_map; [|exact Hfb]. apply reorder_row_id.
    + rewrite map_key_preserved; [exact Hfsym|]. apply reorder_row_symbol.
  - split; [now auto 10|]. split; [|now auto 10].
    rewrite recomputed_flags. cbn. split; [exact Hws|]. split; [|split].
    + rewrite map_key_preserved; [exact Hwid|]. reflexivity.
    + apply bounds_after_map; [|exact Hwb]. reflexivity.
    + rewrite map_key_preserved; [exact Hwsym|]. reflexivity.
  - apply watch_insert_inv in H as (r & -> & _ & Hid & Hsym & _ & _ & Hfresh).
    split; [now auto 10|]. split; [|now auto 10].
    cbn. split; [lia|]. split; [|split].
    + apply NoDup_map_app_fresh; [exact Hwid|].
      rewrite Hid. now apply fresh_id_not_used.
    + now apply bounds_after_insert.
    + apply NoDup_map_app_fresh; [exact Hwsym|]. now rewrite Hsym.
  - apply watch_update_inv in H as [-> Hguard].
    split; [now auto 10|]. split; [|now auto 10].
    cbn. split; [exact Hws|]. split; [|split].
    + rewrite map_key_preserved; [exact Hwid|]. intro r. now destruct (Z.eqb _ _).
    + apply bounds_after_map; [|exact Hwb]. intro r. now destruct (Z.eqb _ _).
    + destruct (in_dec Z.eq_dec item_id (map Watch.id (watchlist d))) as [Hin|Hnin].
      * apply rename_keeps_symbols_unique; auto.
      * now rewrite rename_absent.
  - split; [now auto 10|]. split; [|now auto 10].
    cbn. split; [exact Hws|]. split; [|split].
    + now apply NoDup_map_filter.
    + now apply bounds_after_filter.
    + now apply NoDup_map_filter.
  - split; [now auto 10|]. split; [now auto 10|].
    cbn. split; [lia|]. split.
    + apply NoDup_map_app_fresh; [exact Htid|]. now apply fresh_id_not_used.
    + now apply bounds_after_insert.
  - apply trade_update_inv in H0 as ->.
    split; [now auto 10|]. split; [now auto 10|].
    cbn. split; [exact Hts|]. split.
    + rewrite map_key_preserved; [exact Htid|]. intro r. now destruct (Z.eqb _ _).
    + apply bounds_after_map; [|exact Htb]. intro r. now destruct (Z.eqb _ _).
  - split; [now auto 10|]. split; [now auto 10|].
    cbn. split; [exact Hts|]. split.
    + now apply NoDup_map_filter.
    + now apply bounds_after_filter.
Qed.

Lemma empty_keys_in_order : keys_in_order empty_database.
Proof.
  unfold keys_in_order. simpl.
  repeat match goal with |- _ /\ _ => split end;
    first [lia | constructor | intros r []].
Qed.

(** X9. In every database that requests can produce from the empty tables,
    whatever failed on the way, no two rows of a table share an id, every id
    is positive and at most the table's counter, and no two favorites and no
    two watchlist entries share a symbol. *)
Theorem reachable_keys_in_order :
  forall d : database, reachable d -> keys_in_order d.
Proof.
  apply reachable_invariant.
  - exact empty_keys_in_order.
  - exact effect_keeps_keys.
Qed.

Lemma reachable_keys_in_order_witness : keys_in_order after_three_requests.
Proof.
  apply reachable_keys_in_order.
  unfold after_three_requests. repeat apply reachable_step. apply reachable_empty.
Defined.

Lemma upper_after_insert {R} (sym : R -> string) (l : list R) (r0 : R) :
  (forall r, In r l -> upper (sym r) = sym r) ->
  upper (sym r0) = sym r0 ->
  forall r, In r (l ++ [r0]) -> upper (sym r) = sym r.
Proof.
  intros Hl H0 r Hin. apply in_app_iff in Hin as [Hin|[<-|[]]]; auto.
Qed.

Lemma upper_after_map {R} (sym : R -> string) (g : R -> R) (l : list R) :
  (forall r, upper (sym r) = sym r -> upper (sym (g r)) = sym (g r)) ->
  (forall r, In r l -> upper (sym r) = sym r) ->
  forall r, In r (map g l) -> upper (sym r) = sym r.
Proof.
  intros Hg Hl r Hin. apply in_map_iff in Hin as [r0 [<- Hin]]. auto.
Qed.

Lemma upper_after_filter {R} (sym : R -> string) (p : R -> bool) (l : list R) :
  (forall r, In r l -> upper (sym r) = sym r) ->
  forall r, In r (filter p l) -> upper (sym r) = sym r.
Proof.
  intros Hl r Hin. apply filter_In in Hin as [Hin _]. auto.
Qed.

Lemma effect_keeps_upper (d d' : database) :
  effect d d' -> symbols_upper d -> symbols_upper d'.
Proof.
  intros Heff (Hf & Hw & Ht).
  destruct Heff.
  - now auto.
  - apply favorite_insert_inv in H as (r & -> & _ & _ & Hsym & _).
    split; [|now auto]. cbn. apply upper_after_insert; [exact Hf|].
    rewrite Hsym. apply upper_idempotent.
  - split; [|now auto]. cbn. apply upper_after_map; [|exact Hf].
    intros r Hr. now destruct (String.eqb _ _).
  - split; [|now auto]. cbn. now apply upper_after_filter.
  - split; [|now auto]. cbn. apply upper_after_map; [|exact Hf].
    intros r Hr. now rewrite reorder_row_symbol.
  - split; [exact Hf|]. split; [|exact Ht].
    rewrite recomputed_flags. apply upper_after_map; [|exact Hw]. auto.
  - apply watch_insert_inv in H as (r & -> & _ & _ & Hsym & _).
    split; [exact Hf|]. split; [|exact Ht]. cbn.
    apply upper_after_insert; [exact Hw|].
    rewrite Hsym. apply upper_idempotent.
  - apply watch_update_inv in H as [-> _].
    split; [exact Hf|]. split; [|exact Ht]. cbn.
    apply upper_after_map; [|exact Hw].
    intros r Hr. destruct (Z.eqb _ _); [apply upper_idempotent|exact Hr].
  - split; [exact Hf|]. split; [|exact Ht]. cbn. now apply upper_after_filter.
  - split; [exact Hf|]. split; [exact Hw|]. cbn.
    apply upper_after_insert; [exact Ht|]. apply upper_idempotent.
  - apply trade_update_inv in H0 as ->.
    split; [exact Hf|]. split; [exact Hw|]. cbn.
    apply upper_after_map; [|exact Ht].
    intros r Hr. now destruct (Z.eqb _ _).
  - split; [exact Hf|]. split; [exact Hw|]. cbn. now apply upper_after_filter.
Qed.

(** X10. In every database that requests can produce from the empty tables,
    every stored symbol (favorites, watchlist, paper trades) is in upper
    case, however the clients spelled it. *)
Theorem reachable_symbols_upper :
  forall d : database, reachable d -> symbols_upper d.
Proof.
  apply reachable_invariant.
  - repeat split; intros r [].
  - exact effect_keeps_upper.
Qed.

Lemma reachable_symbols_upper_witness :
  symbols_upper after_three_requests
  /\ map Favorite.symbol (favorites after_three_requests) = ["BTCUSDT"]
  /\ map Watch.symbol (watchlist after_three_requests) = ["ETHUSDT"]
  /\ map Trade.symbol (paper_trades after_three_requests) = ["BTCUSDT"].
Proof.
  split.
  - apply reachable_symbols_upper.
    unfold after_three_requests. repeat apply reachable_step. apply reachable_empty.
  - vm_compute. repeat split.
Defined.

Lemma stored_prices_not_nan (t : PaperTradeCreate.t) :
  PaperTrades.null_column t = None ->
  PaperTradeCreate.entry_price t <> S754_nan
  /\ PaperTradeCreate.stop_loss t <> S754_nan
  /\ PaperTradeCreate.take_profit t <> S754_nan
  /\ PaperTradeCreate.quantity t <> S754_nan.
Proof.
  unfold PaperTrades.null_column, PaperTrades.real_columns. cbn [find snd].
  destruct (PaperTradeCreate.entry_price t); try discriminate;
    destruct (PaperTradeCreate.stop_loss t); try discriminate;
    destruct (PaperTradeCreate.take_profit t); try discriminate;
    destruct (PaperTradeCreate.quantity t); try discriminate;
    intros _; repeat split; discriminate.
Qed.

Lemma float_lt_of_not_le (x y : float) :
  x <> S754_nan -> y <> S754_nan -> ~ float_le x y -> float_lt y x.
Proof.
  intros Hx Hy Hle. apply ltb_of_not_leb; try assumption.
  unfold float_le in Hle. now destruct (Float.leb x y).
Qed.

Lemma accepted_trade_well_formed (now : clock) (t : PaperTradeCreate.t) (rowid : Z) :
  validation_detail t = None ->
  PaperTrades.null_column t = None ->
  PaperTrades.in_list (PaperTradeCreate.status t) ["planned"; "active"; "closed"]
    = true ->
  well_formed_trade (stored_trade now t rowid).
Proof.
  intros Hv Hnull Hst.
  assert (Hok : ~ rejected_by_validation t).
  { rewrite validation_detail_spec. intros [msg H]. congruence. }
  destruct (stored_prices_not_nan t Hnull) as (He & Hs & Ht & Hq).
  assert (H0 : Float.of_Z 0 <> S754_nan) by (vm_compute; discriminate).
  unfold rejected_by_validation in Hok.
  unfold well_formed_trade. cbn.
  split; [now apply in_status_list|].
  split; [apply float_lt_of_not_le; tauto|].
  split; [apply float_lt_of_not_le; tauto|].
  destruct (String.eqb_spec (PaperTradeCreate.direction t) "LONG") as [HL|HL].
  - left. split; [exact HL|]. split; apply float_lt_of_not_le; tauto.
  - destruct (String.eqb_spec (PaperTradeCreate.direction t) "SHORT") as [HS|HS].
    + right. split; [exact HS|]. split; apply float_lt_of_not_le; tauto.
    + exfalso. tauto.
Qed.

Lemma updated_trade_well_formed (u : PaperTradeUpdate.t) (updated_at : string)
    (r : Trade.row) :
  (forall s, PaperTradeUpdate.status u = Some s ->
             PaperTrades.in_list s ["planned"; "active"; "closed"] = true) ->
  well_formed_trade r ->
  well_formed_trade (PaperTrades.set_fields u updated_at r).
Proof.
  intros Hu (Hst & Hrest). split; [|exact Hrest]. cbn.
  destruct (PaperTradeUpdate.status u) as [s|]; [|exact Hst].
  apply in_status_list. now apply Hu.
Qed.

Lemma effect_keeps_trades (d d' : database) :
  effect d d' ->
  (forall r, In r (paper_trades d) -> well_formed_trade r) ->
  forall r, In r (paper_trades d') -> well_formed_trade r.
Proof.
  intros Heff Ht.
  destruct Heff; try exact Ht.
  - apply favorite_insert_inv in H as (r & -> & _). exact Ht.
  - apply watch_insert_inv in H as (r & -> & _). exact Ht.
  - apply watch_update_inv in H as [-> _]. exact Ht.
  - cbn. intros r Hin. apply in_app_iff in Hin as [Hin|[<-|[]]]; [now apply Ht|].
    now apply accepted_trade_well_formed.
  - apply trade_update_inv in H0 as ->. cbn.
    intros r Hin. apply in_map_iff in Hin as [r0 [<- Hin]].
    destruct (Z.eqb _ _); [|now apply Ht].
    apply updated_trade_well_formed; [exact H|now apply Ht].
  - cbn. intros r Hin. apply filter_In in Hin as [Hin _]. now apply Ht.
Qed.

(** X11. Every paper trade in a database that requests can produce from the
    empty table is well formed, at any later time: its status is planned,
    active or closed, its entry price and quantity are positive, and
    stop_loss < entry_price < take_profit for LONG, take_profit <
    entry_price < stop_loss for SHORT.  The price checks are made at
    creation only; they keep holding because no endpoint rewrites a price. *)
Theorem reachable_trades_well_formed :
  forall d : database,
    reachable d -> forall r, In r (paper_trades d) -> well_formed_trade r.
Proof.
  apply (reachable_invariant
           (fun d => forall r, In r (paper_trades d) -> well_formed_trade r)).
  - intros r [].
  - exact effect_keeps_trades.
Qed.

Lemma reachable_trades_well_formed_witness :
  Forall well_formed_trade (paper_trades after_three_requests).
Proof.
  apply Forall_forall.
  apply reachable_trades_well_formed.
  unfold after_three_requests. repeat apply reachable_step. apply reachable_empty.
Defined.

Lemma effect_counters (d d' : database) : effect d d' -> counters_le d d'.
Proof.
  intro Heff. unfold counters_le. destruct Heff; cbn; try lia.
  - apply favorite_insert_inv in H as (r & -> & _). cbn. lia.
  - apply watch_insert_inv in H as (r & -> & _). cbn. lia.
  - apply watch_update_inv in H as [-> _]. cbn. lia.
  - apply trade_update_inv in H0 as ->. cbn. lia.
Qed.

Lemma effect_fresh_ids (d d' : database) :
  effect d d' ->
  (forall i, In i (map Favorite.id (favorites d')) ->
             In i (map Favorite.id (favorites d)) \/ favorites_seq d < i)
  /\ (forall i, In i (map Watch.id (watchlist d')) ->
                In i (map Watch.id (watchlist d)) \/ watchlist_seq d < i)
  /\ (forall i, In i (map Trade.id (paper_trades d')) ->
                In i (map Trade.id (paper_trades d)) \/ paper_trades_seq d < i).
Proof.
  assert (Hfilter : forall {R} (id : R -> Z) p l i,
            In i (map id (filter p l)) -> In i (map id l)).
  { intros R id p l i Hin. apply in_map_iff in Hin as [r [Heq Hin]].
    apply filter_In in Hin as [Hin _]. apply in_map_iff. now exists r. }
  assert (Happ : forall {R} (id : R -> Z) l (r0 : R) seq i,
            id r0 = seq + 1 ->
            In i (map id (l ++ [r0])) -> In i (map id l) \/ seq < i).
  { intros R id l r0 seq i Hid Hin. rewrite map_app in Hin.
    apply in_app_iff in Hin as [Hin|[<-|[]]]; [now left|right; lia]. }
  intro Heff. destruct Heff; try (now auto).
  - apply favorite_insert_inv in H as (r & -> & _ & Hid & _).
    split; [|now auto]. cbn. intro i. now apply Happ.
  - split; [|now auto]. cbn. intros i Hin. left.
    rewrite map_key_preserved in Hin; [exact Hin|].
    intro r. now destruct (String.eqb _ _).
  - split; [|now auto]. cbn. intros i Hin. left. now apply Hfilter in Hin.
  - split; [|now auto]. cbn. intros i Hin. left.
    rewrite map_key_preserved in Hin; [exact Hin|]. apply reorder_row_id.
  - split; [now auto|]. split; [|now auto].
    rewrite recomputed_flags. intros i Hin. left.
    rewrite map_key_preserved in Hin; [exact Hin|]. reflexivity.
  - apply watch_insert_inv in H as (r & -> & _ & Hid & _).
    split; [now auto|]. split; [|now auto]. cbn. intro i. now apply Happ.
  - apply watch_update_inv in H as [-> _].
    split; [now auto|]. split; [|now auto]. cbn. intros i Hin. left.
    rewrite map_key_preserved in Hin; [exact Hin|].
    intro r. now destruct (Z.eqb _ _).
  - split; [now auto|]. split; [|now auto]. cbn. intros i Hin. left.
    now apply Hfilter in Hin.
  - split; [now auto|]. split; [now auto|]. cbn. intro i. now apply Happ.
  - apply trade_update_inv in H0 as ->.
    split; [now auto|]. split; [now auto|]. cbn. intros i Hin. left.
    rewrite map_key_preserved in Hin; [exact Hin|].
    intro r. now destruct (Z.eqb _ _).
  - split; [now auto|]. split; [now auto|]. cbn. intros i Hin. left.
    now apply Hfilter in Hin.
Qed.

(** X12. No request, whatever fails, lowers an AUTOINCREMENT counter, and an id
    that a table holds after a request but did not hold before is above the
    counter the table had before: the id of a deleted row is never handed
    out again. *)
Theorem ids_never_reused :
  forall (r : request) (f : faults) (d : database),
    counters_le d (handle r f d)
    /\ (forall i, In i (map Favorite.id (favorites (handle r f d))) ->
                  In i (map Favorite.id (favorites d)) \/ favorites_seq d < i)
    /\ (forall i, In i (map Watch.id (watchlist (handle r f d))) ->
                  In i (map Watch.id (watchlist d)) \/ watchlist_seq d < i)
    /\ (forall i, In i (map Trade.id (paper_trades (handle r f d))) ->
                  In i (map Trade.id (paper_trades d)) \/ paper_trades_seq d < i).
Proof.
  intros r f d. split.
  - apply effect_counters. apply handle_effect.
  - apply effect_fresh_ids. apply handle_effect.
Qed.

(** ** Favorites: adding, updating, removing *)

Lemma favorite_not_found (sym : string) (d : database) :
  ~ In sym (map Favorite.symbol (favorites d)) ->
  Favorites.select_id sym d = [].
Proof.
  intro Hnin. unfold Favorites.select_id.
  destruct (filter _ (favorites d)) as [|r l] eqn:E; [reflexivity|].
  exfalso. assert (Hin : In r (filter (fun r => String.eqb (Favorite.symbol r) sym)
                                 (favorites d))) by (rewrite E; now left).
  apply filter_In in Hin as [Hin Heq]. apply String.eqb_eq in Heq.
  apply Hnin. apply in_map_iff. now exists r.
Qed.

Lemma not_In_not_existsb (sym : string) (d : database) :
  ~ In sym (map Favorite.symbol (favorites d)) ->
  existsb (fun r => String.eqb (Favorite.symbol r) sym) (favorites d) = false.
Proof.
  intro Hnin. destruct (existsb _ (favorites d)) eqn:E; [|reflexivity].
  exfalso. apply existsb_exists in E as [r [Hin Heq]].
  apply String.eqb_eq in Heq. apply Hnin. apply in_map_iff. now exists r.
Qed.

Lemma fold_max_ge (l : list Z) :
  forall a, a <= fold_left Z.max l a
            /\ forall x, In x l -> x <= fold_left Z.max l a.
Proof.
  induction l as [|y l IH]; intro a; simpl.
  - split; [lia|intros x []].
  - destruct (IH (Z.max a y)) as [H1 H2]. split; [lia|].
    intros x [<-|Hin]; [lia|now apply H2].
Qed.

Lemma next_sort_order_above (d : database) (r : Favorite.row) :
  In r (favorites d) ->
  Favorite.sort_order r < opt_int_or (Favorites.select_max_order d) 0 + 1.
Proof.
  unfold Favorites.select_max_order, Sql.MAX. rewrite non_null_all.
  intro Hin. destruct (favorites d) as [|r0 l]; [contradiction|].
  cbn [map].
  destruct (fold_max_ge (map Favorite.sort_order l) (Favorite.sort_order r0))
    as [H1 H2].
  assert (Hle : Favorite.sort_order r
                <= fold_left Z.max (map Favorite.sort_order l) (Favorite.sort_order r0)).
  { destruct Hin as [<-|Hin]; [exact H1|]. apply H2. now apply in_map. }
  unfold opt_int_or.
  destruct (fold_left Z.max _ _); lia.
Qed.

(** X13. POST /favorites for a symbol that is stored neither as sent nor
    upper-cased succeeds: the new row is appended with the next id, the
    symbol upper-cased, a non-empty color, and a sort_order above that of
    every favorite already stored (1 when there is none), so that it is
    listed last. *)
Theorem add_favorite_fresh :
  forall (now : clock) (favorite : FavoriteCreate.t) (d : database),
    ~ In (FavoriteCreate.symbol favorite) (map Favorite.symbol (favorites d)) ->
    ~ In (upper (FavoriteCreate.symbol favorite))
         (map Favorite.symbol (favorites d)) ->
    exists r : Favorite.row,
      serve (Favorites.add_favorite now favorite) no_faults d
      = (OK {| created_id := favorites_seq d + 1;
               created_symbol := upper (FavoriteCreate.symbol favorite);
               created_message :=
                 "Пара " ++ FavoriteCreate.symbol favorite
                 ++ " добавлена в избранное" |},
         set_favorites d (favorites d ++ [r])%list (favorites_seq d + 1))
      /\ Favorite.id r = favorites_seq d + 1
      /\ Favorite.symbol r = upper (FavoriteCreate.symbol favorite)
      /\ Favorite.notes r = FavoriteCreate.notes favorite
      /\ Favorite.color r <> ""
      /\ Favorite.is_active r = true
      /\ (forall r0, In r0 (favorites d) ->
            Favorite.sort_order r0 < Favorite.sort_order r)
      /\ (favorites d = [] -> Favorite.sort_order r = 1).
Proof.
  intros now favorite d Hraw Hup.
  eexists. split.
  - unfold Favorites.add_favorite. rewrite serve_unfold.
    unfold with_connection, try_except, bind, query, execute, commit, ret, raise.
    cbn [disk work tick next_tick no_faults].
    rewrite (favorite_not_found _ d Hraw). cbn [fetchone hd_error is_some].
    cbn [disk work tick next_tick no_faults].
    unfold Favorites.insert. rewrite (not_In_not_existsb _ d Hup).
    cbn [disk work tick next_tick]. reflexivity.
  - cbn. repeat split.
    + destruct (FavoriteCreate.color favorite) as [[|c s]|]; cbn; discriminate.
    + intros r0 Hin. now apply next_sort_order_above.
    + intro Hnil. unfold Favorites.select_max_order. rewrite Hnil. reflexivity.
Qed.

Lemma add_favorite_fresh_witness :
  exists r : Favorite.row,
    snd (serve (Favorites.add_favorite noon (favorite_request "d")) no_faults
           favorites_abc)
    = set_favorites favorites_abc (favorites favorites_abc ++ [r])%list 4
    /\ Favorite.symbol r = "D".
Proof.
  destruct (add_favorite_fresh noon (favorite_request "d") favorites_abc)
    as (r & Hrun & _ & Hsym & _).
  - simpl. intros [H|[H|[H|[]]]]; discriminate.
  - simpl. intros [H|[H|[H|[]]]]; discriminate.
  - exists r. split; [now rewrite Hrun|exact Hsym].
Defined.

Lemma favorite_found (sym : string) (d : database) :
  In sym (map Favorite.symbol (favorites d)) ->
  is_some (fetchone (Favorites.select_id sym d)) = true.
Proof. apply raw_match_is_found. Qed.

Lemma update_favorite_no_faults (now : clock) (symbol : string)
    (u : FavoriteUpdate.t) (d : database) :
  serve (Favorites.update_favorite now symbol u) no_faults d =
  if is_some (fetchone (Favorites.select_id (upper symbol) d))
  then (OK ("Пара " ++ symbol ++ " обновлена"),
        if (is_some (FavoriteUpdate.notes u) || is_some (FavoriteUpdate.color u))%bool
        then Favorites.update_fields (FavoriteUpdate.notes u) (FavoriteUpdate.color u)
               (utcnow now 0) (upper symbol) d
        else d)
  else (HTTPError 404 ("Пара " ++ symbol ++ " не найдена в избранном"), d).
Proof.
  unfold Favorites.update_favorite. rewrite serve_unfold.
  unfold with_connection, try_except, bind, query, execute, commit, ret, raise.
  cbn [disk work tick next_tick no_faults].
  destruct (is_some _); [|reflexivity].
  destruct (_ || _)%bool; reflexivity.
Qed.

(** X14. PUT /favorites/{symbol}: an unknown symbol is answered 404 and changes
    nothing.  For a stored symbol the answer is 200; the favorite gets the
    notes and the color that were supplied and keeps the ones that were not,
    its updated_at is set to the clock's reading, and nothing else is
    touched: not its id, symbol, activity flag, cached prices, sort_order,
    favorite_added_at or created_at, not another favorite, not the counter,
    not another table.  When neither field is supplied the database is left
    as it was, updated_at included. *)
Theorem update_favorite_spec :
  forall (now : clock) (symbol : string) (u : FavoriteUpdate.t) (d : database),
    (~ In (upper symbol) (map Favorite.symbol (favorites d)) ->
     serve (Favorites.update_favorite now symbol u) no_faults d
     = (HTTPError 404 ("Пара " ++ symbol ++ " не найдена в избранном"), d))
    /\ (In (upper symbol) (map Favorite.symbol (favorites d)) ->
        exists d' : database,
          serve (Favorites.update_favorite now symbol u) no_faults d
          = (OK ("Пара " ++ symbol ++ " обновлена"), d')
          /\ favorites_seq d' = favorites_seq d
          /\ watchlist d' = watchlist d
          /\ watchlist_seq d' = watchlist_seq d
          /\ paper_trades d' = paper_trades d
          /\ paper_trades_seq d' = paper_trades_seq d
          /\ List.length (favorites d') = List.length (favorites d)
          /\ (FavoriteUpdate.notes u = None -> FavoriteUpdate.color u = None ->
              d' = d)
          /\ forall (k : nat) (r : Favorite.row),
               nth_error (favorites d) k = Some r ->
               exists r' : Favorite.row,
                 nth_error (favorites d') k = Some r'
                 /\ Favorite.id r' = Favorite.id r
                 /\ Favorite.symbol r' = Favorite.symbol r
                 /\ Favorite.is_active r' = Favorite.is_active r
                 /\ Favorite.price_drop_percentage r'
                    = Favorite.price_drop_percentage r
                 /\ Favorite.current_price r' = Favorite.current_price r
                 /\ Favorite.historical_price r' = Favorite.historical_price r
                 /\ Favorite.sort_order r' = Favorite.sort_order r
                 /\ Favorite.favorite_added_at r' = Favorite.favorite_added_at r
                 /\ Favorite.created_at r' = Favorite.created_at r
                 /\ (Favorite.symbol r <> upper symbol -> r' = r)
                 /\ (Favorite.symbol r = upper symbol ->
                     Favorite.notes r'
                       = match FavoriteUpdate.notes u with
                         | Some n => Some n
                         | None => Favorite.notes r
                         end
                     /\ Favorite.color r'
                        = match FavoriteUpdate.color u with
                          | Some c => c
                          | None => Favorite.color r
                          end
                     /\ Favorite.updated_at r'
                        = match FavoriteUpdate.notes u, FavoriteUpdate.color u with
                          | None, None => Favorite.updated_at r
                          | _, _ => utcnow now 0
                          end)).
Proof.
  intros now symbol u d. rewrite update_favorite_no_faults. split.
  - intro Hnin. now rewrite (favorite_not_found _ d Hnin).
  - intro Hin. rewrite (favorite_found _ d Hin).
    eexists. split; [reflexivity|].
    destruct (is_some (FavoriteUpdate.notes u) || is_some (FavoriteUpdate.color u))%bool
      eqn:Hany.
    + do 5 (split; [reflexivity|]).
      split; [cbn; apply length_map|].
      split.
      { intros Hn Hc. rewrite Hn, Hc in Hany. discriminate. }
      intros k r Hk. eexists.
      split; [cbn; rewrite nth_error_map, Hk; reflexivity|].
      destruct (String.eqb_spec (Favorite.symbol r) (upper symbol)) as [E|E].
      * cbn. do 9 (split; [reflexivity|]). split; [intro; contradiction|].
        intros _. split; [reflexivity|]. split; [reflexivity|].
        destruct (FavoriteUpdate.notes u), (FavoriteUpdate.color u);
          try reflexivity; discriminate.
      * do 10 (split; [reflexivity|]). intro; contradiction.
    + apply orb_false_iff in Hany as [Hn Hc].
      destruct (FavoriteUpdate.notes u); [discriminate|].
      destruct (FavoriteUpdate.color u); [discriminate|].
      do 7 (split; [reflexivity|]).
      intros k r Hk. exists r.
      split; [exact Hk|]. do 10 (split; [reflexivity|]).
      intros _. split; [reflexivity|]. split; reflexivity.
Qed.

Lemma update_favorite_spec_witness :
  exists d' : database,
    serve (Favorites.update_favorite noon "b" (recolor "#00FF00")) no_faults
      favorites_abc
    = (OK ("Пара " ++ "b" ++ " обновлена"), d')
    /\ map Favorite.color (favorites d') = ["#FFD700"; "#00FF00"; "#FFD700"].
Proof.
  destruct (proj2 (update_favorite_spec noon "b" (recolor "#00FF00") favorites_abc))
    as (d' & Hrun & _).
  - simpl. tauto.
  - exists d'. split; [exact Hrun|].
    rewrite update_favorite_no_faults in Hrun. vm_compute in Hrun.
    injection Hrun as <-. reflexivity.
Defined.

Lemma remove_favorite_no_faults_full (symbol : string) (d : database) :
  serve (Favorites.remove_favorite symbol) no_faults d =
  if is_some (fetchone (Favorites.select_id (upper symbol) d))
  then (OK ("Пара " ++ symbol ++ " удалена из избранного"),
        Favorites.delete (upper symbol) d)
  else (HTTPError 404 ("Пара " ++ symbol ++ " не найдена в избранном"), d).
Proof.
  unfold Favorites.remove_favorite. rewrite serve_unfold.
  unfold with_connection, try_except, bind, query, execute, commit, ret, raise.
  cbn [disk work tick next_tick no_faults].
  destruct (is_some _); reflexivity.
Qed.

(** X15. DELETE /favorites/{symbol}: an unknown symbol is answered 404 and
    changes nothing; for a stored symbol (in any spelling) the favorites
    left are exactly the rows with another symbol, unchanged and in their
    order, and the other tables and the counter are untouched. *)
Theorem remove_favorite_spec :
  forall (symbol : string) (d : database),
    (~ In (upper symbol) (map Favorite.symbol (favorites d)) ->
     serve (Favorites.remove_favorite symbol) no_faults d
     = (HTTPError 404 ("Пара " ++ symbol ++ " не найдена в избранном"), d))
    /\ (In (upper symbol) (map Favorite.symbol (favorites d)) ->
        exists d' : database,
          serve (Favorites.remove_favorite symbol) no_faults d
          = (OK ("Пара " ++ symbol ++ " удалена из избранного"), d')
          /\ favorites d'
             = filter (fun r => negb (String.eqb (Favorite.symbol r) (upper symbol)))
                 (favorites d)
          /\ (forall r, In r (favorites d') <->
                        In r (favorites d) /\ Favorite.symbol r <> upper symbol)
          /\ favorites_seq d' = favorites_seq d
          /\ watchlist d' = watchlist d
          /\ paper_trades d' = paper_trades d).
Proof.
  intros symbol d. rewrite remove_favorite_no_faults_full. split.
  - intro Hnin. now rewrite (favorite_not_found _ d Hnin).
  - intro Hin. rewrite (favorite_found _ d Hin).
    eexists. split; [reflexivity|]. split; [reflexivity|].
    split; [|now auto].
    intro r. cbn. rewrite filter_In, negb_true_iff, String.eqb_neq. reflexivity.
Qed.

Lemma remove_favorite_spec_witness :
  exists d' : database,
    serve (Favorites.remove_favorite "b") no_faults favorites_abc
    = (OK ("Пара " ++ "b" ++ " удалена из избранного"), d')
    /\ map Favorite.symbol (favorites d') = ["A"; "C"].
Proof.
  destruct (proj2 (remove_favorite_spec "b" favorites_abc))
    as (d' & Hrun & Hrows & _).
  - simpl. tauto.
  - exists d'. split; [exact Hrun|]. rewrite Hrows. reflexivity.
Defined.

Lemma filter_out_appended (sym : string) (l : list Favorite.row) (r : Favorite.row) :
  ~ In sym (map Favorite.symbol l) ->
  Favorite.symbol r = sym ->
  filter (fun r => negb (String.eqb (Favorite.symbol r) sym)) (l ++ [r]) = l.
Proof.
  intros Hnin Hr. rewrite filter_app. simpl.
  rewrite Hr, String.eqb_refl. simpl. rewrite app_nil_r.
  induction l as [|r0 l IH]; simpl; [reflexivity|].
  destruct (String.eqb_spec (Favorite.symbol r0) sym) as [E|E].
  - exfalso. apply Hnin. now left.
  - simpl. rewrite IH; [reflexivity|]. intro H. apply Hnin. now right.
Qed.

(** X16. Adding a favorite and removing it again (in any spelling of the symbol)
    restores the favorites exactly as they were; only the counter has
    advanced, so the id is not handed out again. *)
Theorem add_then_remove_favorite :
  forall (now : clock) (favorite : FavoriteCreate.t) (spelling : string)
         (d : database),
    ~ In (FavoriteCreate.symbol favorite) (map Favorite.symbol (favorites d)) ->
    ~ In (upper (FavoriteCreate.symbol favorite))
         (map Favorite.symbol (favorites d)) ->
    upper spelling = upper (FavoriteCreate.symbol favorite) ->
    snd (serve (Favorites.remove_favorite spelling) no_faults
           (snd (serve (Favorites.add_favorite now favorite) no_faults d)))
    = set_favorites d (favorites d) (favorites_seq d + 1).
Proof.
  intros now favorite spelling d Hraw Hup Hspell.
  assert (Hadd : exists r,
            snd (serve (Favorites.add_favorite now favorite) no_faults d)
            = set_favorites d (favorites d ++ [r])%list (favorites_seq d + 1)
            /\ Favorite.symbol r = upper (FavoriteCreate.symbol favorite)).
  { unfold Favorites.add_favorite. rewrite serve_unfold.
    unfold with_connection, try_except, bind, query, execute, commit, ret, raise.
    cbn [disk work tick next_tick no_faults].
    rewrite (favorite_not_found _ d Hraw). cbn [fetchone hd_error is_some].
    cbn [disk work tick next_tick no_faults].
    unfold Favorites.insert. rewrite (not_In_not_existsb _ d Hup).
    cbn [disk work tick next_tick snd]. eexists. split; reflexivity. }
  destruct Hadd as (r & -> & Hsym).
  rewrite remove_favorite_no_faults_full, Hspell.
  rewrite favorite_found.
  - cbn [snd]. unfold Favorites.delete, set_favorites. cbn.
    now rewrite filter_out_appended.
  - cbn. rewrite map_app, in_app_iff. right. left. exact Hsym.
Qed.

Lemma add_then_remove_favorite_witness :
  favorites
    (snd (serve (Favorites.remove_favorite "D") no_faults
            (snd (serve (Favorites.add_favorite noon (favorite_request "d"))
                    no_faults favorites_abc))))
  = favorites favorites_abc.
Proof.
  rewrite (add_then_remove_favorite noon (favorite_request "d") "D" favorites_abc).
  - reflexivity.
  - simpl. intros [H|[H|[H|[]]]]; discriminate.
  - simpl. intros [H|[H|[H|[]]]]; discriminate.
  - reflexivity.
Defined.

(** ** Watchlist: adding, updating, removing *)

Lemma watch_symbol_found (sym : string) (d : database) :
  In sym (map Watch.symbol (watchlist d)) ->
  is_some (fetchone (Watchlist.select_id sym d)) = true.
Proof.
  intro Hin. apply in_map_iff in Hin as [r [Heq Hin]].
  unfold Watchlist.select_id.
  assert (Hf : In r (filter (fun r => String.eqb (Watch.symbol r) sym) (watchlist d))).
  { apply filter_In. split; [assumption|]. rewrite Heq. apply String.eqb_refl. }
  destruct (filter _ (watchlist d)); [contradiction|reflexivity].
Qed.

Lemma watch_symbol_not_found (sym : string) (d : database) :
  ~ In sym (map Watch.symbol (watchlist d)) ->
  Watchlist.select_id sym d = []
  /\ existsb (fun r => String.eqb (Watch.symbol r) sym) (watchlist d) = false.
Proof.
  intro Hnin. split.
  - unfold Watchlist.select_id.
    destruct (filter _ (watchlist d)) as [|r l] eqn:E; [reflexivity|].
    exfalso. assert (Hin : In r (filter (fun r => String.eqb (Watch.symbol r) sym)
                                   (watchlist d))) by (rewrite E; now left).
    apply filter_In in Hin as [Hin Heq]. apply String.eqb_eq in Heq.
    apply Hnin. apply in_map_iff. now exists r.
  - destruct (existsb _ (watchlist d)) eqn:E; [|reflexivity].
    exfalso. apply existsb_exists in E as [r [Hin Heq]].
    apply String.eqb_eq in Heq. apply Hnin. apply in_map_iff. now exists r.
Qed.

(** X17. POST /watchlist: a symbol that is already watched, in whatever case it
    is sent, is answered 400 and changes nothing; any other symbol is
    appended upper-cased with the next id, active, and not flagged as a
    favorite (the flag is only set by the next GET /watchlist). *)
Theorem add_to_watchlist_spec :
  forall (now : clock) (item : WatchlistCreate.t) (d : database),
    (In (upper (WatchlistCreate.symbol item)) (map Watch.symbol (watchlist d)) ->
     serve (Watchlist.add_to_watchlist now item) no_faults d
     = (HTTPError 400
          ("Пара " ++ WatchlistCreate.symbol item ++ " уже в списке наблюдения"),
        d))
    /\ (~ In (upper (WatchlistCreate.symbol item)) (map Watch.symbol (watchlist d)) ->
        exists r : Watch.row,
          serve (Watchlist.add_to_watchlist now item) no_faults d
          = (OK {| created_id := watchlist_seq d + 1;
                   created_symbol := upper (WatchlistCreate.symbol item);
                   created_message :=
                     "Пара " ++ WatchlistCreate.symbol item
                     ++ " добавлена в список наблюдения" |},
             set_watchlist d (watchlist d ++ [r])%list (watchlist_seq d + 1))
          /\ Watch.id r = watchlist_seq d + 1
          /\ Watch.symbol r = upper (WatchlistCreate.symbol item)
          /\ Watch.is_active r = true
          /\ Watch.is_favorite r = false).
Proof.
  intros now item d. split; intro H.
  - unfold Watchlist.add_to_watchlist. rewrite serve_unfold.
    unfold with_connection, try_except, bind, query, execute, commit, ret, raise.
    cbn [disk work tick next_tick no_faults].
    now rewrite (watch_symbol_found _ d H).
  - destruct (watch_symbol_not_found _ d H) as [Hsel Hex].
    eexists. split.
    + unfold Watchlist.add_to_watchlist. rewrite serve_unfold.
      unfold with_connection, try_except, bind, query, execute, commit, ret, raise.
      cbn [disk work tick next_tick no_faults].
      rewrite Hsel. cbn [fetchone hd_error is_some].
      cbn [disk work tick next_tick no_faults].
      unfold Watchlist.insert. rewrite Hex.
      cbn [disk work tick next_tick]. reflexivity.
    + repeat split.
Qed.

Lemma add_to_watchlist_spec_witness :
  serve (Watchlist.add_to_watchlist noon {| WatchlistCreate.symbol := "b" |})
    no_faults stale_watchlist
  = (HTTPError 400 ("Пара " ++ "b" ++ " уже в списке наблюдения"), stale_watchlist)
  /\ exists r : Watch.row,
       snd (serve (Watchlist.add_to_watchlist noon {| WatchlistCreate.symbol := "c" |})
              no_faults stale_watchlist)
       = set_watchlist stale_watchlist (watchlist stale_watchlist ++ [r])%list 3
       /\ Watch.symbol r = "C".
Proof.
  split.
  - apply (proj1 (add_to_watchlist_spec noon {| WatchlistCreate.symbol := "b" |}
                    stale_watchlist)).
    simpl. tauto.
  - destruct (proj2 (add_to_watchlist_spec noon {| WatchlistCreate.symbol := "c" |}
                       stale_watchlist))
      as (r & Hrun & _ & Hsym & _).
    + simpl. intros [H|[H|[]]]; discriminate.
    + exists r. split; [now rewrite Hrun|exact Hsym].
Defined.

Lemma watch_id_found (item_id : Z) (d : database) :
  In item_id (map Watch.id (watchlist d)) ->
  exists r, fetchone (Watchlist.select_by_id item_id d) = Some r
            /\ In r (watchlist d) /\ Watch.id r = item_id.
Proof.
  intro Hin. apply in_map_iff in Hin as [r [Heq Hin]].
  unfold Watchlist.select_by_id.
  assert (Hf : In r (filter (fun r => (Watch.id r =? item_id)%Z) (watchlist d))).
  { apply filter_In. split; [assumption|]. now apply Z.eqb_eq. }
  destruct (filter _ (watchlist d)) as [|r0 l] eqn:E; [contradiction|].
  exists r0. split; [reflexivity|].
  assert (H0 : In r0 (filter (fun r => (Watch.id r =? item_id)%Z) (watchlist d)))
    by (rewrite E; now left).
  apply filter_In in H0 as [H0 H1]. split; [exact H0|now apply Z.eqb_eq].
Qed.

Lemma watch_id_not_found (item_id : Z) (d : database) :
  ~ In item_id (map Watch.id (watchlist d)) ->
  Watchlist.select_by_id item_id d = [].
Proof.
  intro Hnin. unfold Watchlist.select_by_id.
  destruct (filter _ (watchlist d)) as [|r l] eqn:E; [reflexivity|].
  exfalso. assert (Hin : In r (filter (fun r => (Watch.id r =? item_id)%Z)
                                 (watchlist d))) by (rewrite E; now left).
  apply filter_In in Hin as [Hin Heq]. apply Z.eqb_eq in Heq.
  apply Hnin. apply in_map_iff. now exists r.
Qed.

(** X18. PUT /watchlist/{item_id}: an id outside the signed 64 bits of an
    INTEGER is answered 500 (sqlite3 cannot bind it), whatever the storage
    does; an id within them that is not stored is answered 404; a symbol
    that another entry already has is answered 500 (the UNIQUE constraint);
    all three without any change.  Otherwise the entry with that id gets the
    symbol upper-cased, the activity flag and the clock's reading as
    updated_at, keeps its id, its is_favorite flag, its cached prices and
    its created_at, and the other entries are untouched.  The id inside the
    request body plays no part. *)
Theorem update_watchlist_item_spec :
  forall (now : clock) (item_id : Z) (item : WatchlistUpdate.t) (d : database),
    (item_id < - 2 ^ 63 \/ 2 ^ 63 <= item_id ->
     forall f : faults,
       serve (Watchlist.update_watchlist_item now item_id item) f d
       = (HTTPError 500
            ("Ошибка обновления элемента: "
             ++ "Python int too large to convert to SQLite INTEGER"),
          d))
    /\ (- 2 ^ 63 <= item_id < 2 ^ 63 ->
        ~ In item_id (map Watch.id (watchlist d)) ->
        serve (Watchlist.update_watchlist_item now item_id item) no_faults d
        = (HTTPError 404 ("Элемент с ID " ++ str_int item_id ++ " не найден"), d))
    /\ (- 2 ^ 63 <= item_id < 2 ^ 63 ->
        In item_id (map Watch.id (watchlist d)) ->
        (exists r, In r (watchlist d) /\ Watch.id r <> item_id
                   /\ Watch.symbol r = upper (WatchlistUpdate.symbol item)) ->
        serve (Watchlist.update_watchlist_item now item_id item) no_faults d
        = (HTTPError 500
             ("Ошибка обновления элемента: "
              ++ "UNIQUE constraint failed: watchlist.symbol"),
           d))
    /\ (- 2 ^ 63 <= item_id < 2 ^ 63 ->
        In item_id (map Watch.id (watchlist d)) ->
        (forall r, In r (watchlist d) -> Watch.id r <> item_id ->
                   Watch.symbol r <> upper (WatchlistUpdate.symbol item)) ->
        exists d' : database,
          serve (Watchlist.update_watchlist_item now item_id item) no_faults d
          = (OK ("Элемент " ++ WatchlistUpdate.symbol item ++ " обновлен"), d')
          /\ favorites d' = favorites d
          /\ favorites_seq d' = favorites_seq d
          /\ paper_trades d' = paper_trades d
          /\ paper_trades_seq d' = paper_trades_seq d
          /\ watchlist_seq d' = watchlist_seq d
          /\ List.length (watchlist d') = List.length (watchlist d)
          /\ forall (k : nat) (r : Watch.row),
               nth_error (watchlist d) k = Some r ->
               exists r' : Watch.row,
                 nth_error (watchlist d') k = Some r'
                 /\ Watch.id r' = Watch.id r
                 /\ Watch.is_favorite r' = Watch.is_favorite r
                 /\ Watch.price_drop_percentage r' = Watch.price_drop_percentage r
                 /\ Watch.current_price r' = Watch.current_price r
                 /\ Watch.historical_price r' = Watch.historical_price r
                 /\ Watch.created_at r' = Watch.created_at r
                 /\ (Watch.id r <> item_id -> r' = r)
                 /\ (Watch.id r = item_id ->
                     Watch.symbol r' = upper (WatchlistUpdate.symbol item)
                     /\ Watch.is_active r' = WatchlistUpdate.is_active item
                     /\ Watch.updated_at r' = utcnow now 0)).
Proof.
  intros now item_id item d.
  assert (Hrun : forall r0,
            Sql.int64 item_id = true ->
            fetchone (Watchlist.select_by_id item_id d) = Some r0 ->
            serve (Watchlist.update_watchlist_item now item_id item) no_faults d
            = match Watchlist.update_item (upper (WatchlistUpdate.symbol item))
                      (WatchlistUpdate.is_active item) (utcnow now 0) item_id d with
              | Return (_, d') =>
                  (OK ("Элемент " ++ WatchlistUpdate.symbol item ++ " обновлен"), d')
              | Raise e =>
                  (HTTPError 500 ("Ошибка обновления элемента: " ++ str e), d)
              end).
  { intros r0 Hfits Hr0. unfold Watchlist.update_watchlist_item. run_io.
    rewrite Hfits. cbn [disk work tick next_tick no_faults].
    rewrite Hr0. cbn [is_some].
    cbn [disk work tick next_tick no_faults].
    destruct (Watchlist.update_item _ _ _ _ d) as [[[] w]|e] eqn:Hupd.
    - reflexivity.
    - unfold Watchlist.update_item in Hupd.
      destruct (_ && _)%bool; [|discriminate].
      injection Hupd as <-. reflexivity. }
  split; [|split; [|split]].
  - intros Hout f. apply not_int64_spec in Hout.
    unfold Watchlist.update_watchlist_item. run_io. now rewrite Hout.
  - intros Hfits Hnin. apply int64_spec in Hfits.
    unfold Watchlist.update_watchlist_item. run_io. rewrite Hfits.
    cbn [disk work tick next_tick no_faults].
    now rewrite (watch_id_not_found _ d Hnin).
  - intros Hfits Hin (r & Hr & Hid & Hsym). apply int64_spec in Hfits.
    destruct (watch_id_found _ d Hin) as (r0 & Hr0 & _).
    rewrite (Hrun r0 Hfits Hr0). unfold Watchlist.update_item.
    assert (H1 : existsb (fun r => (Watch.id r =? item_id)%Z) (watchlist d) = true).
    { apply in_map_iff in Hin as [r1 [Heq Hin]]. apply existsb_exists.
      exists r1. split; [exact Hin|now apply Z.eqb_eq]. }
    assert (H2 : existsb (fun r => negb (Watch.id r =? item_id)%Z
                                   && String.eqb (Watch.symbol r)
                                        (upper (WatchlistUpdate.symbol item)))
                   (watchlist d) = true).
    { apply existsb_exists. exists r. split; [exact Hr|].
      rewrite Hsym, String.eqb_refl, andb_true_r.
      apply negb_true_iff. now apply Z.eqb_neq. }
    rewrite H1, H2. reflexivity.
  - intros Hfits Hin Hfree. apply int64_spec in Hfits.
    destruct (watch_id_found _ d Hin) as (r0 & Hr0 & _).
    rewrite (Hrun r0 Hfits Hr0). unfold Watchlist.update_item.
    assert (H2 : existsb (fun r => negb (Watch.id r =? item_id)%Z
                                   && String.eqb (Watch.symbol r)
                                        (upper (WatchlistUpdate.symbol item)))
                   (watchlist d) = false).
    { destruct (existsb _ (watchlist d)) eqn:E; [|reflexivity].
      exfalso. apply existsb_exists in E as [r [Hr H]].
      apply andb_true_iff in H as [Hid Hsym].
      apply negb_true_iff, Z.eqb_neq in Hid. apply String.eqb_eq in Hsym.
      now apply (Hfree r Hr Hid). }
    rewrite H2, andb_false_r.
    eexists. split; [reflexivity|].
    do 5 (split; [reflexivity|]).
    split; [cbn; apply length_map|].
    intros k r Hk. eexists.
    split; [cbn; rewrite nth_error_map, Hk; reflexivity|].
    destruct (Z.eqb_spec (Watch.id r) item_id) as [E|E].
    + cbn. do 6 (split; [reflexivity|]).
      split; [intro; contradiction|]. intros _. now auto.
    + do 7 (split; [reflexivity|]). intro; contradiction.
Qed.

Lemma update_watchlist_item_spec_witness :
  serve (Watchlist.update_watchlist_item noon 2
           {| WatchlistUpdate.id := 7; WatchlistUpdate.symbol := "a";
              WatchlistUpdate.is_active := false |})
    no_faults stale_watchlist
  = (HTTPError 500
       ("Ошибка обновления элемента: "
        ++ "UNIQUE constraint failed: watchlist.symbol"),
     stale_watchlist).
Proof.
  apply (proj1 (proj2 (proj2 (update_watchlist_item_spec noon 2
                         {| WatchlistUpdate.id := 7; WatchlistUpdate.symbol := "a";
                            WatchlistUpdate.is_active := false |}
                         stale_watchlist)))).
  - lia.
  - simpl. tauto.
  - exists (watch_at 1 "A" false). simpl. repeat split; [tauto|discriminate].
Defined.

(** X19. DELETE /watchlist/{item_id}: an id outside the signed 64 bits of an
    INTEGER is answered 500 (sqlite3 cannot bind it), whatever the storage
    does, and an id within them that is not stored is answered 404, both
    without any change; for a stored id the answer names the stored symbol
    and the entries left are exactly those with another id, unchanged and in
    their order. *)
Theorem remove_from_watchlist_spec :
  forall (item_id : Z) (d : database),
    (item_id < - 2 ^ 63 \/ 2 ^ 63 <= item_id ->
     forall f : faults,
       serve (Watchlist.remove_from_watchlist item_id) f d
       = (HTTPError 500
            ("Ошибка удаления элемента: "
             ++ "Python int too large to convert to SQLite INTEGER"),
          d))
    /\ (- 2 ^ 63 <= item_id < 2 ^ 63 ->
        ~ In item_id (map Watch.id (watchlist d)) ->
        serve (Watchlist.remove_from_watchlist item_id) no_faults d
        = (HTTPError 404 ("Элемент с ID " ++ str_int item_id ++ " не найден"), d))
    /\ (- 2 ^ 63 <= item_id < 2 ^ 63 ->
        In item_id (map Watch.id (watchlist d)) ->
        exists (r : Watch.row) (d' : database),
          In r (watchlist d) /\ Watch.id r = item_id
          /\ serve (Watchlist.remove_from_watchlist item_id) no_faults d
             = (OK ("Пара " ++ Watch.symbol r ++ " удалена из списка наблюдения"), d')
          /\ watchlist d'
             = filter (fun r => negb (Watch.id r =? item_id)%Z) (watchlist d)
          /\ watchlist_seq d' = watchlist_seq d
          /\ favorites d' = favorites d
          /\ favorites_seq d' = favorites_seq d
          /\ paper_trades d' = paper_trades d
          /\ paper_trades_seq d' = paper_trades_seq d).
Proof.
  intros item_id d. split; [|split].
  - intros Hout f. apply not_int64_spec in Hout.
    unfold Watchlist.remove_from_watchlist. run_io. now rewrite Hout.
  - intros Hfits Hnin. apply int64_spec in Hfits.
    unfold Watchlist.remove_from_watchlist. run_io. rewrite Hfits.
    cbn [disk work tick next_tick no_faults].
    now rewrite (watch_id_not_found _ d Hnin).
  - intros Hfits Hin. apply int64_spec in Hfits.
    destruct (watch_id_found _ d Hin) as (r & Hr & Hinr & Hid).
    exists r. eexists. split; [exact Hinr|]. split; [exact Hid|]. split.
    + unfold Watchlist.remove_from_watchlist. run_io. rewrite Hfits.
      cbn [disk work tick next_tick no_faults]. rewrite Hr. reflexivity.
    + now auto 10.
Qed.

Lemma remove_from_watchlist_spec_witness :
  exists d' : database,
    serve (Watchlist.remove_from_watchlist 2) no_faults stale_watchlist
    = (OK ("Пара " ++ "B" ++ " удалена из списка наблюдения"), d')
    /\ watchlist d' = [watch_at 1 "A" false].
Proof.
  destruct (proj2 (proj2 (remove_from_watchlist_spec 2 stale_watchlist)))
    as (r & d' & Hin & Hid & Hrun & Hrows & _).
  - lia.
  - simpl. tauto.
  - exists d'. split.
    + rewrite Hrun. simpl in Hin. destruct Hin as [<-|[<-|[]]].
      * discriminate Hid.
      * reflexivity.
    + rewrite Hrows. reflexivity.
Defined.

(** ** Paper trades: updating and deleting *)

Lemma trade_not_found (trade_id : Z) (d : database) :
  ~ In trade_id (map Trade.id (paper_trades d)) ->
  PaperTrades.select_id trade_id d = [].
Proof.
  intro Hnin. unfold PaperTrades.select_id.
  destruct (filter _ (paper_trades d)) as [|r l] eqn:E; [reflexivity|].
  exfalso. assert (Hin : In r (filter (fun r => (Trade.id r =? trade_id)%Z)
                                 (paper_trades d))) by (rewrite E; now left).
  apply filter_In in Hin as [Hin Heq]. apply Z.eqb_eq in Heq.
  apply Hnin. apply in_map_iff. now exists r.
Qed.

Lemma update_paper_trade_no_faults (now : clock) (trade_id : Z)
    (u : PaperTradeUpdate.t) (d : database) :
  Sql.int64 trade_id = true ->
  In trade_id (map Trade.id (paper_trades d)) ->
  (forall s, PaperTradeUpdate.status u = Some s -> valid_status s) ->
  serve (PaperTrades.update_paper_trade now trade_id u) no_faults d
  = (OK ("Сделка " ++ str_int trade_id ++ " обновлена"),
     if PaperTrades.has_fields u
     then set_paper_trades d
            (map (fun r => if (Trade.id r =? trade_id)%Z
                           then PaperTrades.set_fields u (utcnow now 0) r else r)
                 (paper_trades d))
            (paper_trades_seq d)
     else d).
Proof.
  intros Hfits Hin Hvalid.
  unfold PaperTrades.update_paper_trade. run_io. rewrite Hfits.
  cbn [disk work tick next_tick no_faults].
  rewrite (known_trade_is_found _ _ Hin).
  assert (Hst : match PaperTradeUpdate.status u with
                | Some s => PaperTrades.in_list s ["planned"; "active"; "closed"]
                | None => true
                end = true).
  { destruct (PaperTradeUpdate.status u) as [s|]; [|reflexivity].
    apply in_status_list. now apply Hvalid. }
  unfold PaperTrades.update_fields.
  destruct (PaperTradeUpdate.status u) as [s|];
    [rewrite Hst; cbn [negb]|];
    destruct (PaperTrades.has_fields u); cbn [disk work tick next_tick];
    try reflexivity; rewrite andb_false_r; reflexivity.
Qed.

Example timestamps_and_numbers :
  Sql.numeric_affinity "2024-05-01T12:00:00" = Sql.Text "2024-05-01T12:00:00"
  /\ Sql.numeric_affinity "2024-05-01" = Sql.Text "2024-05-01"
  /\ Sql.numeric_affinity "" = Sql.Text ""
  /\ Sql.numeric_affinity "0x10" = Sql.Text "0x10"
  /\ Sql.numeric_affinity "1e" = Sql.Text "1e"
  /\ Sql.numeric_affinity "." = Sql.Text "."
  /\ Sql.numeric_affinity "007" = Sql.Number "007"
  /\ Sql.numeric_affinity " 2024 " = Sql.Number " 2024 "
  /\ Sql.numeric_affinity "-1.5e+3" = Sql.Number "-1.5e+3"
  /\ Sql.numeric_affinity ".5" = Sql.Number ".5"
  /\ Sql.numeric_affinity "1." = Sql.Number "1.".
Proof. vm_compute. repeat split. Qed.

(** X20. PUT /paper-trades/{id}: an id outside the signed 64 bits of an
    INTEGER is answered 500 (sqlite3 cannot bind it), whatever the storage
    does, and an id within them that is not stored is answered 404, both
    without any change.  For a stored trade and a status that is absent or
    one of planned, active, closed, the answer is 200 whatever the trade's
    current status (closed may go back to planned).  Each absent field keeps
    the stored value; a supplied status or note replaces it; a supplied
    exit price or realized P&L replaces it, a NaN leaving the column NULL; a
    supplied exit time is stored as the TIMESTAMP column takes it, as a
    number when the text reads as one and as the text otherwise;
    updated_at is the clock's reading.  The symbol, alert reference,
    direction, prices, amounts and created_at are never touched, no other
    trade changes, nor the counter or another table.  With no field supplied
    nothing is written at all. *)
Theorem update_paper_trade_spec :
  forall (now : clock) (trade_id : Z) (u : PaperTradeUpdate.t) (d : database),
    (trade_id < - 2 ^ 63 \/ 2 ^ 63 <= trade_id ->
     forall f : faults,
       serve (PaperTrades.update_paper_trade now trade_id u) f d
       = (HTTPError 500
            ("Ошибка обновления сделки: "
             ++ "Python int too large to convert to SQLite INTEGER"),
          d))
    /\ (- 2 ^ 63 <= trade_id < 2 ^ 63 ->
        ~ In trade_id (map Trade.id (paper_trades d)) ->
        serve (PaperTrades.update_paper_trade now trade_id u) no_faults d
        = (HTTPError 404 ("Сделка с ID " ++ str_int trade_id ++ " не найдена"), d))
    /\ (- 2 ^ 63 <= trade_id < 2 ^ 63 ->
        In trade_id (map Trade.id (paper_trades d)) ->
        (forall s, PaperTradeUpdate.status u = Some s -> valid_status s) ->
        exists d' : database,
          serve (PaperTrades.update_paper_trade now trade_id u) no_faults d
          = (OK ("Сделка " ++ str_int trade_id ++ " обновлена"), d')
          /\ favorites d' = favorites d
          /\ favorites_seq d' = favorites_seq d
          /\ watchlist d' = watchlist d
          /\ watchlist_seq d' = watchlist_seq d
          /\ paper_trades_seq d' = paper_trades_seq d
          /\ (PaperTradeUpdate.status u = None ->
              PaperTradeUpdate.exit_price u = None ->
              PaperTradeUpdate.exit_time u = None ->
              PaperTradeUpdate.actual_profit_loss u = None ->
              PaperTradeUpdate.notes u = None ->
              d' = d)
          /\ forall (k : nat) (r : Trade.row),
               nth_error (paper_trades d) k = Some r ->
               exists r' : Trade.row,
                 nth_error (paper_trades d') k = Some r'
                 /\ Trade.id r' = Trade.id r
                 /\ Trade.symbol r' = Trade.symbol r
                 /\ Trade.alert_id r' = Trade.alert_id r
                 /\ Trade.direction r' = Trade.direction r
                 /\ Trade.entry_price r' = Trade.entry_price r
                 /\ Trade.stop_loss r' = Trade.stop_loss r
                 /\ Trade.take_profit r' = Trade.take_profit r
                 /\ Trade.quantity r' = Trade.quantity r
                 /\ Trade.risk_amount r' = Trade.risk_amount r
                 /\ Trade.risk_percentage r' = Trade.risk_percentage r
                 /\ Trade.position_value r' = Trade.position_value r
                 /\ Trade.potential_loss r' = Trade.potential_loss r
                 /\ Trade.potential_profit r' = Trade.potential_profit r
                 /\ Trade.risk_reward_ratio r' = Trade.risk_reward_ratio r
                 /\ Trade.created_at r' = Trade.created_at r
                 /\ (Trade.id r <> trade_id -> r' = r)
                 /\ (Trade.id r = trade_id ->
                     Trade.status r'
                       = match PaperTradeUpdate.status u with
                         | Some s => s
                         | None => Trade.status r
                         end
                     /\ Trade.exit_price r'
                        = match PaperTradeUpdate.exit_price u with
                          | Some S754_nan => None
                          | Some x => Some x
                          | None => Trade.exit_price r
                          end
                     /\ Trade.exit_time r'
                        = match PaperTradeUpdate.exit_time u with
                          | Some s => Some (Sql.numeric_affinity s)
                          | None => Trade.exit_time r
                          end
                     /\ Trade.actual_profit_loss r'
                        = match PaperTradeUpdate.actual_profit_loss u with
                          | Some S754_nan => None
                          | Some x => Some x
                          | None => Trade.actual_profit_loss r
                          end
                     /\ Trade.notes r'
                        = match PaperTradeUpdate.notes u with
                          | Some n => Some n
                          | None => Trade.notes r
                          end
                     /\ (PaperTrades.has_fields u = true ->
                         Trade.updated_at r' = utcnow now 0))).
Proof.
  intros now trade_id u d. split; [|split].
  - intros Hout f. apply not_int64_spec in Hout.
    unfold PaperTrades.update_paper_trade. run_io. now rewrite Hout.
  - intros Hfits Hnin. apply int64_spec in Hfits.
    unfold PaperTrades.update_paper_trade. run_io. rewrite Hfits.
    cbn [disk work tick next_tick no_faults].
    now rewrite (trade_not_found _ d Hnin).
  - intros Hfits Hin Hvalid. apply int64_spec in Hfits.
    rewrite (update_paper_trade_no_faults now _ u d Hfits Hin Hvalid).
    eexists. split; [reflexivity|].
    destruct (PaperTrades.has_fields u) eqn:Hany.
    + do 5 (split; [reflexivity|]).
      split.
      { intros H1 H2 H3 H4 H5. unfold PaperTrades.has_fields in Hany.
        rewrite H1, H2, H3, H4, H5 in Hany. discriminate. }
      intros k r Hk. eexists.
      split; [cbn; rewrite nth_error_map, Hk; reflexivity|].
      destruct (Z.eqb_spec (Trade.id r) trade_id) as [E|E].
      * cbn. do 15 (split; [reflexivity|]).
        split; [intro; contradiction|]. intros _.
        split; [reflexivity|].
        split; [destruct (PaperTradeUpdate.exit_price u) as [[]|]; reflexivity|].
        split; [reflexivity|].
        split; [destruct (PaperTradeUpdate.actual_profit_loss u) as [[]|];
                reflexivity|].
        split; [destruct (PaperTradeUpdate.notes u); reflexivity|].
        reflexivity.
      * do 16 (split; [reflexivity|]). intro; contradiction.
    + do 5 (split; [reflexivity|]).
      split; [reflexivity|].
      intros k r Hk. exists r. split; [exact Hk|].
      do 16 (split; [reflexivity|]).
      intros _. unfold PaperTrades.has_fields in Hany.
      repeat (apply orb_false_iff in Hany as [Hany ?]).
      destruct (PaperTradeUpdate.status u); [discriminate|].
      destruct (PaperTradeUpdate.exit_price u); [discriminate|].
      destruct (PaperTradeUpdate.exit_time u); [discriminate|].
      destruct (PaperTradeUpdate.actual_profit_loss u); [discriminate|].
      destruct (PaperTradeUpdate.notes u); [discriminate|].
      do 5 (split; [reflexivity|]). discriminate.
Qed.

Lemma update_paper_trade_spec_witness :
  exists d' : database,
    serve (PaperTrades.update_paper_trade noon 1 (status_update "planned"))
      no_faults closed_with_profit
    = (OK ("Сделка " ++ str_int 1 ++ " обновлена"), d')
    /\ map Trade.status (paper_trades d') = ["planned"]
    /\ map Trade.actual_profit_loss (paper_trades d') = [Some (Float.of_Z 8)].
Proof.
  destruct (proj2 (proj2 (update_paper_trade_spec noon 1 (status_update "planned")
                            closed_with_profit)))
    as (d' & Hrun & _).
  - lia.
  - simpl. tauto.
  - intros s H. injection H as <-. left. reflexivity.
  - exists d'. split; [exact Hrun|].
    rewrite update_paper_trade_no_faults in Hrun.
    + injection Hrun as <-. split; reflexivity.
    + reflexivity.
    + simpl. tauto.
    + intros s H. injection H as <-. left. reflexivity.
Defined.

(** X21. DELETE /paper-trades/{id}: an id outside the signed 64 bits of an
    INTEGER is answered 500 (sqlite3 cannot bind it), whatever the storage
    does, and an id within them that is not stored is answered 404, both
    without any change; for a stored id, whatever the trade's status, the
    trades left are exactly those with another id, unchanged and in their
    order, and the counter and the other tables are as before. *)
Theorem delete_paper_trade_spec :
  forall (trade_id : Z) (d : database),
    (trade_id < - 2 ^ 63 \/ 2 ^ 63 <= trade_id ->
     forall f : faults,
       serve (PaperTrades.delete_paper_trade trade_id) f d
       = (HTTPError 500
            ("Ошибка удаления сделки: "
             ++ "Python int too large to convert to SQLite INTEGER"),
          d))
    /\ (- 2 ^ 63 <= trade_id < 2 ^ 63 ->
        ~ In trade_id (map Trade.id (paper_trades d)) ->
        serve (PaperTrades.delete_paper_trade trade_id) no_faults d
        = (HTTPError 404 ("Сделка с ID " ++ str_int trade_id ++ " не найдена"), d))
    /\ (- 2 ^ 63 <= trade_id < 2 ^ 63 ->
        In trade_id (map Trade.id (paper_trades d)) ->
        exists d' : database,
          serve (PaperTrades.delete_paper_trade trade_id) no_faults d
          = (OK ("Сделка " ++ str_int trade_id ++ " удалена"), d')
          /\ paper_trades d'
             = filter (fun r => negb (Trade.id r =? trade_id)%Z) (paper_trades d)
          /\ (forall r, In r (paper_trades d') <->
                        In r (paper_trades d) /\ Trade.id r <> trade_id)
          /\ paper_trades_seq d' = paper_trades_seq d
          /\ favorites d' = favorites d
          /\ favorites_seq d' = favorites_seq d
          /\ watchlist d' = watchlist d
          /\ watchlist_seq d' = watchlist_seq d).
Proof.
  intros trade_id d. split; [|split].
  - intros Hout f. apply not_int64_spec in Hout.
    unfold PaperTrades.delete_paper_trade. run_io. now rewrite Hout.
  - intros Hfits Hnin. apply int64_spec in Hfits.
    unfold PaperTrades.delete_paper_trade. run_io. rewrite Hfits.
    cbn [disk work tick next_tick no_faults].
    now rewrite (trade_not_found _ d Hnin).
  - intros Hfits Hin. apply int64_spec in Hfits. eexists. split.
    + unfold PaperTrades.delete_paper_trade. run_io. rewrite Hfits.
      cbn [disk work tick next_tick no_faults].
      rewrite (known_trade_is_found _ _ Hin). reflexivity.
    + split; [reflexivity|]. split; [|now auto 10].
      intro r. cbn. rewrite filter_In, negb_true_iff, Z.eqb_neq. reflexivity.
Qed.

Lemma delete_paper_trade_spec_witness :
  serve (PaperTrades.delete_paper_trade (2 ^ 63)) no_faults closed_with_profit
  = (HTTPError 500
       ("Ошибка удаления сделки: "
        ++ "Python int too large to convert to SQLite INTEGER"),
     closed_with_profit)
  /\ serve (PaperTrades.delete_paper_trade 2) no_faults closed_with_profit
     = (HTTPError 404 ("Сделка с ID " ++ str_int 2 ++ " не найдена"),
        closed_with_profit)
  /\ exists d' : database,
       serve (PaperTrades.delete_paper_trade 1) no_faults closed_with_profit
       = (OK ("Сделка " ++ str_int 1 ++ " удалена"), d')
       /\ paper_trades d' = [].
Proof.
  split; [|split].
  - apply (proj1 (delete_paper_trade_spec (2 ^ 63) closed_with_profit)). lia.
  - apply (proj1 (proj2 (delete_paper_trade_spec 2 closed_with_profit))).
    + lia.
    + simpl. intros [H|[]]. discriminate.
  - destruct (proj2 (proj2 (delete_paper_trade_spec 1 closed_with_profit)))
      as (d' & Hrun & Hrows & _).
    + lia.
    + simpl. tauto.
    + exists d'. split; [exact Hrun|]. rewrite Hrows. reflexivity.
Defined.

(** ** Statistics by status, by symbol and by direction *)

Lemma firstn_In {A} (n : nat) (l : list A) (x : A) :
  In x (firstn n l) -> In x l.
Proof.
  revert l. induction n as [|n IH]; intros [|y l]; simpl; try tauto.
  intros [H|H]; [now left|right; now apply IH].
Qed.

Lemma firstn_NoDup {A} (n : nat) (l : list A) : NoDup l -> NoDup (firstn n l).
Proof.
  revert l. induction n as [|n IH]; intros [|y l] H; simpl; try constructor.
  - inversion H; subst. intro Hin. apply firstn_In in Hin. contradiction.
  - inversion H; subst. now apply IH.
Qed.

Lemma firstn_Sorted {A} (R : A -> A -> Prop) (n : nat) (l : list A) :
  Sorted R l -> Sorted R (firstn n l).
Proof.
  revert l. induction n as [|n IH]; intros [|y l] H; simpl; try constructor.
  - inversion H; subst. now apply IH.
  - inversion H as [|? ? Hs Hhd]; subst.
    destruct n; [constructor|]. destruct l; simpl; [constructor|].
    inversion Hhd; subst. now constructor.
Qed.

Lemma group_keys_In {A} (key : A -> string) (rows : list A) (k : string) :
  In k (Sql.group_keys key rows) <-> In k (map key rows).
Proof.
  unfold Sql.group_keys. rewrite nodup_In. apply order_by_In.
Qed.

Lemma group_keys_NoDup {A} (key : A -> string) (rows : list A) :
  NoDup (Sql.group_keys key rows).
Proof. apply NoDup_nodup. Qed.

Lemma one_key_matches (ks : list string) (k0 : string) :
  NoDup ks -> In k0 ks ->
  sum_Z (map (fun k => if String.eqb k0 k then 1 else 0) ks) = 1.
Proof.
  induction ks as [|k ks IH]; intros Hnd Hin; [contradiction|].
  inversion Hnd as [|? ? Hnin Hnd']; subst. simpl.
  destruct (String.eqb_spec k0 k) as [E|E].
  - subst k0. assert (Hz : sum_Z (map (fun k1 => if String.eqb k k1 then 1 else 0) ks) = 0).
    { clear IH Hnd' Hin Hnd. induction ks as [|k1 ks IH]; simpl; [reflexivity|].
      destruct (String.eqb_spec k k1) as [E|E].
      - exfalso. apply Hnin. now left.
      - rewrite IH; [reflexivity|]. intro H. apply Hnin. now right. }
    rewrite Hz. reflexivity.
  - destruct Hin as [Hin|Hin]; [congruence|]. now rewrite IH.
Qed.

Lemma sum_Z_pointwise {A} (g h : A -> Z) (l : list A) :
  sum_Z (map (fun x => g x + h x) l) = sum_Z (map g l) + sum_Z (map h l).
Proof.
  induction l as [|x l IH]; simpl; [reflexivity|]. rewrite IH. lia.
Qed.

Lemma group_counts_sum (key : Trade.row -> string) (ks : list string)
    (rows : list Trade.row) :
  NoDup ks ->
  (forall r, In r rows -> In (key r) ks) ->
  sum_Z (map (fun k => Sql.COUNT_star (Sql.group key k rows)) ks)
  = Sql.COUNT_star rows.
Proof.
  intros Hnd. unfold Sql.COUNT_star, Sql.group.
  induction rows as [|r rows IH]; intro Hall.
  - simpl. induction ks as [|k ks IHk]; simpl; [reflexivity|].
    inversion Hnd; subst. now rewrite IHk.
  - rewrite (map_ext _ (fun k => (if String.eqb (key r) k then 1 else 0)
                                 + Z.of_nat (List.length
                                     (filter (fun r => String.eqb (key r) k) rows)))).
    + rewrite sum_Z_pointwise, IH by (intros r0 H; apply Hall; now right).
      rewrite one_key_matches; [|exact Hnd|apply Hall; now left].
      simpl List.length. lia.
    + intro k. simpl. destruct (String.eqb (key r) k); simpl List.length; lia.
Qed.

Lemma COUNT_cons {A} (x : option A) (col : list (option A)) :
  Sql.COUNT (x :: col) = (if is_some x then 1 else 0) + Sql.COUNT col.
Proof. destruct x; reflexivity. Qed.

Lemma count_status_spec (s : string) (rows : list Trade.row) :
  PaperTrades.count_status s rows = trades_with Trade.status String.eqb s rows.
Proof.
  unfold PaperTrades.count_status, trades_with.
  induction rows as [|r rows IH]; [reflexivity|].
  cbn [map filter]. rewrite COUNT_cons, IH.
  destruct (String.eqb (Trade.status r) s); cbn [Sql.case_when is_some];
    simpl List.length; lia.
Qed.

Lemma trades_with_cons {K} (key : Trade.row -> K) (eqb : K -> K -> bool) (k : K)
    (r : Trade.row) (rows : list Trade.row) :
  trades_with key eqb k (r :: rows)
  = (if eqb (key r) k then 1 else 0) + trades_with key eqb k rows.
Proof.
  unfold trades_with. simpl. destruct (eqb (key r) k); simpl List.length; lia.
Qed.

Lemma status_counts_add_up (rows : list Trade.row) :
  (forall r, In r rows -> valid_status (Trade.status r)) ->
  PaperTrades.count_status "planned" rows
  + PaperTrades.count_status "active" rows
  + PaperTrades.count_status "closed" rows
  = Sql.COUNT_star rows.
Proof.
  rewrite !count_status_spec. unfold Sql.COUNT_star.
  induction rows as [|r rows IH]; intro Hall; [reflexivity|].
  assert (IH' := IH (fun r0 H => Hall r0 (or_intror H))).
  rewrite !trades_with_cons.
  replace (Z.of_nat (List.length (r :: rows)))
    with (1 + Z.of_nat (List.length rows)) by (simpl List.length; lia).
  destruct (Hall r (or_introl eq_refl)) as [E|[E|E]]; rewrite E;
    change (String.eqb "planned" "planned") with true;
    change (String.eqb "planned" "active") with false;
    change (String.eqb "planned" "closed") with false;
    change (String.eqb "active" "planned") with false;
    change (String.eqb "active" "active") with true;
    change (String.eqb "active" "closed") with false;
    change (String.eqb "closed" "planned") with false;
    change (String.eqb "closed" "active") with false;
    change (String.eqb "closed" "closed") with true;
    cbv iota; lia.
Qed.

(** X22. In the statistics of every database that requests can produce from the
    empty table, the planned, active and closed counts add up to the total
    number of trades. *)
Theorem reachable_status_counts_add_up :
  forall d : database,
    reachable d ->
    exists st : Stats.t,
      serve PaperTrades.get_paper_trading_stats no_faults d = (OK st, d)
      /\ Stats.planned_trades (Stats.general_stats st)
         + Stats.active_trades (Stats.general_stats st)
         + Stats.closed_trades (Stats.general_stats st)
         = Stats.total_trades (Stats.general_stats st)
      /\ Stats.total_trades (Stats.general_stats st)
         = Z.of_nat (List.length (paper_trades d)).
Proof.
  intros d Hd. eexists. split; [apply stats_no_faults|]. cbn. split; [|reflexivity].
  apply status_counts_add_up.
  assert (Hwf : forall r, In r (paper_trades d) -> well_formed_trade r).
  { revert d Hd.
    apply (reachable_invariant
             (fun d => forall r, In r (paper_trades d) -> well_formed_trade r)).
    - intros r0 [].
    - exact effect_keeps_trades. }
  intros r Hin. now destruct (Hwf r Hin).
Qed.

Lemma reachable_status_counts_add_up_witness :
  exists st : Stats.t,
    serve PaperTrades.get_paper_trading_stats no_faults after_three_requests
    = (OK st, after_three_requests)
    /\ Stats.planned_trades (Stats.general_stats st)
       + Stats.active_trades (Stats.general_stats st)
       + Stats.closed_trades (Stats.general_stats st)
       = 1.
Proof.
  destruct (reachable_status_counts_add_up after_three_requests) as (st & Hrun & Hsum & Htot).
  - unfold after_three_requests. repeat apply reachable_step. apply reachable_empty.
  - exists st. split; [exact Hrun|]. rewrite Hsum, Htot. reflexivity.
Defined.

(** X23. The per-direction statistics hold one row for each direction that
    occurs among the trades; a row's count is the number of trades with its
    direction, and the counts add up to the total number of trades. *)
Theorem stats_by_direction :
  forall d : database,
  exists st : Stats.t,
    serve PaperTrades.get_paper_trading_stats no_faults d = (OK st, d)
    /\ NoDup (map Stats.direction (Stats.by_direction st))
    /\ (forall k, In k (map Stats.direction (Stats.by_direction st))
                  <-> In k (map Trade.direction (paper_trades d)))
    /\ (forall row, In row (Stats.by_direction st) ->
          Stats.direction_trades_count row
          = trades_with Trade.direction String.eqb (Stats.direction row)
              (paper_trades d)
          /\ 1 <= Stats.direction_trades_count row)
    /\ sum_Z (map Stats.direction_trades_count (Stats.by_direction st))
       = Stats.total_trades (Stats.general_stats st).
Proof.
  intro d. eexists. split; [apply stats_no_faults|].
  cbn [Stats.by_direction Stats.general_stats Stats.total_trades
       PaperTrades.select_general].
  unfold PaperTrades.select_by_direction.
  split; [|split; [|split]].
  - rewrite map_map. cbn. rewrite map_id. apply group_keys_NoDup.
  - intro k. rewrite map_map. cbn. rewrite map_id. apply group_keys_In.
  - intros row Hin. apply in_map_iff in Hin as [k [<- Hk]]. cbn.
    split; [reflexivity|].
    apply group_keys_In in Hk. apply in_map_iff in Hk as [r [Hr Hin]].
    unfold Sql.COUNT_star, Sql.group.
    assert (Hf : In r (filter (fun r => String.eqb (Trade.direction r) k)
                         (paper_trades d))).
    { apply filter_In. split; [exact Hin|]. rewrite Hr. apply String.eqb_refl. }
    destruct (filter _ (paper_trades d)); [contradiction|]. simpl List.length. lia.
  - rewrite map_map. cbn.
    apply group_counts_sum; [apply group_keys_NoDup|].
    intros r Hin. apply group_keys_In. now apply in_map.
Qed.

(** X24. The per-symbol statistics hold at most ten rows, for distinct symbols
    that occur among the trades; a row's count is the number of trades with
    its symbol, no row has a count below the row after it, and when the
    trades have at most ten distinct symbols every one of them is listed. *)
Theorem stats_by_symbol :
  forall d : database,
  exists st : Stats.t,
    serve PaperTrades.get_paper_trading_stats no_faults d = (OK st, d)
    /\ (List.length (Stats.by_symbol st) <= 10)%nat
    /\ NoDup (map Stats.symbol (Stats.by_symbol st))
    /\ Sorted (fun a b => Stats.symbol_trades_count b <= Stats.symbol_trades_count a)
         (Stats.by_symbol st)
    /\ (forall row, In row (Stats.by_symbol st) ->
          In (Stats.symbol row) (map Trade.symbol (paper_trades d))
          /\ Stats.symbol_trades_count row
             = trades_with Trade.symbol String.eqb (Stats.symbol row) (paper_trades d)
          /\ 1 <= Stats.symbol_trades_count row)
    /\ ((List.length (Sql.group_keys Trade.symbol (paper_trades d)) <= 10)%nat ->
        forall k, In k (map Trade.symbol (paper_trades d)) ->
                  In k (map Stats.symbol (Stats.by_symbol st))).
Proof.
  intro d. eexists. split; [apply stats_no_faults|].
  cbn [Stats.by_symbol]. unfold PaperTrades.select_by_symbol, Sql.limit.
  set (rows := paper_trades d).
  set (mk := fun k =>
         {| Stats.symbol := k;
            Stats.symbol_trades_count := Sql.COUNT_star (Sql.group Trade.symbol k rows);
            Stats.symbol_pnl :=
              Sql.SUM (map PaperTrades.pnl_or_zero (Sql.group Trade.symbol k rows)) |}).
  set (le := fun a b => (Stats.symbol_trades_count b <=? Stats.symbol_trades_count a)%Z).
  assert (Hperm : Permutation (Sql.order_by le (map mk (Sql.group_keys Trade.symbol rows)))
                    (map mk (Sql.group_keys Trade.symbol rows)))
    by apply order_by_permutation.
  assert (Hsyms : map Stats.symbol (map mk (Sql.group_keys Trade.symbol rows))
                  = Sql.group_keys Trade.symbol rows).
  { rewrite map_map. cbn. apply map_id. }
  split; [apply firstn_le_length|]. split; [|split; [|split]].
  - rewrite <- firstn_map. apply firstn_NoDup.
    apply (Permutation_NoDup (Permutation_sym (Permutation_map Stats.symbol Hperm))).
    rewrite Hsyms. apply group_keys_NoDup.
  - apply firstn_Sorted.
    apply Sorted_impl with (R := fun a b => le a b = true).
    + intros a b H. now apply Z.leb_le.
    + apply order_by_sorted. intros a b. unfold le.
      destruct (Z.leb_spec (Stats.symbol_trades_count b) (Stats.symbol_trades_count a));
        [now left|right; apply Z.leb_le; lia].
  - intros row Hin. apply firstn_In in Hin. apply order_by_In in Hin.
    apply in_map_iff in Hin as [k [<- Hk]]. cbn.
    apply group_keys_In in Hk. split; [exact Hk|]. split; [reflexivity|].
    apply in_map_iff in Hk as [r [Hr Hin]].
    unfold Sql.COUNT_star, Sql.group.
    assert (Hf : In r (filter (fun r => String.eqb (Trade.symbol r) k) rows)).
    { apply filter_In. split; [exact Hin|]. rewrite Hr. apply String.eqb_refl. }
    destruct (filter _ rows); [contradiction|]. simpl List.length. lia.
  - intros Hfew k Hk.
    rewrite firstn_all2.
    + apply (Permutation_in k (Permutation_sym (Permutation_map Stats.symbol Hperm))).
      rewrite Hsyms. now apply group_keys_In.
    + rewrite (Permutation_length Hperm), length_map. exact Hfew.
Qed.

(** ** A new favorite is listed last *)

Lemma insert_before_last {A} (le : A -> A -> bool) (x last : A) (l : list A) :
  le x last = true ->
  Sql.insert le x (l ++ [last])%list = (Sql.insert le x l ++ [last])%list.
Proof.
  intro Hle. induction l as [|y l IH]; simpl.
  - now rewrite Hle.
  - destruct (le x y); [reflexivity|]. now rewrite IH.
Qed.

Lemma order_by_with_last {A} (le : A -> A -> bool) (last : A) (l : list A) :
  (forall x, In x l -> le x last = true) ->
  Sql.order_by le (l ++ [last])%list = (Sql.order_by le l ++ [last])%list.
Proof.
  induction l as [|x l IH]; intro Hall; [reflexivity|].
  cbn [app]. unfold Sql.order_by in *. cbn [fold_right].
  rewrite IH by (intros y H; apply Hall; now right).
  apply insert_before_last. apply Hall. now left.
Qed.

(** X25. After a successful POST /favorites (the symbol stored neither as sent
    nor upper-cased), GET /favorites returns the listing it returned before,
    followed by the new favorite. *)
Theorem new_favorite_listed_last :
  forall (now : clock) (favorite : FavoriteCreate.t) (d : database),
    ~ In (FavoriteCreate.symbol favorite) (map Favorite.symbol (favorites d)) ->
    ~ In (upper (FavoriteCreate.symbol favorite))
         (map Favorite.symbol (favorites d)) ->
    exists (before : list Favorite.row) (r : Favorite.row),
      fst (serve Favorites.get_favorites no_faults d) = OK before
      /\ fst (serve Favorites.get_favorites no_faults
                (snd (serve (Favorites.add_favorite now favorite) no_faults d)))
         = OK (before ++ [r])%list
      /\ Favorite.symbol r = upper (FavoriteCreate.symbol favorite).
Proof.
  intros now favorite d Hraw Hup.
  assert (Hadd : exists r,
            snd (serve (Favorites.add_favorite now favorite) no_faults d)
            = set_favorites d (favorites d ++ [r])%list (favorites_seq d + 1)
            /\ Favorite.symbol r = upper (FavoriteCreate.symbol favorite)
            /\ Favorite.sort_order r
               = opt_int_or (Favorites.select_max_order d) 0 + 1).
  { unfold Favorites.add_favorite. rewrite serve_unfold.
    unfold with_connection, try_except, bind, query, execute, commit, ret, raise.
    cbn [disk work tick next_tick no_faults].
    rewrite (favorite_not_found _ d Hraw). cbn [fetchone hd_error is_some].
    cbn [disk work tick next_tick no_faults].
    unfold Favorites.insert. rewrite (not_In_not_existsb _ d Hup).
    cbn [disk work tick next_tick snd]. eexists. repeat split. }
  destruct Hadd as (r & -> & Hsym & Hso).
  exists (map Favorites.to_dict (Sql.order_by Favorites.listing_le (favorites d))),
         (Favorites.to_dict r).
  split; [reflexivity|]. split; [|exact Hsym].
  change (fst (serve Favorites.get_favorites no_faults
                 (set_favorites d (favorites d ++ [r])%list (favorites_seq d + 1))))
    with (OK (map Favorites.to_dict
                (Sql.order_by Favorites.listing_le (favorites d ++ [r])%list))).
  rewrite order_by_with_last.
  - now rewrite map_app.
  - intros x Hin. unfold Favorites.listing_le.
    pose proof (next_sort_order_above d x Hin) as Hlt. rewrite <- Hso in Hlt.
    apply Z.ltb_lt in Hlt. now rewrite Hlt.
Qed.

Lemma new_favorite_listed_last_witness :
  exists (before : list Favorite.row) (r : Favorite.row),
    fst (serve Favorites.get_favorites no_faults
           (snd (serve (Favorites.add_favorite noon (favorite_request "d"))
                   no_faults favorites_abc)))
    = OK (before ++ [r])%list
    /\ map Favorite.symbol before = ["A"; "B"; "C"]
    /\ Favorite.symbol r = "D".
Proof.
  destruct (new_favorite_listed_last noon (favorite_request "d") favorites_abc)
    as (before & r & Hbefore & Hafter & Hsym).
  - simpl. intros [H|[H|[H|[]]]]; discriminate.
  - simpl. intros [H|[H|[H|[]]]]; discriminate.
  - exists before, r. split; [exact Hafter|]. split; [|exact Hsym].
    vm_compute in Hbefore. injection Hbefore as <-. reflexivity.
Defined.

(** ** The recomputation helper *)

(** X26. [update_watchlist_favorites] never raises, whatever fails: it returns
    after having committed the recomputed flags, or after having left the
    committed database as it was. *)
Theorem update_watchlist_favorites_never_raises :
  forall (f : faults) (c : conn),
    fst (Watchlist.update_watchlist_favorites f c) = Return tt
    /\ (disk (snd (Watchlist.update_watchlist_favorites f c)) = disk c
        \/ disk (snd (Watchlist.update_watchlist_favorites f c))
           = Watchlist.raise_flags (Watchlist.clear_flags (disk c)))
    /\ (f (tick c) = None -> f (S (tick c)) = None -> f (S (S (tick c))) = None ->
        disk (snd (Watchlist.update_watchlist_favorites f c))
        = Watchlist.raise_flags (Watchlist.clear_flags (disk c))).
Proof.
  intros f c.
  unfold Watchlist.update_watchlist_favorites, with_connection, try_except, bind,
    execute, commit, rollback.
  cbn [disk work tick next_tick].
  destruct (f (tick c)) eqn:H0; cbn [disk work tick next_tick fst snd].
  { split; [reflexivity|]. split; [now left|discriminate]. }
  destruct (f (S (tick c))) eqn:H1; cbn [disk work tick next_tick fst snd].
  { split; [reflexivity|]. split; [now left|intros _ H; discriminate H]. }
  destruct (f (S (S (tick c)))) eqn:H2; cbn [disk work tick next_tick fst snd].
  { split; [reflexivity|]. split; [now left|intros _ _ H; discriminate H]. }
  split; [reflexivity|]. split; [now right|reflexivity].
Qed.

Lemma update_watchlist_favorites_never_raises_witness :
  disk (snd (Watchlist.update_watchlist_favorites no_faults
               {| disk := stale_watchlist; work := stale_watchlist; tick := 0 |}))
  = Watchlist.raise_flags (Watchlist.clear_flags stale_watchlist).
Proof.
  apply (proj2 (proj2 (update_watchlist_favorites_never_raises no_faults
                         {| disk := stale_watchlist; work := stale_watchlist;
                            tick := 0 |})));
    reflexivity.
Defined.

(** ** Status codes *)

Lemma client_errors_ret {A} (a : A) : raises_client_errors (ret a).
Proof. intros f c s m H. discriminate H. Qed.

Lemma client_errors_raise_400 {A} (detail : string) :
  raises_client_errors (@raise A (HTTPException 400 detail)).
Proof. intros f c s m H. injection H as <- _. now left. Qed.

Lemma client_errors_raise_404 {A} (detail : string) :
  raises_client_errors (@raise A (HTTPException 404 detail)).
Proof. intros f c s m H. injection H as <- _. now right. Qed.

Lemma client_errors_execute {A} (stmt : database -> outcome (A * database)) :
  (forall d s m, stmt d <> Raise (HTTPException s m)) ->
  raises_client_errors (execute stmt).
Proof.
  intros Hstmt f c s m. unfold execute.
  destruct (f (tick c)); [intro H; discriminate H|].
  destruct (stmt (work c)) as [[a w]|e] eqn:E; [intro H; discriminate H|].
  cbn. intro H. injection H as ->. exfalso. now apply (Hstmt (work c) s m).
Qed.

Lemma client_errors_commit : raises_client_errors commit.
Proof.
  intros f c s m. unfold commit.
  destruct (f (tick c)); intro H; discriminate H.
Qed.

Lemma client_errors_bind {A B} (m : io A) (k : A -> io B) :
  raises_client_errors m -> (forall a, raises_client_errors (k a)) ->
  raises_client_errors (bind m k).
Proof.
  intros Hm Hk f c s detail. unfold bind.
  specialize (Hm f c s detail).
  destruct (m f c) as [[a|e] c1]; cbn in *.
  - apply Hk.
  - intro H. apply Hm. now injection H as ->.
Qed.

Lemma client_errors_reorder_loop (now : clock) (l : list string) :
  forall index, raises_client_errors (Favorites.reorder_loop now index l).
Proof.
  induction l as [|s l IH]; intro index; simpl.
  - apply client_errors_ret.
  - apply client_errors_bind.
    + apply client_errors_execute. intros d s0 m H. discriminate H.
    + intros _. apply IH.
Qed.

Lemma client_errors_bind_int (n : Z) : raises_client_errors (bind_int n).
Proof.
  unfold bind_int. intros f c s detail.
  destruct (Sql.int64 n); intro H; discriminate H.
Qed.

Lemma client_errors_bind_optional_int (n : option Z) :
  raises_client_errors (bind_optional_int n).
Proof.
  destruct n as [v|]; [apply client_errors_bind_int|].
  intros f c s detail H. discriminate H.
Qed.

Ltac no_http_statement :=
  let d := fresh "d" in
  let H := fresh "H" in
  intros d ? ? H;
  try unfold Favorites.insert in H;
  try unfold Watchlist.insert in H;
  try unfold Watchlist.update_item in H;
  try unfold PaperTrades.insert in H;
  try unfold PaperTrades.update_fields in H;
  repeat match type of H with
         | context [if ?b then _ else _] => destruct b
         | context [match ?x with Some _ => _ | None => _ end] => destruct x
         end;
  discriminate H.

Ltac client_errors_body :=
  repeat first
    [ apply client_errors_ret
    | apply client_errors_raise_400
    | apply client_errors_raise_404
    | apply client_errors_commit
    | apply client_errors_bind_int
    | apply client_errors_bind_optional_int
    | apply client_errors_reorder_loop
    | apply client_errors_execute; no_http_statement
    | apply client_errors_bind; [|intro]
    | match goal with
      | |- raises_client_errors (if ?b then _ else _) => destruct b
      | |- raises_client_errors (match ?x with _ => _ end) => destruct x
      end ].

Lemma writer_handles {A} (prefix : string) (body : io A) :
  raises_client_errors body ->
  handles_its_exceptions
    (with_connection
       (try_except body
          (fun e =>
             match e with
             | HTTPException _ _ => raise e
             | _ => rollback ;;; raise (HTTPException 500 (prefix ++ str e))
             end))).
Proof.
  intros Hbody f c e.
  unfold with_connection, try_except.
  specialize (Hbody f {| disk := disk c; work := disk c; tick := tick c |}).
  destruct (body f {| disk := disk c; work := disk c; tick := tick c |})
    as [[a|e0] c1]; cbn in *.
  - intro H. discriminate H.
  - destruct e0 as [s0 m0|m0|m0|m0]; cbn; intro H; injection H as <-.
    + destruct (Hbody s0 m0 eq_refl); eauto 6.
    + eauto 6.
    + eauto 6.
    + eauto 6.
Qed.

Lemma always_500_handles {A} (body : io A) (handler : exn -> io A) :
  (forall e f c, exists detail c',
      handler e f c = (Raise (HTTPException 500 detail), c')) ->
  handles_its_exceptions (with_connection (try_except body handler)).
Proof.
  intros Hh f c e.
  unfold with_connection, try_except.
  destruct (body f {| disk := disk c; work := disk c; tick := tick c |})
    as [[a|e0] c1]; cbn.
  - intro H. discriminate H.
  - destruct (Hh e0 f c1) as (detail' & c' & ->). cbn.
    intro H. injection H as <-. eauto 6.
Qed.

(** X27. Whatever statement fails, whatever the database and the request,
    an endpoint either returns or raises an [HTTPException] with the status
    400, 404 or 500: every error of the storage, of a constraint or of the
    binding of a parameter that arises inside its try block is caught and
    turned into such an exception. *)
Theorem endpoints_handle_their_exceptions :
  handles_its_exceptions Favorites.get_favorites
  /\ (forall now favorite,
        handles_its_exceptions (Favorites.add_favorite now favorite))
  /\ (forall now symbol favorite,
        handles_its_exceptions (Favorites.update_favorite now symbol favorite))
  /\ (forall symbol, handles_its_exceptions (Favorites.remove_favorite symbol))
  /\ (forall now reorder,
        handles_its_exceptions (Favorites.reorder_favorites now reorder))
  /\ handles_its_exceptions Watchlist.get_watchlist
  /\ (forall now item, handles_its_exceptions (Watchlist.add_to_watchlist now item))
  /\ (forall now item_id item,
        handles_its_exceptions (Watchlist.update_watchlist_item now item_id item))
  /\ (forall item_id,
        handles_its_exceptions (Watchlist.remove_from_watchlist item_id))
  /\ (forall status symbol,
        handles_its_exceptions (PaperTrades.get_paper_trades status symbol))
  /\ (forall now trade,
        handles_its_exceptions (PaperTrades.create_paper_trade now trade))
  /\ (forall now trade_id trade_update,
        handles_its_exceptions
          (PaperTrades.update_paper_trade now trade_id trade_update))
  /\ (forall trade_id,
        handles_its_exceptions (PaperTrades.delete_paper_trade trade_id))
  /\ handles_its_exceptions PaperTrades.get_paper_trading_stats.
Proof.
  repeat match goal with |- _ /\ _ => split end; intros;
    first
      [ apply writer_handles; client_errors_body
      | apply always_500_handles; intros e f c; do 2 eexists; reflexivity ].
Qed.

(** ** Closing a trade *)








(** ** The sums and the average of the general statistics *)


